(** * komisyonlarv2: commission service and calculators

    A shallow embedding of the marketplace commission service
    ([app.py]), of the VAT calculator ([calculators/kdv.py],
    [calculators/api.py]) and of the volumetric-weight calculator
    ([calculators/desi.py]), with the properties of the specification
    stated and proved (or refuted) on the embedding.

    Conventions of the embedding.
    - Python [str] values are Rocq [string]s holding the UTF-8 encoding of
      the text.  UTF-8 is self-synchronising and order preserving, so
      substring tests, replacements of whole characters and the
      lexicographic comparison of two texts give the same answers on the
      encoding as on the code points.
    - [decimal.Decimal] values are the rationals they denote; every
      arithmetic operation rounds its exact result to the context
      precision (28 significant digits, ties to even), as the decimal
      context of [kdv.py] prescribes, and [quantize] fails when its result
      needs more digits than the precision.
    - Python [float]s are modelled twice.  The service and the VAT
      function of [app.py] are first embedded on idealised floats, the
      rationals, for the properties that do not depend on the rounding
      of the arithmetic (modules [Service], [AppKdv]).  Where the digits
      that are returned matter, the code is embedded on the floats of
      the interpreter, IEEE 754 binary64 as specified by [SpecFloat] of
      the standard library (modules [Float64], [Kdv64], [Service64],
      [Desi]).
    - A raised exception is a value of type [pyexn] in the left summand of
      [result]. *)

From Stdlib Require Import ZArith QArith Qround Qabs Qpower Lqa Lia Bool.
From Stdlib Require Import String Ascii List Permutation Sorted.
From Stdlib Require SpecFloat.
From stdpp Require Import gmap strings list fin_maps.
Import ListNotations.

#[local] Open Scope string_scope.
#[local] Open Scope Z_scope.
#[local] Open Scope Q_scope.

(** ** Exceptions and the error monad *)

(** The reason attached to a [decimal.InvalidOperation]. *)
Inductive invalid_reason :=
| ConversionSyntax      (* the text is not a number *)
| DivisionUndefined     (* 0 / 0 *)
| QuantizePrecision.    (* quantize result has more digits than the precision *)

Inductive pyexn :=
| InvalidOperation (why : invalid_reason)
| DivisionByZero                (* decimal: x / 0 with x <> 0 *)
| ZeroDivisionError             (* float division by zero *)
| KeyError (key : string)
| ValueError (msg : string).

Definition result (A : Type) : Type := (pyexn + A)%type.

Definition ok {A} (a : A) : result A := inr a.
Definition raise {A} (e : pyexn) : result A := inl e.

Definition rbind {A B} (m : result A) (k : A -> result B) : result B :=
  match m with
  | inl e => inl e
  | inr a => k a
  end.

Notation "'let*' x ':=' m 'in' k" := (rbind m (fun x => k))
  (at level 10, x name, m at level 100, k at level 200).


(** ** Rounding to an integer *)

Inductive rounding := ROUND_HALF_EVEN | ROUND_HALF_UP.

(** Nearest integer; a tie goes to the even neighbour (half-even) or away
    from zero (half-up). *)
Definition round_int (r : rounding) (x : Q) : Z :=
  let f := Qfloor x in
  match Qcompare (x - inject_Z f) (1 # 2) with
  | Lt => f
  | Gt => (f + 1)%Z
  | Eq => match r with
          | ROUND_HALF_EVEN => if Z.even f then f else (f + 1)%Z
          | ROUND_HALF_UP => if Qle_bool 0 x then (f + 1)%Z else f
          end
  end.

(** ** decimal.Decimal under the context of kdv.py *)

Module PyDecimal.

(** [getcontext().prec = 28] *)
Definition prec : Z := 28.

Fixpoint ndigits_fuel (fuel : nat) (n : Z) : Z :=
  match fuel with
  | O => 1
  | S fuel' => if (n <? 10)%Z then 1 else (1 + ndigits_fuel fuel' (n / 10))%Z
  end.

(** Number of decimal digits of a natural number (1 for 0). *)
Definition ndigits (n : Z) : Z := ndigits_fuel (Z.to_nat (Z.log2 n)) n.

(** [Decimal.adjusted()]: the exponent of the leading digit,
    floor (log10 |x|), for x <> 0. *)
Definition adjusted (x : Q) : Z :=
  let n := Z.abs (Qnum x) in
  let d := Zpos (Qden x) in
  let a0 := (ndigits n - ndigits d)%Z in
  let above :=
    if (0 <=? a0)%Z then (d * 10 ^ a0 <=? n)%Z else (d <=? n * 10 ^ (- a0))%Z in
  if above then a0 else (a0 - 1)%Z.

(** Rounding of an exact result to the context: [prec] significant
    digits, the context's rounding being ROUND_HALF_EVEN. *)
Definition round_prec (x : Q) : Q :=
  if Qeq_bool x 0 then 0
  else
    let k := (prec - 1 - adjusted x)%Z in
    inject_Z (round_int ROUND_HALF_EVEN (x * 10 ^ k)) / 10 ^ k.

Definition add (x y : Q) : Q := round_prec (x + y).
Definition sub (x y : Q) : Q := round_prec (x - y).
Definition mul (x y : Q) : Q := round_prec (x * y).

Definition div (x y : Q) : result Q :=
  if Qeq_bool y 0 then
    if Qeq_bool x 0 then raise (InvalidOperation DivisionUndefined)
    else raise DivisionByZero
  else ok (round_prec (x / y)).

Definition max (x y : Q) : Q := round_prec (if Qle_bool x y then y else x).
Definition min (x y : Q) : Q := round_prec (if Qle_bool x y then x else y).

(** [x.quantize(Decimal("0.01"), rounding=r)]: the multiple of 0.01
    nearest to [x]; InvalidOperation when the coefficient of the result
    would have more than [prec] digits. *)
Definition quantize2 (r : rounding) (x : Q) : result Q :=
  let c := round_int r (x * 100) in
  if (Z.abs c <? 10 ^ prec)%Z then ok (c # 100)
  else raise (InvalidOperation QuantizePrecision).

End PyDecimal.

(** ** Python string operations on UTF-8 encoded text *)

Module PyStr.

Definition utf8 (bs : list N) : string :=
  fold_right (fun b s => String (ascii_of_N b) s) "" bs.

Fixpoint drop (n : nat) (s : string) : string :=
  match n, s with
  | S k, String _ s' => drop k s'
  | _, _ => s
  end.

(** [sub in s] *)
Fixpoint str_in (sub s : string) : bool :=
  String.prefix sub s ||
  match s with
  | "" => false
  | String _ s' => str_in sub s'
  end.

(** [s.replace(old, new)] for a non-empty [old]: occurrences are
    replaced from left to right, without overlap.  [skip] counts the
    characters of the occurrence just replaced that are still to be
    passed over. *)
Fixpoint replace_go (old new : string) (skip : nat) (s : string) : string :=
  match s with
  | "" => ""
  | String c s' =>
      match skip with
      | S k => replace_go old new k s'
      | O =>
          if String.prefix old s
          then new ++ replace_go old new (String.length old - 1) s'
          else String c (replace_go old new O s')
      end
  end.

Fixpoint interleave (new s : string) : string :=
  match s with
  | "" => new
  | String c s' => new ++ String c (interleave new s')
  end.

Definition replace (old new s : string) : string :=
  if String.eqb old "" then interleave new s else replace_go old new 0 s.

(** The characters for which [str.isspace()] holds: U+0009..U+000D,
    U+001C..U+0020, U+0085, U+00A0, U+1680, U+2000..U+200A, U+2028,
    U+2029, U+202F, U+205F, U+3000. *)
Definition whitespace : list string :=
  map utf8
    [ [9]; [10]; [11]; [12]; [13]; [28]; [29]; [30]; [31]; [32];
      [194; 133]; [194; 160]; [225; 154; 128];
      [226; 128; 128]; [226; 128; 129]; [226; 128; 130]; [226; 128; 131];
      [226; 128; 132]; [226; 128; 133]; [226; 128; 134]; [226; 128; 135];
      [226; 128; 136]; [226; 128; 137]; [226; 128; 138];
      [226; 128; 168]; [226; 128; 169]; [226; 128; 175];
      [226; 129; 159]; [227; 128; 128] ]%N.

Fixpoint lstrip_go (ws : list string) (fuel : nat) (s : string) : string :=
  match fuel with
  | O => s
  | S fuel' =>
      match find (fun w => String.prefix w s) ws with
      | Some w => lstrip_go ws fuel' (drop (String.length w) s)
      | None => s
      end
  end.

Definition lstrip (s : string) : string :=
  lstrip_go whitespace (String.length s) s.

Definition rstrip (s : string) : string :=
  String.rev (lstrip_go (map String.rev whitespace) (String.length s) (String.rev s)).

(** [s.strip()] *)
Definition strip (s : string) : string := rstrip (lstrip s).

(** [s.split(sep, 1)] when [sep] occurs in [s]: the text before and the
    text after the first occurrence. *)
Fixpoint split1 (sep s : string) : option (string * string) :=
  if String.prefix sep s then Some ("", drop (String.length sep) s)
  else
    match s with
    | "" => None
    | String c s' =>
        match split1 sep s' with
        | Some (a, b) => Some (String c a, b)
        | None => None
        end
    end.

(** [s.split(sep)] for a separator of one character *)
Fixpoint split_char (sep : ascii) (s : string) : list string :=
  match s with
  | "" => [""]
  | String c s' =>
      if Ascii.eqb c sep then "" :: split_char sep s'
      else
        match split_char sep s' with
        | h :: t => String c h :: t
        | [] => [String c ""]
        end
  end.

Definition digit_of (c : ascii) : option Z :=
  let n := N_of_ascii c in
  if ((48 <=? n) && (n <=? 57))%N then Some (Z.of_N n - 48)%Z else None.

(** Reads the longest run of ASCII digits at the head of [s]: the number
    read (continuing [acc]), how many digits were read, and the rest. *)
Fixpoint take_digits (s : string) (acc cnt : Z) : Z * Z * string :=
  match s with
  | "" => (acc, cnt, "")
  | String c s' =>
      match digit_of c with
      | Some d => take_digits s' (10 * acc + d)%Z (cnt + 1)%Z
      | None => (acc, cnt, s)
      end
  end.

Definition take_sign (s : string) : bool * string :=
  match s with
  | String "-" s' => (true, s')
  | String "+" s' => (false, s')
  | _ => (false, s)
  end.

End PyStr.

(** [Decimal(text)] for the finite numeric strings
    [sign] (digits [. [digits]] | . digits) [(e|E) [sign] digits],
    after removing surrounding whitespace and underscores.  The special
    values (Infinity, NaN) are not part of the model. *)
Definition Decimal_of_string (text : string) : result Q :=
  let s := PyStr.replace "_" "" (PyStr.strip text) in
  let '(neg, s1) := PyStr.take_sign s in
  let '(ip, ni, s2) := PyStr.take_digits s1 0%Z 0%Z in
  let '(co, nf, s3) :=
    match s2 with
    | String "." s2' => PyStr.take_digits s2' ip 0%Z
    | _ => (ip, 0%Z, s2)
    end in
  let e :=
    match s3 with
    | "" => Some 0%Z
    | String c s4 =>
        if (Ascii.eqb c "e" || Ascii.eqb c "E")%bool then
          let '(eneg, s5) := PyStr.take_sign s4 in
          let '(ev, ne, s6) := PyStr.take_digits s5 0%Z 0%Z in
          if ((0 <? ne)%Z && String.eqb s6 "")%bool
          then Some (if eneg then (- ev)%Z else ev)
          else None
        else None
    end in
  match e with
  | Some ex =>
      if (ni + nf =? 0)%Z then raise (InvalidOperation ConversionSyntax)
      else ok (inject_Z (if neg then (- co)%Z else co) * 10 ^ (ex - nf)%Z)
  | None => raise (InvalidOperation ConversionSyntax)
  end.

(** A JSON scalar that Python receives as a number or as a string. *)
Inductive pynum :=
| Num (q : Q)
| Str (s : string).

(** [Decimal(str(x))]: the repr of a Python number denotes the number. *)
Definition Decimal_of_pynum (x : pynum) : result Q :=
  match x with
  | Num q => ok q
  | Str s => Decimal_of_string s
  end.

(** ** calculators/kdv.py *)

Module Kdv.

(** [_q2]: two decimals; "even" and "half_even" select ROUND_HALF_EVEN,
    every other mode ROUND_HALF_UP. *)
Definition rounding_of (mode : string) : rounding :=
  if (String.eqb mode "even" || String.eqb mode "half_even")%bool
  then ROUND_HALF_EVEN else ROUND_HALF_UP.

Definition _q2 (x : Q) (mode : string) : result Q :=
  PyDecimal.quantize2 (rounding_of mode) x.

Definition _norm_rate (rate_input : pynum) : result Q :=
  let* r := Decimal_of_pynum rate_input in
  if Qle_bool 1 r then PyDecimal.div r 100 else ok r.

Definition _parse_withholding (w : option pynum) : result Q :=
  match w with
  | None => ok 0
  | Some (Str t) =>
      let s := PyStr.replace " " "" (PyStr.strip t) in
      if PyStr.str_in "/" s then
        match PyStr.split1 "/" s with
        | Some (a, b) =>
            if String.eqb b "0" then ok 0
            else
              let* da := Decimal_of_string a in
              let* db := Decimal_of_string b in
              let* q := PyDecimal.div da db in
              ok (PyDecimal.min (PyDecimal.max q 0) 1)
        | None => ok 0
        end
      else
        let* val := Decimal_of_string s in
        let* val := (if Qlt_le_dec 1 val then PyDecimal.div val 100 else ok val) in
        let val := if Qlt_le_dec val 0 then 0 else val in
        let val := if Qlt_le_dec 1 val then 1 else val in
        ok val
  | Some (Num q) =>
      (* str(q) has no "/" and denotes q *)
      let* val := (if Qlt_le_dec 1 q then PyDecimal.div q 100 else ok q) in
      let val := if Qlt_le_dec val 0 then 0 else val in
      let val := if Qlt_le_dec 1 val then 1 else val in
      ok val
  end.

(** The fields are the decimals computed by the calculator; their
    conversion to [float] is exact on the values it is applied to as
    long as they have at most 15 significant digits. *)
Record KDVResult := mkKDVResult {
  price_excl_vat : Q;
  vat_amount : Q;
  price_incl_vat : Q;
  rate : Q;
  withholding_rate : Q;
  withholding_amount : Q;
  payable_vat : Q
}.

Definition add_vat (price_excl_vat : Q) (rate : pynum)
    (withholding_rate : option pynum) (rounding : string) : result KDVResult :=
  let net := price_excl_vat in
  let* oran := _norm_rate rate in
  let* kdv := _q2 (PyDecimal.mul net oran) rounding in
  let* brut := _q2 (PyDecimal.add net kdv) rounding in
  let* tw := _parse_withholding withholding_rate in
  let* tevkifat := _q2 (PyDecimal.mul kdv tw) rounding in
  let* payable := _q2 (PyDecimal.sub kdv tevkifat) rounding in
  let* net2 := _q2 net rounding in
  ok (mkKDVResult net2 kdv brut oran tw tevkifat payable).

Definition remove_vat (price_incl_vat : Q) (rate : pynum)
    (withholding_rate : option pynum) (rounding : string) : result KDVResult :=
  let brut := price_incl_vat in
  let* oran := _norm_rate rate in
  let* quot := PyDecimal.div brut (PyDecimal.add 1 oran) in
  let* net := _q2 quot rounding in
  let* kdv := _q2 (PyDecimal.sub brut net) rounding in
  let* brut := _q2 brut rounding in
  let* tw := _parse_withholding withholding_rate in
  let* tevkifat := _q2 (PyDecimal.mul kdv tw) rounding in
  let* payable := _q2 (PyDecimal.sub kdv tevkifat) rounding in
  ok (mkKDVResult net kdv brut oran tw tevkifat payable).

Definition from_vat_amount (vat_amount : Q) (rate : pynum)
    (withholding_rate : option pynum) (rounding : string) : result KDVResult :=
  let* kdv := _q2 vat_amount rounding in
  let* oran := _norm_rate rate in
  let* quot := PyDecimal.div kdv oran in
  let* net := _q2 quot rounding in
  let* brut := _q2 (PyDecimal.add net kdv) rounding in
  let* tw := _parse_withholding withholding_rate in
  let* tevkifat := _q2 (PyDecimal.mul kdv tw) rounding in
  let* payable := _q2 (PyDecimal.sub kdv tevkifat) rounding in
  ok (mkKDVResult net kdv brut oran tw tevkifat payable).

End Kdv.

(** ** Vocabulary of the statements about the VAT calculator *)

(** An exact half: the fractional part of [x] is 1/2. *)
Definition is_tie (x : Q) : Prop := x - inject_Z (Qfloor x) == 1 # 2.

(** [x] is a whole number of cents plus exactly half a cent. *)
Definition half_cent (x : Q) : Prop := is_tie (x * 100).

(** [x] has at most [k] digits after the decimal point. *)
Definition decimal_places (k : Z) (x : Q) : Prop :=
  x * 10 ^ k == inject_Z (Qfloor (x * 10 ^ k)).

(** ** calculators/api.py *)

(** [str.lower] is a parameter of the model: the statements hold for
    whatever it does to the text.  [ascii_lower] is what it does to ASCII
    text, and is used to run the model on ASCII examples. *)
Definition ascii_lower_char (c : ascii) : ascii :=
  let n := N_of_ascii c in
  if ((65 <=? n) && (n <=? 90))%N then ascii_of_N (n + 32) else c.

Fixpoint ascii_lower (s : string) : string :=
  match s with
  | "" => ""
  | String c s' => String (ascii_lower_char c) (ascii_lower s')
  end.

Module CalcApi.

(** The JSON body of a request to /api/calc/kdv, field by field; [None]
    is an absent key.  Numeric fields hold the number that [float(..)]
    yields. *)
Record kdv_request := mkRequest {
  direction : option string;
  price : option Q;
  vatAmount : option Q;
  vat_amount : option Q;
  rate : option pynum;
  rounding : option string;
  withholdingRate : option pynum;
  withholding_rate : option pynum
}.

Record payload := mkPayload {
  p_direction : string;
  p_rounding : string;
  p_result : Kdv.KDVResult
}.

(** The "error" entry of a response: a fixed message, or the text of
    the exception that was caught. *)
Inductive error_text :=
| Message (s : string)
| StrOfException (e : pyexn).

(** [{"success": .., "error": .., "data": ..}]; [data = None] is the
    empty object. *)
Record response := mkResponse {
  success : bool;
  error : option error_text;
  data : option payload
}.

Definition _to_camel_payload (res : Kdv.KDVResult) (direction rounding : string) : payload :=
  mkPayload direction rounding res.

Definition get_key {A} (key : string) (field : option A) : result A :=
  match field with
  | Some a => ok a
  | None => raise (KeyError key)
  end.

Section WithLower.
Variable lower : string -> string.

(** The body of the [try] block: the response and status it returns,
    or the exception that leaves it. *)
Definition api_calc_kdv_try (d : kdv_request) : result (response * Z) :=
  let direction := lower (default "add" (direction d)) in
  let rate := default (Num (2 # 10)) (rate d) in
  let rounding := default "even" (rounding d) in
  let w := match withholdingRate d with
           | Some x => Some x
           | None => withholding_rate d
           end in
  if String.eqb direction "add" then
    let* price := get_key "price" (price d) in
    let* res := Kdv.add_vat price rate w rounding in
    ok (mkResponse true None (Some (_to_camel_payload res direction rounding)), 200%Z)
  else if String.eqb direction "remove" then
    let* price := get_key "price" (price d) in
    let* res := Kdv.remove_vat price rate w rounding in
    ok (mkResponse true None (Some (_to_camel_payload res direction rounding)), 200%Z)
  else if (String.eqb direction "from_vat" || String.eqb direction "from_kdv")%bool then
    let* vat :=
      match vatAmount d with
      | Some v => ok v
      | None => get_key "vat_amount" (vat_amount d)
      end in
    let* res := Kdv.from_vat_amount vat rate w rounding in
    ok (mkResponse true None (Some (_to_camel_payload res "from_vat" rounding)), 200%Z)
  else
    ok (mkResponse false
          (Some (Message "direction 'add' | 'remove' | 'from_vat' olmalı")) None, 400%Z).

(** [except Exception as e]: every exception becomes a response. *)
Definition api_calc_kdv (d : kdv_request) : response * Z :=
  match api_calc_kdv_try d with
  | inr r => r
  | inl e => (mkResponse false (Some (StrOfException e)) None, 500%Z)
  end.

End WithLower.

End CalcApi.

(** ** app.py: helpers *)

(** [round(x, 2)] on a float, idealised: the nearest multiple of 0.01,
    ties to even. *)
Definition round2 (x : Q) : Q := round_int ROUND_HALF_EVEN (x * 100) # 100.

(** Float computations that may raise, together with the log of the
    divisors of the divisions they performed, in evaluation order. *)
Module Traced.

Definition t (A : Type) : Type := (result A * list Q)%type.

Definition ret {A} (a : A) : t A := (ok a, []).

Definition bind {A B} (m : t A) (k : A -> t B) : t B :=
  match m with
  | (inl e, log) => (inl e, log)
  | (inr a, log) => let '(r, log') := k a in (r, (log ++ log')%list)
  end.

(** [x / y] on floats *)
Definition fdiv (x y : Q) : t Q :=
  if Qeq_bool y 0 then (raise ZeroDivisionError, [y]) else (ok (x / y), [y]).

Definition outcome {A} (m : t A) : result A := fst m.
Definition divisors {A} (m : t A) : list Q := snd m.

End Traced.

Notation "'let+' x ':=' m 'in' k" := (Traced.bind m (fun x => k))
  (at level 10, x name, m at level 100, k at level 200).

(** [sorted(l, key=..)] / [list.sort(key=..)]: a stable sort; [le a b]
    compares the keys of [a] and [b]. *)
Fixpoint insert_by {A} (le : A -> A -> bool) (x : A) (l : list A) : list A :=
  match l with
  | [] => [x]
  | y :: l' => if le x y then x :: l else y :: insert_by le x l'
  end.

Fixpoint sort_by {A} (le : A -> A -> bool) (l : list A) : list A :=
  match l with
  | [] => []
  | x :: l' => insert_by le x (sort_by le l')
  end.

(** A Python float that may be NaN. *)
Inductive pyfloat :=
| Fin (q : Q)
| NaN.

(** [a > b] on floats: false as soon as one side is NaN. *)
Definition fgt (a b : pyfloat) : bool :=
  match a, b with
  | Fin x, Fin y => negb (Qle_bool x y)
  | _, _ => false
  end.

(** [v or 0.0]: None and 0.0 are falsy, NaN is truthy. *)
Definition or_zero (v : option pyfloat) : pyfloat :=
  match v with
  | None => Fin 0
  | Some (Fin q) => if Qeq_bool q 0 then Fin 0 else Fin q
  | Some NaN => NaN
  end.

(** The value stored under "Komisyon_%_KDV_Dahil" in a row. *)
Inductive pyval :=
| PNone
| PFloat (f : pyfloat)
| PStr (s : string).

(** A record of [to_dict(orient="records")]: the canonical four fields. *)
Record Row := mkRow {
  Kategori : string;
  Alt_Kategori : string;
  Urun_Grubu : string;
  Komisyon : pyval
}.

(** A cell of a table read by pandas: missing, a number (with its
    [str()]), or text. *)
Inductive cell :=
| CNaN
| CNum (q : Q) (repr : string)
| CStr (s : string).

Record DataFrame := mkDataFrame {
  columns : list string;
  records : list (list cell)     (* row by row, aligned with [columns] *)
}.

Fixpoint col_index (c : string) (cols : list string) : option nat :=
  match cols with
  | [] => None
  | c' :: cols' =>
      if String.eqb c c' then Some O
      else match col_index c cols' with
           | Some i => Some (S i)
           | None => None
           end
  end.

(** [c in df.columns] *)
Definition has_column (df : DataFrame) (c : string) : bool :=
  match col_index c (columns df) with Some _ => true | None => false end.

(** The cell of row [r] in column [c]. *)
Definition cell_at (df : DataFrame) (c : string) (r : list cell) : cell :=
  match col_index c (columns df) with
  | Some i => nth i r CNaN
  | None => CNaN
  end.

(** [.astype(str)] on a cell *)
Definition astype_str (x : cell) : string :=
  match x with
  | CNaN => "nan"
  | CNum _ repr => repr
  | CStr s => s
  end.

(** [pd.to_numeric(.., errors="coerce")] on a cell; text is read with the
    grammar of finite numerals. *)
Definition to_numeric (x : cell) : option Q :=
  match x with
  | CNaN => None
  | CNum q _ => Some q
  | CStr s => match Decimal_of_string s with inr q => Some q | inl _ => None end
  end.

(** The first match of the pattern (\d+(?:\.\d+)?) in [s], as a number. *)
Fixpoint first_number (s : string) : option Q :=
  match s with
  | "" => None
  | String c s' =>
      match PyStr.digit_of c with
      | Some _ =>
          let '(ip, _, rest) := PyStr.take_digits s 0%Z 0%Z in
          match rest with
          | String "." rest' =>
              let '(co, nf, _) := PyStr.take_digits rest' ip 0%Z in
              if (0 <? nf)%Z then Some (inject_Z co / 10 ^ nf) else Some (inject_Z ip)
          | _ => Some (inject_Z ip)
          end
      | None => first_number s'
      end
  end.

(** The 0.95 quantile of a sample, by linear interpolation between the
    two order statistics around position 0.95 (n - 1). *)
Definition Qle_b (x y : Q) : bool := Qle_bool x y.

Definition quantile95 (vals : list Q) : Q :=
  let sorted := sort_by Qle_b vals in
  let h := (95 # 100) * inject_Z (Z.of_nat (length vals) - 1) in
  let i := Z.to_nat (Qfloor h) in
  let lo := nth i sorted 0 in
  let hi := nth (S i) sorted lo in
  lo + (h - inject_Z (Qfloor h)) * (hi - lo).

(** The non-missing values of a numeric column. *)
Definition notna (ser : list (option Q)) : list Q :=
  omap id ser.

(** ** app.py: normalize_api_item, the renaming of the keys *)

Definition is_ascii_alpha (c : ascii) : bool :=
  let n := N_of_ascii c in
  (((65 <=? n) && (n <=? 90)) || ((97 <=? n) && (n <=? 122)))%N.

Definition is_ascii_alnum (c : ascii) : bool :=
  let n := N_of_ascii c in
  (is_ascii_alpha c || ((48 <=? n) && (n <=? 57))%N)%bool.

Fixpoint all_chars (p : ascii -> bool) (s : string) : bool :=
  match s with
  | "" => true
  | String c s' => p c && all_chars p s'
  end.

(** [re.match(r"^[a-zA-Z][a-zA-Z0-9]*$", k)]; the pattern's [$] also
    accepts one final newline. *)
Definition is_camel_key (k : string) : bool :=
  match k with
  | "" => false
  | String c s' =>
      is_ascii_alpha c &&
      (all_chars is_ascii_alnum s' ||
       match String.rev s' with
       | String "010" t => all_chars is_ascii_alnum t
       | _ => false
       end)
  end.

(** [_ascii_tr] and [_normalize_turkish]: the same twelve replacements,
    in the order of the dictionary. *)
Definition turkish_repl : list (string * string) :=
  [ ("ğ", "g"); ("Ğ", "G"); ("ü", "u"); ("Ü", "U"); ("ş", "s"); ("Ş", "S");
    ("ı", "i"); ("İ", "I"); ("ö", "o"); ("Ö", "O"); ("ç", "c"); ("Ç", "C") ].

Definition _ascii_tr (s : string) : string :=
  fold_left (fun acc on => PyStr.replace (fst on) (snd on) acc) turkish_repl s.

(** The parts of [re.split(r"[^A-Za-z0-9]+", s)] that are not empty: the
    maximal runs of ASCII letters and digits. *)
Fixpoint alnum_runs (cur : string) (s : string) : list string :=
  match s with
  | "" => if String.eqb cur "" then [] else [String.rev cur]
  | String c s' =>
      if is_ascii_alnum c then alnum_runs (String c cur) s'
      else if String.eqb cur "" then alnum_runs "" s'
      else String.rev cur :: alnum_runs "" s'
  end.

Definition ascii_upper_char (c : ascii) : ascii :=
  let n := N_of_ascii c in
  if ((97 <=? n) && (n <=? 122))%N then ascii_of_N (n - 32) else c.

(** [p.capitalize()] on ASCII text *)
Definition ascii_capitalize (s : string) : string :=
  match s with
  | "" => ""
  | String c s' => String (ascii_upper_char c) (ascii_lower s')
  end.

Definition _to_camel_from_any (s : string) : string :=
  let s := _ascii_tr s in
  match alnum_runs "" (PyStr.strip s) with
  | [] => s
  | first :: rest => ascii_lower first ++ String.concat "" (map ascii_capitalize rest)
  end.

(** The new name of key [k] of an item, given which of the keys
    "Ana Kategori" and "Alt Kategori" the item has. *)
Definition api_key (has_ana_k has_alt : bool) (k : string) : string :=
  if String.eqb k "Kategori" then
    if (has_ana_k && negb has_alt)%bool then "subCategory" else "category"
  else if String.eqb k "Ana Kategori" then "category"
  else if String.eqb k "Alt Kategori" then "subCategory"
  else if (String.eqb k "Ürün Grubu" || String.eqb k "Urun Grubu"
           || String.eqb k "Urun_Grubu")%bool then "productGroup"
  else if (String.eqb k "Komisyon_%_KDV_Dahil"
           || String.eqb k "Uygulanan_Komisyon_%_KDV_Dahil")%bool then "commissionPercent"
  else if String.eqb k "komisyon" then "commissionText"
  else if is_camel_key k then k
  else _to_camel_from_any k.

(** [d[k] = v] on a dictionary kept in insertion order. *)
Fixpoint dict_set {V} (k : string) (v : V) (d : list (string * V)) : list (string * V) :=
  match d with
  | [] => [(k, v)]
  | (k', v') :: d' => if String.eqb k k' then (k, v) :: d' else (k', v') :: dict_set k v d'
  end.

Fixpoint dict_get {V} (k : string) (d : list (string * V)) : option V :=
  match d with
  | [] => None
  | (k', v') :: d' => if String.eqb k k' then Some v' else dict_get k d'
  end.

(** The loop of [normalize_api_item] (the fields derived after it are
    written under other keys than "category" and "subCategory"). *)
Definition rename_keys {V} (item : list (string * V)) : list (string * V) :=
  let has_ana_k := bool_decide (is_Some (dict_get "Ana Kategori" item)) in
  let has_alt := bool_decide (is_Some (dict_get "Alt Kategori" item)) in
  fold_left (fun out kv => dict_set (api_key has_ana_k has_alt (fst kv)) (snd kv) out) item [].

(** ** app.py: MultiMarketplaceCommissionService *)

Module Service.

Record candidates := mkCandidates {
  category : list string;
  sub_category : list string;
  product_group : list string;
  commission : list string
}.

Record marketplace := mkMarketplace {
  name : string;
  csv_file : string;
  columns_candidates : candidates
}.

(** [self.marketplaces], in the order of the dictionary. *)
Definition marketplaces : list (string * marketplace) :=
  [ ("trendyol",
     mkMarketplace "Trendyol" "commissions_flat.csv"
       (mkCandidates ["Ana Kategori"; "Kategori"] ["Kategori"; "Alt Kategori"]
          ["Ürün Grubu"; "Urun Grubu"; "Urun_Grubu"]
          ["Komisyon_%_KDV_Dahil"; "komisyon"]));
    ("hepsiburada",
     mkMarketplace "Hepsiburada" "hepsiburada_commissions.csv"
       (mkCandidates ["Ana Kategori"; "Kategori"] ["Kategori"; "Alt Kategori"]
          ["Ürün Grubu"; "Urun Grubu"; "Urun_Grubu"]
          ["Komisyon_%_KDV_Dahil"; "Uygulanan_Komisyon_%_KDV_Dahil"; "komisyon"]));
    ("n11",
     mkMarketplace "N11" "n11_commissions.csv"
       (mkCandidates ["Kategori"; "Ana Kategori"] ["Alt Kategori"; "Kategori"]
          ["Ürün Grubu"; "Urun Grubu"; "Urun_Grubu"]
          ["Komisyon_%_KDV_Dahil"; "komisyon"]));
    ("amazon",
     mkMarketplace "Amazon" "amazon_commissions.csv"
       (mkCandidates ["Kategori"] ["Alt Kategori"]
          ["Ürün Grubu"; "Kategori"]
          ["Komisyon_%_KDV_Dahil"; "Satış Komisyonu (+KDV)"]));
    ("ciceksepeti",
     mkMarketplace "Çiçeksepeti" "ciceksepeti_commissions.csv"
       (mkCandidates ["Kategori"; "Ana Kategori"] ["Alt Kategori"; "Kategori"]
          ["Ürün Grubu"; "Kategori"]
          ["Komisyon_%_KDV_Dahil"; "Komisyon Oranı"; "Revize Komisyon Oranı"]));
    ("pttavm",
     mkMarketplace "PTTAVM" "pttavm_commissions.csv"
       (mkCandidates ["Kategori"; "Ana Kategori"] ["Alt Kategori"]
          ["Ürün Grubu"; "Alt Kategori"; "Kategori"]
          ["Komisyon_%_KDV_Dahil"; "Komisyon"; "Komisyon Oranları"])) ].

(** *** Reading and normalising a table *)

(** [_extract_number] on the text of a cell *)
Definition _extract_number (x : string) : option Q :=
  first_number (PyStr.replace "," "." (PyStr.strip x)).

(** [_fix_scale] on a numeric column ([None] is a missing value): the
    column times 100 when it has a value and its 0.95 quantile is at
    most 1.0. *)
Definition _fix_scale (ser : list (option Q)) : list (option Q) :=
  if (negb (Nat.eqb (length (notna ser)) 0) && Qle_bool (quantile95 (notna ser)) 1)%bool
  then map (option_map (fun x => x * 100)) ser
  else ser.

(** [repr] of a list of texts without quotes or escapes in them:
    ['a', 'b']. *)
Definition repr_list (l : list string) : string :=
  "[" ++ String.concat ", " (map (fun s => "'" ++ s ++ "'") l) ++ "]".

Definition _pick_first_present (df : DataFrame) (cands : list string) : option string :=
  find (has_column df) cands.

Definition row_nonempty (r : Row) : bool :=
  (negb (String.eqb (Kategori r) "") || negb (String.eqb (Alt_Kategori r) "")
   || negb (String.eqb (Urun_Grubu r) ""))%bool.

Definition pyfloat_eqb (a b : pyfloat) : bool :=
  match a, b with
  | Fin x, Fin y => Qeq_bool x y
  | NaN, NaN => true
  | _, _ => false
  end.

Definition pyval_eqb (a b : pyval) : bool :=
  match a, b with
  | PNone, PNone => true
  | PFloat x, PFloat y => pyfloat_eqb x y
  | PStr s, PStr t => String.eqb s t
  | _, _ => false
  end.

Definition row_eqb (a b : Row) : bool :=
  (String.eqb (Kategori a) (Kategori b) && String.eqb (Alt_Kategori a) (Alt_Kategori b)
   && String.eqb (Urun_Grubu a) (Urun_Grubu b) && pyval_eqb (Komisyon a) (Komisyon b))%bool.

(** [drop_duplicates()]: the first of equal rows stays. *)
Fixpoint drop_duplicates_go (seen : list Row) (l : list Row) : list Row :=
  match l with
  | [] => []
  | r :: l' =>
      if existsb (row_eqb r) seen then drop_duplicates_go seen l'
      else r :: drop_duplicates_go (r :: seen) l'
  end.

Definition drop_duplicates (l : list Row) : list Row := drop_duplicates_go [] l.

(** The columns that [_normalize_to_flat4] reads, or the ValueError it
    raises: a function of the column names alone.  An absent column is
    the empty name, as in the source. *)
Definition resolve_columns (df : DataFrame) (c : candidates)
  : result (string * string * string * string) :=
  let cat_col := default "" (_pick_first_present df (category c)) in
  let sub_col := default "" (_pick_first_present df (sub_category c)) in
  let grp_col := default "" (_pick_first_present df (product_group c)) in
  let com_col := default "" (_pick_first_present df (commission c)) in
  if String.eqb grp_col "" then
    raise (ValueError ("Ürün Grubu kolonu bulunamadı (candidates="
                       ++ repr_list (product_group c) ++ ")"))
  else if (String.eqb cat_col "" && String.eqb sub_col "")%bool
  then raise (ValueError "Kategori/Alt Kategori kolonları bulunamadı.")
  else ok (cat_col, sub_col, grp_col, com_col).

(** The text of column [c], cell by cell: [df[c].astype(str).str.strip()]. *)
Definition text_of (df : DataFrame) (c : string) (r : list cell) : string :=
  PyStr.strip (astype_str (cell_at df c r)).

(** The table before its empty rows and duplicates are dropped; the
    missing commissions are already the "" of the later [fillna("")]. *)
Definition flat4_rows (df : DataFrame) (cat_col sub_col grp_col com_col : string)
  : list Row :=
  let vals :=
    if String.eqb com_col "" then map (fun _ => None) (records df)
    else _fix_scale
           (map (fun r => _extract_number (astype_str (cell_at df com_col r))) (records df)) in
  let two := (negb (String.eqb cat_col "") && negb (String.eqb sub_col "")
              && negb (String.eqb cat_col sub_col))%bool in
  let use_col := if String.eqb cat_col "" then sub_col else cat_col in
  map (fun rv : list cell * option Q =>
         let (r, v) := rv in
         mkRow (if two then text_of df cat_col r else text_of df use_col r)
               (if two then text_of df sub_col r else "")
               (text_of df grp_col r)
               (match v with Some q => PFloat (Fin q) | None => PStr "" end))
      (combine (records df) vals).

Definition _normalize_to_flat4 (df : DataFrame) (c : candidates) : result (list Row) :=
  let* cols := resolve_columns df c in
  let '(cat_col, sub_col, grp_col, com_col) := cols in
  ok (drop_duplicates (filter row_nonempty (flat4_rows df cat_col sub_col grp_col com_col))).

(** What the process sees of the file system. *)
Record filesystem := mkFilesystem {
  fs_exists : string -> bool;
  fs_mtime : string -> Q;
  fs_read_csv : string -> string -> result DataFrame   (* path, encoding *)
}.

Definition _read_csv_with_fallbacks (fs : filesystem) (path : string) : result DataFrame :=
  match fs_read_csv fs path "utf-8-sig" with
  | inr df => ok df
  | inl _ => fs_read_csv fs path "cp1254"
  end.

Definition wanted : list string :=
  ["Kategori"; "Alt Kategori"; "Ürün Grubu"; "Komisyon_%_KDV_Dahil"].

(** A cell of a text column after [fillna("")], as text (a number
    stands for itself in the source; here it is its [str()]). *)
Definition filled_text (x : cell) : string :=
  match x with
  | CNaN => ""
  | CNum _ repr => repr
  | CStr s => s
  end.

Definition _load_csv_normalized (fs : filesystem) (path mp_key : string)
  : result (list Row) :=
  let* df := _read_csv_with_fallbacks fs path in
  if forallb (has_column df) wanted then
    let com :=
      _fix_scale (map (fun r => to_numeric (cell_at df "Komisyon_%_KDV_Dahil" r)) (records df)) in
    ok (map (fun rv : list cell * option Q =>
               let (r, v) := rv in
               mkRow (filled_text (cell_at df "Kategori" r))
                     (filled_text (cell_at df "Alt Kategori" r))
                     (filled_text (cell_at df "Ürün Grubu" r))
                     (match v with Some q => PFloat (Fin q) | None => PFloat NaN end))
            (combine (records df) com))
  else
    match dict_get mp_key marketplaces with
    | Some mp => _normalize_to_flat4 df (columns_candidates mp)
    | None => raise (KeyError mp_key)
    end.

(** *** Hot reload *)

Record state := mkState {
  _files : list (string * string);       (* marketplace -> path *)
  _mtimes : gmap string Q;
  _data : gmap string (list Row)
}.

(** One turn of the loop of [refresh_if_changed]. *)
Definition refresh_step (fs : filesystem) (force : bool)
    (acc : state * bool) (kp : string * string) : state * bool :=
  let '(s, changed) := acc in
  let '(key, path) := kp in
  if negb (fs_exists fs path) then
    (mkState (_files s) (_mtimes s) (<[key := []]> (_data s)), changed)
  else
    let m := fs_mtime fs path in
    if (force || negb (Qeq_bool m (default (- (1)) (_mtimes s !! key))))%bool then
      match _load_csv_normalized fs path key with
      | inr rows =>
          (mkState (_files s) (<[key := m]> (_mtimes s)) (<[key := rows]> (_data s)), true)
      | inl _ => (s, changed)          (* the warning is logged *)
      end
    else (s, changed).

Definition refresh_if_changed (fs : filesystem) (force : bool) (s : state) : state * bool :=
  fold_left (refresh_step fs force) (_files s) (s, false).

(** [self._data.get(key, [])] *)
Definition data_of (s : state) (key : string) : list Row :=
  default [] (_data s !! key).

(** *** The registry of files *)

Section Paths.
(** [DATA_DIR] and [BASE_DIR], as absolute paths. *)
Variables DATA_DIR BASE_DIR : string.

Definition path_join (dir file : string) : string := dir ++ "/" ++ file.

Definition _resolve_csv_path (fs : filesystem) (filename : string) : string :=
  if String.prefix "/" filename then filename
  else
    match find (fs_exists fs)
            [ path_join DATA_DIR filename;
              path_join (path_join BASE_DIR "data") filename;
              path_join BASE_DIR filename ] with
    | Some p => p
    | None => path_join DATA_DIR filename
    end.

(** The state after [_init_file_registry]: every marketplace has its
    path, and -1.0 as modification time. *)
Definition _init_file_registry (fs : filesystem) : state :=
  mkState
    (map (fun kmp : string * marketplace =>
            (fst kmp, _resolve_csv_path fs (csv_file (snd kmp)))) marketplaces)
    (list_to_map (map (fun kmp : string * marketplace => (fst kmp, - (1))) marketplaces))
    ∅.

(** [__init__] *)
Definition init (fs : filesystem) : state :=
  fst (refresh_if_changed fs true (_init_file_registry fs)).

End Paths.

(** *** Queries *)

Definition _normalize_turkish (text : string) : string := _ascii_tr text.

(** The separator of the displayed path: " → ". *)
Definition arrow : string := " → ".

Section WithLower.
Variable lower : string -> string.

(** The text of a field as the search compares it. *)
Definition fold_text (s : string) : string := _normalize_turkish (lower s).

(** 0: the query is in the category; 1: in the sub-category but not
    in the category; 2: only in the product group. *)
Definition priority (q : string) (r : Row) : nat :=
  if PyStr.str_in q (fold_text (Kategori r)) then 0%nat
  else if PyStr.str_in q (fold_text (Alt_Kategori r)) then 1%nat
  else 2%nat.

Definition matches (q : string) (r : Row) : bool :=
  (PyStr.str_in q (fold_text (Kategori r)) || PyStr.str_in q (fold_text (Alt_Kategori r))
   || PyStr.str_in q (fold_text (Urun_Grubu r)))%bool.

Definition path_for_sort (r : Row) : string :=
  lower (Kategori r ++ arrow ++ Alt_Kategori r ++ arrow ++ Urun_Grubu r).

(** The order of the tuples [(priority, path_for_sort)]. *)
Definition key_leb (a b : nat * string) : bool :=
  (Nat.ltb (fst a) (fst b) || (Nat.eqb (fst a) (fst b) && String.leb (snd a) (snd b)))%bool.

Definition search_key (q : string) (r : Row) : nat * string :=
  (priority q r, path_for_sort r).

Definition search_products (s : state) (marketplace_id query : string) : list Row :=
  let rows := data_of s marketplace_id in
  let q := PyStr.strip (_normalize_turkish (lower query)) in
  if String.eqb q "" then rows
  else
    sort_by (fun a b => key_leb (search_key q a) (search_key q b))
            (filter (matches q) rows).

(** *** Product groups with their highest commission *)

Record pg_entry := mkEntry {
  productGroup : string;
  commissionPercent : option pyfloat;
  commissionText : string
}.

(** [float(s)] on a text: the finite numerals. *)
Definition float_of_string (s : string) : option pyfloat :=
  match Decimal_of_string s with
  | inr q => Some (Fin q)
  | inl _ => None
  end.

(** The value of a row as [list_pg_commissions] reads it: blank text
    and values that [float(..)] rejects are None. *)
Definition commission_value (v : pyval) : option pyfloat :=
  match v with
  | PNone => None
  | PFloat f => Some f
  | PStr s => if String.eqb (PyStr.strip s) "" then None else float_of_string s
  end.

Fixpoint digits_of_nat (fuel : nat) (n : Z) (acc : string) : string :=
  match fuel with
  | O => acc
  | S fuel' =>
      let acc' := String (ascii_of_N (Z.to_N (48 + n mod 10))) acc in
      if (n <? 10)%Z then acc' else digits_of_nat fuel' (n / 10)%Z acc'
  end.

Definition string_of_nat_Z (n : Z) : string :=
  digits_of_nat (S (Z.to_nat (Z.log2 n))) n "".

(** [f"{x:.2f}"], idealised: two decimals, ties to even. *)
Definition format_2f (x : Q) : string :=
  let c := round_int ROUND_HALF_EVEN (x * 100) in
  let a := Z.abs c in
  let frac := (a mod 100)%Z in
  (if (c <? 0)%Z then "-" else "") ++ string_of_nat_Z (a / 100)%Z ++ "."
    ++ (if (frac <? 10)%Z then "0" else "") ++ string_of_nat_Z frac.

(** [fmt]: "15,00%" *)
Definition fmt (val : option pyfloat) : string :=
  match val with
  | None => ""
  | Some (Fin q) => PyStr.replace "." "," (format_2f q ++ "%")
  | Some NaN => "nan%"
  end.

(** One turn of the loop over the rows; [seen] is the dictionary, in
    insertion order. *)
Definition pg_step (norm_q : string) (seen : list (string * pg_entry)) (r : Row)
  : list (string * pg_entry) :=
  let pg := PyStr.strip (Urun_Grubu r) in
  if String.eqb pg "" then seen
  else if (negb (String.eqb norm_q "")
           && negb (PyStr.str_in norm_q (_normalize_turkish (lower pg))))%bool then seen
  else
    let val := commission_value (Komisyon r) in
    let replace :=
      match dict_get pg seen with
      | None => true
      | Some current => fgt (or_zero val) (or_zero (commissionPercent current))
      end in
    if replace then dict_set pg (mkEntry pg val (fmt val)) seen else seen.

Definition list_pg_commissions (s : state) (site_key q : string) : list pg_entry :=
  let rows := data_of s site_key in
  let norm_q := if String.eqb q "" then "" else _normalize_turkish (lower q) in
  let seen := fold_left (pg_step norm_q) rows [] in
  sort_by (fun a b => String.leb (lower (productGroup a)) (lower (productGroup b)))
          (map snd seen).

(** The product group of a row as the aggregation keys it, whether
    the aggregation takes the row, and the entry made from it. *)
Definition pg_of (r : Row) : string := PyStr.strip (Urun_Grubu r).

Definition pg_passes (norm_q : string) (r : Row) : bool :=
  (negb (String.eqb (pg_of r) "")
   && (String.eqb norm_q "" || PyStr.str_in norm_q (_normalize_turkish (lower (pg_of r)))))%bool.

Definition entry_of (r : Row) : pg_entry :=
  mkEntry (pg_of r) (commission_value (Komisyon r)) (fmt (commission_value (Komisyon r))).

(** The commission of a row as the comparison sees it. *)
Definition pg_value (r : Row) : pyfloat := or_zero (commission_value (Komisyon r)).

(** The same as a number, for a row whose commission is not NaN. *)
Definition pg_number (r : Row) : Q :=
  match pg_value r with Fin q => q | NaN => 0 end.

Definition numeric_row (r : Row) : Prop := commission_value (Komisyon r) <> Some NaN.

(** [e] is the entry of the first row of product group [k] that has
    the highest commission among the rows that the aggregation
    takes: the rows of the group before it have less, those after it
    have no more. *)
Definition kept (norm_q : string) (rows : list Row) (k : string) (e : pg_entry) : Prop :=
  exists (l1 : list Row) (r : Row) (l2 : list Row),
    rows = (l1 ++ r :: l2)%list /\
    pg_passes norm_q r = true /\ pg_of r = k /\ e = entry_of r /\
    Forall (fun r' => pg_passes norm_q r' = true -> pg_of r' = k ->
                      pg_number r' < pg_number r) l1 /\
    Forall (fun r' => pg_passes norm_q r' = true -> pg_of r' = k ->
                      pg_number r' <= pg_number r) l2.

End WithLower.

(** *** The drill-down lists *)

(** [sorted({..})] on texts: the distinct texts in ascending order. *)
Definition sorted_set (l : list string) : list string :=
  sort_by String.leb (remove_dups l).

Definition nonempty (t : string) : bool := negb (String.eqb t "").

(** The methods take the texts of the path; an absent argument is the
    empty text ([category or ""]). *)
Definition list_categories (s : state) (site_key : string) : list string :=
  let rows := data_of s site_key in
  sorted_set (map Kategori (filter (fun r => nonempty (Kategori r)) rows)).

Definition list_subcategories (s : state) (site_key category : string) : list string :=
  let rows := filter (fun r => String.eqb (Kategori r) category) (data_of s site_key) in
  sorted_set (map Alt_Kategori (filter (fun r => nonempty (Alt_Kategori r)) rows)).

Definition list_product_groups (s : state) (site_key category sub : string) : list string :=
  let rows :=
    filter (fun r => String.eqb (Kategori r) category && String.eqb (Alt_Kategori r) sub)
           (data_of s site_key) in
  sorted_set (map Urun_Grubu (filter (fun r => nonempty (Urun_Grubu r)) rows)).

Definition on_path (category sub group : string) (r : Row) : bool :=
  String.eqb (Kategori r) category && String.eqb (Alt_Kategori r) sub
  && String.eqb (Urun_Grubu r) group.

(** [find_commission]: the commission of the first row with the path;
    None when there is no such row, when the row has no commission and
    when [float(..)] rejects its value. *)
Definition find_commission (s : state) (site_key category sub group : string)
  : option pyfloat :=
  match find (on_path category sub group) (data_of s site_key) with
  | Some r =>
      match Komisyon r with
      | PNone => None
      | PFloat f => Some f
      | PStr t => float_of_string t
      end
  | None => None
  end.

(** The route /api/<site>/commission: the fields "commission" and
    "found" of the answer. *)
Definition commission_site (s : state) (site category sub group : string) : Q * bool :=
  match find_commission s site category sub group with
  | Some (Fin q) => (q, true)
  | Some NaN => (0, false)
  | None => (0, false)
  end.

(** *** The list of the marketplaces *)

Record marketplace_info := mkInfo {
  info_id : string;
  info_name : string;
  productCount : nat;
  info_csv : option string;
  info_exists : bool;
  rowCount : nat
}.

(** The marketplaces that are counted by distinct product groups. *)
Definition counted_by_group (mid : string) : bool :=
  String.eqb mid "n11" || String.eqb mid "amazon" || String.eqb mid "ciceksepeti"
  || String.eqb mid "pttavm".

Definition get_available_marketplaces (fs : filesystem) (s : state) : list marketplace_info :=
  map (fun kmp : string * marketplace =>
         let mid := fst kmp in
         let p := dict_get mid (_files s) in
         let rows := data_of s mid in
         let count :=
           if counted_by_group mid
           then length (remove_dups
                          (map Urun_Grubu (filter (fun r => nonempty (Urun_Grubu r)) rows)))
           else length rows in
         mkInfo mid (name (snd kmp)) count p
                (match p with Some path => fs_exists fs path | None => false end)
                count)
      marketplaces.

(** *** The commission and profit calculation *)

(** The parameters, each as [float(params.get(.., 0) or 0)] reads it:
    an absent key (None) counts as 0. *)
Record calc_params := mkParams {
  salePrice : option Q;
  buyPrice : option Q;
  cargoPrice : option Q;
  vatPercent : option Q;
  commissionPercent_ : option Q;
  servicePercent : option Q;
  exportPercent : option Q;
  includeVatDeduction : option bool
}.

Record calc_result := mkResult {
  marketplace_ : string;
  payout : Q;
  netProfit : Q;
  profitMargin : Q;
  netMargin : Q;
  detailedProfitNet : Q;
  commissionAmount : Q;
  serviceAmount : Q;
  exportAmount : Q;
  cargoDeduction : Q;
  saleVat : Q;
  buyVat : Q;
  commVat : Q;
  servVat : Q;
  expVat : Q;
  inputVat : Q;
  vatPayable : Q;
  error_ : option string;
  params_ : option calc_params       (* None is the empty dictionary *)
}.

Definition _extract_vat_share (gross vat_percent : Q) : Traced.t Q :=
  if Qlt_le_dec 0 vat_percent then
    let+ share := Traced.fdiv vat_percent (100 + vat_percent) in
    Traced.ret (gross * share)
  else Traced.ret 0.

Definition _empty_calc_result (marketplace_id error_msg : string) : calc_result :=
  mkResult marketplace_id 0 0 0 0 0 0 0 0 0 0 0 0 0 0 0 0 (Some error_msg) None.

Definition calculate_commission (marketplace_id : string) (params : calc_params)
  : Traced.t calc_result :=
  let sale_price := default 0 (salePrice params) in
  let buy_price := default 0 (buyPrice params) in
  let cargo_price := default 0 (cargoPrice params) in
  let vat_percent := default 0 (vatPercent params) in
  let commission_percent := default 0 (commissionPercent_ params) in
  let service_percent := default 0 (servicePercent params) in
  let export_percent := default 0 (exportPercent params) in
  let include_vat_deduction := default false (includeVatDeduction params) in
  if Qle_bool sale_price 0 then
    Traced.ret (_empty_calc_result marketplace_id "Satış fiyatı 0'dan büyük olmalıdır")
  else
    let+ commission_amount := Traced.fdiv (sale_price * commission_percent) 100 in
    let+ service_amount := Traced.fdiv (sale_price * service_percent) 100 in
    let+ export_amount := Traced.fdiv (sale_price * export_percent) 100 in
    let cargo_deduction := cargo_price in
    let payout :=
      sale_price - (commission_amount + service_amount + export_amount + cargo_deduction) in
    let net_profit := payout - buy_price in
    let+ profit_margin :=
      (if Qlt_le_dec 0 sale_price
       then let+ ratio := Traced.fdiv net_profit sale_price in Traced.ret (ratio * 100)
       else Traced.ret 0) in
    let+ sale_vat := _extract_vat_share sale_price vat_percent in
    let+ buy_vat := _extract_vat_share buy_price vat_percent in
    let+ comm_vat := _extract_vat_share commission_amount vat_percent in
    let+ serv_vat := _extract_vat_share service_amount vat_percent in
    let+ exp_vat := _extract_vat_share export_amount vat_percent in
    let input_vat :=
      if include_vat_deduction then buy_vat + (comm_vat + serv_vat + exp_vat) else buy_vat in
    let vat_payable :=
      if Qle_bool 0 (sale_vat - input_vat) then sale_vat - input_vat else 0 in
    Traced.ret
      (mkResult marketplace_id
         (round2 payout) (round2 net_profit) (round2 profit_margin) (round2 profit_margin)
         (round2 net_profit)
         (round2 commission_amount) (round2 service_amount) (round2 export_amount)
         (round2 cargo_deduction)
         (round2 sale_vat) (round2 buy_vat) (round2 comm_vat) (round2 serv_vat)
         (round2 exp_vat) (round2 input_vat) (round2 vat_payable)
         None (Some params)).

End Service.

(** ** app.py: normalize_api_item and the search route *)

(** An item: a dictionary in insertion order.  Its values are those that
    the rows and the aggregations hold: None, a float, a text. *)
Definition item : Type := list (string * pyval).

(** [d.get(k)]: None for an absent key. *)
Definition item_get (k : string) (d : item) : pyval := default PNone (dict_get k d).

(** The truth value of a value: None, 0.0 and "" are falsy, NaN is
    truthy. *)
Definition truthy (v : pyval) : bool :=
  match v with
  | PNone => false
  | PFloat (Fin q) => negb (Qeq_bool q 0)
  | PFloat NaN => true
  | PStr s => negb (String.eqb s "")
  end.

(** [v in (None, "")] *)
Definition none_or_blank (v : pyval) : bool :=
  match v with
  | PNone => true
  | PFloat _ => false
  | PStr s => String.eqb s ""
  end.

Definition is_none (v : pyval) : bool :=
  match v with
  | PNone => true
  | _ => false
  end.

(** [_extract_num]: a number as it is (NaN goes through its text "nan"),
    a text through the first number in it once "%" is removed and "," is
    a decimal point. *)
Definition _extract_num (val : pyval) : option Q :=
  match val with
  | PNone => None
  | PFloat (Fin q) => Some q
  | PFloat NaN => first_number (PyStr.replace "," "." (PyStr.replace "%" "" "nan"))
  | PStr s => first_number (PyStr.replace "," "." (PyStr.replace "%" "" s))
  end.

(** [float(v)]; None when it raises. *)
Definition float_of_pyval (v : pyval) : option pyfloat :=
  match v with
  | PNone => None
  | PFloat f => Some f
  | PStr s => Service.float_of_string s
  end.

(** [(v or "").strip()]; None is the AttributeError that a truthy number
    raises. *)
Definition text_or_blank (v : pyval) : option string :=
  match v with
  | PNone => Some ""
  | PFloat f => if truthy (PFloat f) then None else Some ""
  | PStr s => Some (PyStr.strip s)
  end.

(** [normalize_api_item]; None when it raises. *)
Definition normalize_api_item (it : item) : option item :=
  let out := rename_keys it in
  let out :=
    if none_or_blank (item_get "commissionPercent" out) then
      match _extract_num (item_get "commissionText" out) with
      | Some q => dict_set "commissionPercent" (PFloat (Fin q)) out
      | None => out
      end
    else out in
  let out :=
    if negb (truthy (item_get "commissionText" out))
       && negb (is_none (item_get "commissionPercent" out))
    then
      match float_of_pyval (item_get "commissionPercent" out) with
      | Some f => dict_set "commissionText" (PStr (Service.fmt (Some f))) out
      | None => out
      end
    else out in
  let out :=
    if negb (truthy (item_get "displayCommissionText" out))
       && truthy (item_get "commissionText" out)
    then dict_set "displayCommissionText" (item_get "commissionText" out) out
    else out in
  match text_or_blank (item_get "category" out) with
  | None => None
  | Some cat =>
      match text_or_blank (item_get "subCategory" out) with
      | None => None
      | Some sub =>
          match text_or_blank (item_get "productGroup" out) with
          | None => None
          | Some pg =>
              let parts := filter (fun t => Service.nonempty t) [cat; sub; pg] in
              Some (if negb (Nat.eqb (length parts) 0)
                    then dict_set "displayProductGroup"
                           (PStr (String.concat Service.arrow parts)) out
                    else if Service.nonempty pg
                            && negb (truthy (item_get "displayProductGroup" out))
                    then dict_set "displayProductGroup" (PStr pg) out
                    else out)
          end
      end
  end.

Module Routes.
Import Service.

(** A row as the dictionary that the service holds. *)
Definition row_item (r : Row) : item :=
  [ ("Kategori", PStr (Kategori r)); ("Alt Kategori", PStr (Alt_Kategori r));
    ("Ürün Grubu", PStr (Urun_Grubu r)); ("Komisyon_%_KDV_Dahil", Komisyon r) ].

(** [None if isinstance(v, float) and pd.isna(v) else v] *)
Definition nan_to_none (v : pyval) : pyval :=
  match v with
  | PFloat NaN => PNone
  | _ => v
  end.

Definition of_float (v : option pyfloat) : pyval :=
  match v with
  | Some f => PFloat f
  | None => PNone
  end.

(** The answer of /api/search: the fields "data", "count" and
    "marketplace" of a success (status 200), the refusal of an unknown
    marketplace (status 400), or an exception (status 500). *)
Inductive search_answer :=
| SearchOk (data : list item) (count : nat) (marketplace : string)
| InvalidMarketplace
| SearchRaised.

(** [[normalize_api_item(d) for d in data]] *)
Fixpoint normalize_all (data : list item) : option (list item) :=
  match data with
  | [] => Some []
  | d :: data' =>
      match normalize_api_item d with
      | None => None
      | Some d' =>
          match normalize_all data' with
          | None => None
          | Some l => Some (d' :: l)
          end
      end
  end.

Definition answer (marketplace_id : string) (data : list item) : search_answer :=
  match normalize_all data with
  | Some l => SearchOk l (length l) marketplace_id
  | None => SearchRaised
  end.

Section WithLower.
Variable lower : string -> string.

(** One turn of the loop over the filtered rows for Çiçeksepeti and
    PTTAVM: the best row of each product group, with its number under
    "_val". *)
Definition best_step (best : list (string * (Row * option pyfloat))) (r : Row)
  : list (string * (Row * option pyfloat)) :=
  let pg := PyStr.strip (Urun_Grubu r) in
  if String.eqb pg "" then best
  else
    let val_num :=
      if none_or_blank (Komisyon r) then None else float_of_pyval (Komisyon r) in
    let replace :=
      match dict_get pg best with
      | None => true
      | Some current => fgt (or_zero val_num) (or_zero (snd current))
      end in
    if replace then dict_set pg (r, val_num) best else best.

(** The route /api/search on the state that the reload before the
    request leaves; [marketplace] and [q] are the arguments of the
    query string, None when absent. *)
Definition search_products (s : state) (marketplace q : option string) : search_answer :=
  let marketplace_id := default "trendyol" marketplace in
  let query := default "" q in
  if negb (bool_decide (is_Some (dict_get marketplace_id marketplaces)))
  then InvalidMarketplace
  else if String.eqb marketplace_id "hepsiburada" then
    let rows := Service.search_products lower s marketplace_id query in
    answer marketplace_id
      (map (fun r =>
              [ ("Ana Kategori", PStr (Kategori r)); ("Kategori", PStr (Alt_Kategori r));
                ("Ürün Grubu", PStr (Urun_Grubu r));
                ("Uygulanan_Komisyon_%_KDV_Dahil", nan_to_none (Komisyon r)) ])
           rows)
  else if String.eqb marketplace_id "n11" || String.eqb marketplace_id "amazon" then
    let items := list_pg_commissions lower s marketplace_id query in
    answer marketplace_id
      (map (fun it =>
              [ ("Kategori", PStr ""); ("Alt Kategori", PStr "");
                ("Ürün Grubu", PStr (productGroup it));
                ("Komisyon_%_KDV_Dahil", of_float (commissionPercent it));
                ("komisyon", PStr (commissionText it)) ])
           items)
  else if String.eqb marketplace_id "ciceksepeti" || String.eqb marketplace_id "pttavm" then
    let filtered := Service.search_products lower s marketplace_id query in
    let best_by_pg := fold_left best_step filtered [] in
    answer marketplace_id
      (map (fun kv : string * (Row * option pyfloat) =>
              let '(pg, (r, val)) := kv in
              [ ("Kategori", PStr (Kategori r)); ("Alt Kategori", PStr (Alt_Kategori r));
                ("Ürün Grubu", PStr pg);
                ("Komisyon_%_KDV_Dahil", of_float val);
                ("komisyon", PStr (fmt val)) ])
           (sort_by (fun a b => String.leb (lower (fst a)) (lower (fst b))) best_by_pg))
  else
    let results := Service.search_products lower s marketplace_id query in
    answer marketplace_id
      (map (fun r => map (fun kv => (fst kv, nan_to_none (snd kv))) (row_item r)) results).

End WithLower.

End Routes.

(** ** calculators/kdv.py: a VAT amount that is not a number *)

(** The float that [from_vat_amount] receives may be NaN (the endpoint
    passes [float(..)] of a JSON value on).  [Decimal(str(x))] is then
    the quiet NaN, which every operation of the module returns as it is,
    before it looks at any other condition.  On a finite amount the
    function below is [Kdv.from_vat_amount]. *)
Module KdvFloat.

Inductive dec :=
| DFin (q : Q)
| DNaN.

(** [Decimal(str(x))] *)
Definition Decimal_of_float (x : pyfloat) : dec :=
  match x with
  | Fin q => DFin q
  | NaN => DNaN
  end.

(** [float(d)] *)
Definition float_of (d : dec) : pyfloat :=
  match d with
  | DFin q => Fin q
  | DNaN => NaN
  end.

Definition _q2 (x : dec) (mode : string) : result dec :=
  match x with
  | DFin q => let* r := Kdv._q2 q mode in ok (DFin r)
  | DNaN => ok DNaN
  end.

Definition div (x y : dec) : result dec :=
  match x, y with
  | DFin a, DFin b => let* q := PyDecimal.div a b in ok (DFin q)
  | _, _ => ok DNaN
  end.

Definition lift (op : Q -> Q -> Q) (x y : dec) : dec :=
  match x, y with
  | DFin a, DFin b => DFin (op a b)
  | _, _ => DNaN
  end.

Record KDVResult := mkKDVResult {
  price_excl_vat : pyfloat;
  vat_amount : pyfloat;
  price_incl_vat : pyfloat;
  rate : pyfloat;
  withholding_rate : pyfloat;
  withholding_amount : pyfloat;
  payable_vat : pyfloat
}.

(** The result of [Kdv] with its fields as floats. *)
Definition floats (r : Kdv.KDVResult) : KDVResult :=
  mkKDVResult (Fin (Kdv.price_excl_vat r)) (Fin (Kdv.vat_amount r))
    (Fin (Kdv.price_incl_vat r)) (Fin (Kdv.rate r)) (Fin (Kdv.withholding_rate r))
    (Fin (Kdv.withholding_amount r)) (Fin (Kdv.payable_vat r)).

Definition from_vat_amount (vat_amount : pyfloat) (rate : pynum)
    (withholding_rate : option pynum) (rounding : string) : result KDVResult :=
  let* kdv := _q2 (Decimal_of_float vat_amount) rounding in
  let* oran := Kdv._norm_rate rate in
  let* quot := div kdv (DFin oran) in
  let* net := _q2 quot rounding in
  let* brut := _q2 (lift PyDecimal.add net kdv) rounding in
  let* tw := Kdv._parse_withholding withholding_rate in
  let* tevkifat := _q2 (lift PyDecimal.mul kdv (DFin tw)) rounding in
  let* payable := _q2 (lift PyDecimal.sub kdv tevkifat) rounding in
  ok (mkKDVResult (float_of net) (float_of kdv) (float_of brut) (Fin oran) (Fin tw)
        (float_of tevkifat) (float_of payable)).

End KdvFloat.

(** ** Float arithmetic *)

Module PyFloat.

(** The exceptions of the conversions and of the division. *)
Inductive exn := EValue | EType | EZeroDivision.

(** Float arithmetic with NaN; the finite values are idealised as
    rationals. *)
Definition fop (op : Q -> Q -> Q) (a b : pyfloat) : pyfloat :=
  match a, b with
  | Fin x, Fin y => Fin (op x y)
  | _, _ => NaN
  end.

Definition fdiv (a b : pyfloat) : exn + pyfloat :=
  match b with
  | Fin y =>
      if Qeq_bool y 0 then inl EZeroDivision
      else inr (match a with Fin x => Fin (x / y) | NaN => NaN end)
  | NaN => inr NaN
  end.

(** [a <= b] and [a < b]: false as soon as one side is NaN. *)
Definition fle (a b : pyfloat) : bool :=
  match a, b with
  | Fin x, Fin y => Qle_bool x y
  | _, _ => false
  end.

Definition flt (a b : pyfloat) : bool :=
  match a, b with
  | Fin x, Fin y => negb (Qle_bool y x)
  | _, _ => false
  end.

(** [round(x, 2)] *)
Definition fround2 (a : pyfloat) : pyfloat :=
  match a with
  | Fin x => Fin (round2 x)
  | NaN => NaN
  end.

End PyFloat.

(** ** app.py: calculate_kdv_api and its route *)

Module AppKdv.
Import PyFloat.

(** The body of a request: the values under the five keys, None for an
    absent key.  A value is null ([PNone]), a number or a text. *)
Record kdv_data := mkData {
  direction : option pyval;
  price : option pyval;
  rate : option pyval;
  withholdingRate : option pyval;
  rounding : option pyval
}.

Inductive error_text :=
| PriceNotPositive        (* "Fiyat 0'dan büyük olmalıdır" *)
| RateOutOfRange          (* "KDV oranı 0-100 arasında olmalıdır" *)
| BadWithholding          (* "Geçersiz tevkifat oranı formatı" *)
| BadNumber               (* "Geçersiz sayısal değer: " and the text of the ValueError *)
| Failed (e : exn)        (* "Hesaplama hatası: " and the text of the exception *)
| NotJson                 (* "Content-Type application/json gerekli" *)
| InvalidJson.            (* "Geçersiz JSON verisi" *)

(** The "data" of a success; [withholding] holds "withholdingRate",
    "withholdingAmount" and "payableVat" when they are present. *)
Record kdv_result := mkKdv {
  priceExclVat : pyfloat;
  vatAmount : pyfloat;
  priceInclVat : pyfloat;
  vatRate : pyfloat;
  r_direction : pyval;
  withholding : option (pyval * pyfloat * pyfloat)
}.

Record response := mkResponse {
  success : bool;
  error : option error_text;
  data : option kdv_result
}.

Definition round_value (value : pyfloat) (method : pyval) : pyfloat :=
  if Service.pyval_eqb method (PStr "up") then fround2 (fop Qplus value (Fin (5 # 1000)))
  else if Service.pyval_eqb method (PStr "down")
  then fround2 (fop Qminus value (Fin (5 # 1000)))
  else fround2 value.

(** [except ValueError] comes before [except Exception]. *)
Definition failure (e : exn) : response :=
  match e with
  | EValue => mkResponse false (Some BadNumber) None
  | _ => mkResponse false (Some (Failed e)) None
  end.

Section WithFloat.
(** [float(text)] is a parameter of the model: the float that the
    text denotes (finite or NaN), None for the ValueError. *)
Variable float_of_text : string -> option pyfloat.

(** [float(v)] *)
Definition to_float (v : pyval) : exn + pyfloat :=
  match v with
  | PNone => inl EType
  | PFloat f => inr f
  | PStr s =>
      match float_of_text s with
      | Some f => inr f
      | None => inl EValue
      end
  end.

(** The ratio of a withholding rate given as text: "a/b" or a
    number. *)
Definition withholding_ratio (s : string) : exn + pyfloat :=
  if PyStr.str_in "/" s then
    match map float_of_text (PyStr.split_char "/" s) with
    | [Some num; Some den] => fdiv num den
    | _ => inl EValue
    end
  else
    match float_of_text s with
    | Some f => inr f
    | None => inl EValue
    end.

Definition calculate_kdv_api (d : kdv_data) : response :=
  let direction := default (PStr "add") (direction d) in
  match to_float (default (PFloat (Fin 0)) (price d)) with
  | inl e => failure e
  | inr price =>
      match to_float (default (PFloat (Fin 20)) (rate d)) with
      | inl e => failure e
      | inr rate =>
          let withholding_rate := default PNone (withholdingRate d) in
          let rounding_method := default (PStr "even") (rounding d) in
          if fle price (Fin 0) then mkResponse false (Some PriceNotPositive) None
          else if flt rate (Fin 0) || flt (Fin 100) rate
          then mkResponse false (Some RateOutOfRange) None
          else
            let amounts : exn + (pyfloat * pyfloat * pyfloat) :=
              if Service.pyval_eqb direction (PStr "add") then
                match fdiv rate (Fin 100) with
                | inl e => inl e
                | inr frac =>
                    let vat := fop Qmult price frac in
                    inr (price, vat, fop Qplus price vat)
                end
              else
                match fdiv rate (Fin 100) with
                | inl e => inl e
                | inr frac =>
                    match fdiv price (fop Qplus (Fin 1) frac) with
                    | inl e => inl e
                    | inr excl => inr (excl, fop Qminus price excl, price)
                    end
                end in
            match amounts with
            | inl e => failure e
            | inr (excl, vat, incl) =>
                let price_excl_vat := round_value excl rounding_method in
                let vat_amount := round_value vat rounding_method in
                let price_incl_vat := round_value incl rounding_method in
                let result w :=
                  mkResponse true None
                    (Some (mkKdv price_excl_vat vat_amount price_incl_vat rate
                             direction w)) in
                if truthy withholding_rate then
                  match withholding_rate with
                  | PStr s =>
                      match withholding_ratio s with
                      | inl _ => mkResponse false (Some BadWithholding) None
                      | inr ratio =>
                          let withholding_amount := fop Qmult vat_amount ratio in
                          let payable_vat := fop Qminus vat_amount withholding_amount in
                          result (Some (withholding_rate,
                                        round_value withholding_amount rounding_method,
                                        round_value payable_vat rounding_method))
                      end
                  | _ => failure EType       (* ['/' in] a number *)
                  end
                else result None
            end
      end
  end.

(** The route /api/calc/kdv: the answer and its status.  [is_json]
    is the test of the content type, [body] the JSON object of the
    request (None when there is none). *)
Definition api_calc_kdv (is_json : bool) (body : option kdv_data) : response * Z :=
  if negb is_json then (mkResponse false (Some NotJson) None, 400%Z)
  else
    match body with
    | None => (mkResponse false (Some InvalidJson) None, 400%Z)
    | Some d =>
        let result := calculate_kdv_api d in
        (result, if success result then 200%Z else 400%Z)
    end.

End WithFloat.

End AppKdv.

(** ** The floats of the interpreter *)

(** Python's [float] is the IEEE 754 binary64 format; its operations are
    those of [SpecFloat] at precision 53 and maximal exponent 1024, each
    rounding its exact result to the nearest float, ties to even. *)
Module Float64.

Definition float : Type := SpecFloat.spec_float.

Definition prec : Z := 53.
Definition emax : Z := 1024.

Definition zero : float := SpecFloat.S754_zero false.

(** [float(n)] of an integer, and the float nearest to a rational (the
    value of a decimal literal). *)
Definition of_Z (n : Z) : float := SpecFloat.binary_normalize prec emax n 0 false.

Definition of_Q (q : Q) : float :=
  match Qnum q with
  | Z0 => zero
  | Zpos n =>
      SpecFloat.SFdiv prec emax (SpecFloat.S754_finite false n 0)
        (SpecFloat.S754_finite false (Qden q) 0)
  | Zneg n =>
      SpecFloat.SFdiv prec emax (SpecFloat.S754_finite true n 0)
        (SpecFloat.S754_finite false (Qden q) 0)
  end.

Definition add : float -> float -> float := SpecFloat.SFadd prec emax.
Definition sub : float -> float -> float := SpecFloat.SFsub prec emax.
Definition mul : float -> float -> float := SpecFloat.SFmul prec emax.

Definition is_zero (x : float) : bool :=
  match x with
  | SpecFloat.S754_zero _ => true
  | _ => false
  end.

(** [x / y]: a divisor equal to 0.0 or -0.0 raises. *)
Definition div (x y : float) : result float :=
  if is_zero y then raise ZeroDivisionError else ok (SpecFloat.SFdiv prec emax x y).

(** [x <= y] and [x < y]: false as soon as one side is NaN. *)
Definition leb : float -> float -> bool := SpecFloat.SFleb.
Definition ltb : float -> float -> bool := SpecFloat.SFltb.

(** [max(a, b)]: the first argument unless the second is greater. *)
Definition max (a b : float) : float := if ltb a b then b else a.

(** The absolute value of a finite float as a rational. *)
Definition magnitude (m : positive) (e : Z) : Q :=
  match e with
  | Zneg k => Zpos m # (2 ^ k)
  | _ => inject_Z (Zpos m * 2 ^ e)
  end.

(** [round(x, 2)]: the exact value of the float is rounded to the
    nearest multiple of 0.01, ties to even, and the float nearest to
    that decimal is returned; zeros, infinities and NaN are returned as
    they are, and a result of 0 keeps the sign of [x]. *)
Definition round2 (x : float) : float :=
  match x with
  | SpecFloat.S754_finite s m e =>
      match round_int ROUND_HALF_EVEN (magnitude m e * 100) with
      | Zpos n =>
          SpecFloat.SFdiv prec emax (SpecFloat.S754_finite s n 0)
            (SpecFloat.S754_finite false 100 0)
      | _ => SpecFloat.S754_zero s
      end
  | _ => x
  end.

End Float64.

(** ** calculators/kdv.py: the floats that are returned *)

(** The calculator computes on decimals ([Kdv]) and returns
    [KDVResult(float(net), float(kdv), ..)]: each decimal becomes the
    float nearest to it. *)
Module Kdv64.
Import Float64.

Record KDVResult := mkKDVResult {
  price_excl_vat : float;
  vat_amount : float;
  price_incl_vat : float;
  rate : float;
  withholding_rate : float;
  withholding_amount : float;
  payable_vat : float
}.

Definition floats (r : Kdv.KDVResult) : KDVResult :=
  mkKDVResult (of_Q (Kdv.price_excl_vat r)) (of_Q (Kdv.vat_amount r))
    (of_Q (Kdv.price_incl_vat r)) (of_Q (Kdv.rate r)) (of_Q (Kdv.withholding_rate r))
    (of_Q (Kdv.withholding_amount r)) (of_Q (Kdv.payable_vat r)).

Definition returned (m : result Kdv.KDVResult) : result KDVResult :=
  match m with
  | inr r => ok (floats r)
  | inl e => raise e
  end.

Definition add_vat (price_excl_vat : Q) (rate : pynum)
    (withholding_rate : option pynum) (rounding : string) : result KDVResult :=
  returned (Kdv.add_vat price_excl_vat rate withholding_rate rounding).

Definition remove_vat (price_incl_vat : Q) (rate : pynum)
    (withholding_rate : option pynum) (rounding : string) : result KDVResult :=
  returned (Kdv.remove_vat price_incl_vat rate withholding_rate rounding).

Definition from_vat_amount (vat_amount : Q) (rate : pynum)
    (withholding_rate : option pynum) (rounding : string) : result KDVResult :=
  returned (Kdv.from_vat_amount vat_amount rate withholding_rate rounding).

End Kdv64.

(** ** app.py: calculate_commission on the floats of the interpreter *)

Module Service64.
Import Float64.

(** The parameters as the request holds them, once they are floats; None
    is an absent key. *)
Record calc_params := mkParams {
  salePrice : option float;
  buyPrice : option float;
  cargoPrice : option float;
  vatPercent : option float;
  commissionPercent : option float;
  servicePercent : option float;
  exportPercent : option float;
  includeVatDeduction : option bool
}.

(** [float(params.get(key, 0) or 0)]: an absent key and a zero of
    either sign give 0.0; NaN is truthy. *)
Definition or_zero (v : option float) : float :=
  match v with
  | Some x => if is_zero x then zero else x
  | None => zero
  end.

Record calc_result := mkResult {
  marketplace : string;
  payout : float;
  netProfit : float;
  profitMargin : float;
  netMargin : float;
  detailedProfitNet : float;
  commissionAmount : float;
  serviceAmount : float;
  exportAmount : float;
  cargoDeduction : float;
  saleVat : float;
  buyVat : float;
  commVat : float;
  servVat : float;
  expVat : float;
  inputVat : float;
  vatPayable : float;
  error : option string;
  params : option calc_params       (* None is the empty dict *)
}.

Definition _empty_calc_result (marketplace_id error_msg : string) : calc_result :=
  mkResult marketplace_id zero zero zero zero zero zero zero zero zero
    zero zero zero zero zero zero zero (Some error_msg) None.

Definition hundred : float := of_Z 100.

Definition _extract_vat_share (gross vat_percent : float) : result float :=
  if ltb zero vat_percent
  then let* q := div vat_percent (add hundred vat_percent) in ok (mul gross q)
  else ok zero.

Definition calculate_commission (marketplace_id : string) (p : calc_params)
  : result calc_result :=
  let sale_price := or_zero (salePrice p) in
  let buy_price := or_zero (buyPrice p) in
  let cargo_price := or_zero (cargoPrice p) in
  let vat_percent := or_zero (vatPercent p) in
  let commission_percent := or_zero (commissionPercent p) in
  let service_percent := or_zero (servicePercent p) in
  let export_percent := or_zero (exportPercent p) in
  let include_vat_deduction := default false (includeVatDeduction p) in
  if leb sale_price zero
  then ok (_empty_calc_result marketplace_id "Satış fiyatı 0'dan büyük olmalıdır")
  else
    let* commission_amount := div (mul sale_price commission_percent) hundred in
    let* service_amount := div (mul sale_price service_percent) hundred in
    let* export_amount := div (mul sale_price export_percent) hundred in
    let cargo_deduction := cargo_price in
    let payout :=
      sub sale_price
        (add (add (add commission_amount service_amount) export_amount) cargo_deduction) in
    let net_profit := sub payout buy_price in
    let* profit_margin :=
      (if ltb zero sale_price
       then let* q := div net_profit sale_price in ok (mul q hundred)
       else ok zero) in
    let* sale_vat := _extract_vat_share sale_price vat_percent in
    let* buy_vat := _extract_vat_share buy_price vat_percent in
    let* comm_vat := _extract_vat_share commission_amount vat_percent in
    let* serv_vat := _extract_vat_share service_amount vat_percent in
    let* exp_vat := _extract_vat_share export_amount vat_percent in
    let input_vat :=
      if include_vat_deduction
      then add buy_vat (add (add comm_vat serv_vat) exp_vat)
      else buy_vat in
    let vat_payable := max (sub sale_vat input_vat) zero in
    ok (mkResult marketplace_id
          (round2 payout) (round2 net_profit) (round2 profit_margin) (round2 profit_margin)
          (round2 net_profit)
          (round2 commission_amount) (round2 service_amount) (round2 export_amount)
          (round2 cargo_deduction)
          (round2 sale_vat) (round2 buy_vat) (round2 comm_vat) (round2 serv_vat)
          (round2 exp_vat) (round2 input_vat) (round2 vat_payable)
          None (Some p)).

(** The quantities of the calculation before their rounding to two
    decimals, as the float operations give them. *)
Definition quotient (x y : float) : float := SpecFloat.SFdiv prec emax x y.

Definition commission (p : calc_params) : float :=
  quotient (mul (or_zero (salePrice p)) (or_zero (commissionPercent p))) hundred.
Definition service (p : calc_params) : float :=
  quotient (mul (or_zero (salePrice p)) (or_zero (servicePercent p))) hundred.
Definition export (p : calc_params) : float :=
  quotient (mul (or_zero (salePrice p)) (or_zero (exportPercent p))) hundred.
Definition unrounded_payout (p : calc_params) : float :=
  sub (or_zero (salePrice p))
    (add (add (add (commission p) (service p)) (export p)) (or_zero (cargoPrice p))).
Definition net_profit (p : calc_params) : float :=
  sub (unrounded_payout p) (or_zero (buyPrice p)).
Definition margin (p : calc_params) : float :=
  mul (quotient (net_profit p) (or_zero (salePrice p))) hundred.

End Service64.

(** ** calculators/desi.py *)

Module Desi.
Import Float64.

Record DesiResult := mkDesi {
  width : float;
  height : float;
  length_ : float;
  volume_cm3 : float;
  volume_m3 : float;
  desi : float;
  volumetric_weight : float;
  desi_factor : float
}.

(** [calculate_desi] on floats (their conversion by [float] returns
    them). *)
Definition calculate_desi (w h l factor : float) : result DesiResult :=
  if leb w zero || leb h zero || leb l zero
  then raise (ValueError "En, boy ve yükseklik değerleri 0'dan büyük olmalıdır")
  else if leb factor zero
  then raise (ValueError "Desi faktörü 0'dan büyük olmalıdır")
  else
    let volume_cm3 := mul (mul w h) l in
    let* volume_m3 := div volume_cm3 (of_Z 1000000) in
    let* desi := div volume_cm3 factor in
    let volumetric_weight := desi in
    ok (mkDesi w h l volume_cm3 volume_m3 desi volumetric_weight factor).

(** A value of the request: what the JSON body can hold under a key. *)
Inductive json :=
| JNull
| JBool (b : bool)
| JInt (n : Z)
| JFloat (x : float)
| JStr (s : string)
| JOther.                     (* a list or an object *)

(** The request, a JSON object: the values under "width", "height",
    "length" and "desi_factor"; None is an absent key. *)
Record desi_data := mkData {
  d_width : option json;
  d_height : option json;
  d_length : option json;
  d_desi_factor : option json
}.

(** The answer; [data] is None for the empty dict of a refusal. *)
Record response := mkResponse {
  success : bool;
  data : option DesiResult;
  error : option string
}.

Definition refuse (msg : string) : response := mkResponse false None (Some msg).

Definition is_null (v : json) : bool :=
  match v with
  | JNull => true
  | _ => false
  end.

(** [v in (None, "", "null")]: a number is equal to none of the three. *)
Definition blank (v : json) : bool :=
  match v with
  | JNull => true
  | JStr s => String.eqb s "" || String.eqb s "null"
  | _ => false
  end.

(** What the conversion of a value raises. *)
Inductive conversion_error :=
| CValueError
| CTypeError
| COverflowError.

Section WithFloat.
(** [float(text)]: a parameter of the model, None for the ValueError. *)
Variable float_of_text : string -> option float.

(** [float(v)]: an integer beyond the range of the floats raises
    OverflowError. *)
Definition to_float (v : json) : conversion_error + float :=
  match v with
  | JNull => inl CTypeError
  | JBool b => inr (of_Z (if b then 1 else 0))
  | JInt n =>
      match of_Z n with
      | SpecFloat.S754_infinity _ => inl COverflowError
      | x => inr x
      end
  | JFloat x => inr x
  | JStr s =>
      match float_of_text s with
      | Some x => inr x
      | None => inl CValueError
      end
  | JOther => inl CTypeError
  end.

(** [float(v) if v not in (None, "", "null") else dflt] *)
Definition number_or (dflt : Z) (v : json) : conversion_error + float :=
  if blank v then inr (of_Z dflt) else to_float v.

(** How [calculate_desi_api] answers an exception of its conversions:
    ValueError and TypeError are caught next to them, every other one
    by the last handler. *)
Definition conversion_answer (e : conversion_error) : response :=
  match e with
  | CValueError | CTypeError => refuse "Geçersiz sayısal değer girişi"
  | COverflowError => refuse "Beklenmeyen hata: int too large to convert to float"
  end.

Definition calculate_desi_api (d : desi_data) : response :=
  let width := default JNull (d_width d) in
  let height := default JNull (d_height d) in
  let length := default JNull (d_length d) in
  let desi_factor := default (JInt 3000) (d_desi_factor d) in
  if is_null width then refuse "Uzunluk (width) parametresi gerekli"
  else if is_null height then refuse "Genişlik (height) parametresi gerekli"
  else if is_null length then refuse "Yükseklik (length) parametresi gerekli"
  else
    match number_or 0 width with
    | inl e => conversion_answer e
    | inr w =>
    match number_or 0 height with
    | inl e => conversion_answer e
    | inr h =>
    match number_or 0 length with
    | inl e => conversion_answer e
    | inr l =>
    match number_or 3000 desi_factor with
    | inl e => conversion_answer e
    | inr f =>
        if leb w zero || leb h zero || leb l zero
        then refuse "En, boy ve yükseklik değerleri 0'dan büyük olmalıdır"
        else if leb f zero then refuse "Desi faktörü 0'dan büyük olmalıdır"
        else
          match calculate_desi w h l f with
          | inr result => mkResponse true (Some result) None
          | inl (ValueError msg) => refuse msg
          | inl _ => refuse "Beklenmeyen hata: float division by zero"
          end
    end end end end.

End WithFloat.

End Desi.

(** ** Vocabulary of the statements about the service *)

Module Exact.
Import Service.

(** The quantities of the commission calculation before their rounding
    to two decimals. *)
Definition commission (p : calc_params) : Q :=
  default 0 (salePrice p) * default 0 (commissionPercent_ p) / 100.
Definition service (p : calc_params) : Q :=
  default 0 (salePrice p) * default 0 (servicePercent p) / 100.
Definition export (p : calc_params) : Q :=
  default 0 (salePrice p) * default 0 (exportPercent p) / 100.
Definition payout (p : calc_params) : Q :=
  default 0 (salePrice p)
  - (commission p + service p + export p + default 0 (cargoPrice p)).
Definition net_profit (p : calc_params) : Q :=
  payout p - default 0 (buyPrice p).
Definition margin (p : calc_params) : Q :=
  net_profit p / default 0 (salePrice p) * 100.

End Exact.

(** The marketplace [key] with the file [path] is settled in [s]: its
    file is missing and it has no rows, or the recorded modification time
    is that of the file, or the file cannot be loaded. *)
Definition settled (fs : Service.filesystem) (s : Service.state) (key path : string) : Prop :=
  if Service.fs_exists fs path
  then Qeq_bool (Service.fs_mtime fs path) (default (- (1)) (Service._mtimes s !! key)) = true \/
       exists e : pyexn, Service._load_csv_normalized fs path key = raise e
  else Service._data s !! key = Some [].

(** ** Sample data *)

Module Sample.
Import Service.

(** A table without a product-group column. *)
Definition broken_table : DataFrame :=
  mkDataFrame ["Kategori"; "Oran"] [[CStr "Elektronik"; CNum 12 "12"]].

(** A file system where the Trendyol file exists and holds
    [broken_table], at modification time 20, and no other file exists. *)
Definition fs_broken : filesystem :=
  mkFilesystem
    (fun p => String.eqb p "/srv/data/commissions_flat.csv")
    (fun _ => 20)
    (fun _ _ => ok broken_table).

Definition row_phone : Row :=
  mkRow "Elektronik" "Telefon" "Cep Telefonu" (PFloat (Fin 8)).

(** A service that loaded the Trendyol file at modification time 10. *)
Definition loaded : state :=
  mkState
    [ ("trendyol", "/srv/data/commissions_flat.csv");
      ("n11", "/srv/data/n11_commissions.csv") ]
    {[ "trendyol" := 10 ]}
    {[ "trendyol" := [row_phone]; "n11" := [row_phone] ]}.

End Sample.

(** Requests of the commission calculation, on floats. *)
Module Sample64.
Import Float64 Service64.

(** The end-to-end example of the specification. *)
Definition end_to_end : calc_params :=
  mkParams (Some (of_Z 200)) (Some (of_Z 100)) (Some (of_Z 20)) (Some (of_Z 20))
    (Some (of_Z 10)) (Some (of_Z 0)) (Some (of_Z 0)) (Some false).

(** Sale price 1 with a commission of 0.4 % and a service fee of 0.4 %. *)
Definition small_fees : calc_params :=
  mkParams (Some (of_Z 1)) None None None (Some (of_Q (4 # 10))) (Some (of_Q (4 # 10)))
    None None.

(** Sale price 267.5 with a commission of 1 %: the float 2.675 lies
    below the decimal 2.675. *)
Definition half_cent_commission : calc_params :=
  mkParams (Some (of_Q (2675 # 10))) None None None (Some (of_Z 1)) None None None.

End Sample64.

(** ** Vocabulary of the statements about the queries *)

(** The displayed path of a row, [displayProductGroup] of
    [normalize_api_item]: the non-empty fields joined by " → ". *)
Definition displayed_path (r : Row) : string :=
  String.concat Service.arrow
    (filter (fun p => negb (String.eqb p ""))
       [PyStr.strip (Kategori r); PyStr.strip (Alt_Kategori r); PyStr.strip (Urun_Grubu r)]).

(** [a] and [b] are not told apart by the order [le]. *)
Definition same_rank {A} (le : A -> A -> bool) (a b : A) : bool :=
  le a b && le b a.

Module SampleRows.

Definition row_ax : Row := mkRow "ax" "s" "g" (PFloat (Fin 10)).
Definition row_Bx : Row := mkRow "Bx" "s" "g" (PFloat (Fin 12)).

Definition two_categories : Service.state :=
  Service.mkState [] ∅ {[ "n11" := [row_ax; row_Bx] ]}.

(** Two rows of one product group; the first has no commission (NaN). *)
Definition nan_then_15 : Service.state :=
  Service.mkState [] ∅
    {[ "trendyol" := [ mkRow "Moda" "Giyim" "Elbise" (PFloat NaN);
                       mkRow "Moda" "Abiye" "Elbise" (PFloat (Fin 15)) ] ]}.

Definition ten_then_15 : Service.state :=
  Service.mkState [] ∅
    {[ "trendyol" := [ mkRow "Moda" "Giyim" "Elbise" (PFloat (Fin 10));
                       mkRow "Moda" "Abiye" "Elbise" (PFloat (Fin 15)) ] ]}.

(** A file with the four canonical columns; the commission cell of the
    first row is empty. *)
Definition canonical_table : DataFrame :=
  mkDataFrame ["Kategori"; "Alt Kategori"; "Ürün Grubu"; "Komisyon_%_KDV_Dahil"]
    [ [CStr "Moda"; CStr "Giyim"; CStr "Elbise"; CNaN];
      [CStr "Moda"; CStr "Abiye"; CStr "Elbise"; CNum 15 "15.0"] ].

Definition fs_canonical : Service.filesystem :=
  Service.mkFilesystem
    (fun p => String.eqb p "/srv/data/commissions_flat.csv")
    (fun _ => 20)
    (fun _ _ => ok canonical_table).

End SampleRows.

Module SampleTables.

(** A table with a main category and a category, and no sub-category. *)
Definition two_level : DataFrame :=
  mkDataFrame ["Ana Kategori"; "Kategori"; "Ürün Grubu"; "komisyon"]
    [ [CStr "Elektronik"; CStr "Telefon"; CStr "Kılıf"; CStr "%12,5"];
      [CStr "Elektronik"; CStr "Telefon"; CStr "Şarj Aleti"; CNaN] ].

Definition candidates_of (mp_key : string) : Service.candidates :=
  match dict_get mp_key Service.marketplaces with
  | Some mp => Service.columns_candidates mp
  | None => Service.mkCandidates [] [] [] []
  end.

End SampleTables.

(** * Properties *)

(** ** Facts about rounding to an integer *)

Section RoundInt.

Lemma inject_Z_succ (n : Z) : inject_Z (n + 1) == inject_Z n + 1.
Proof. rewrite inject_Z_plus. reflexivity. Qed.

Lemma round_int_bounds (r : rounding) (x : Q) :
  inject_Z (round_int r x) - (1 # 2) <= x /\ x <= inject_Z (round_int r x) + (1 # 2).
Proof.
  unfold round_int.
  pose proof (Qfloor_le x) as Hlo.
  pose proof (Qlt_floor x) as Hhi.
  rewrite inject_Z_succ in Hhi.
  destruct (Qcompare_spec (x - inject_Z (Qfloor x)) (1 # 2)) as [He|Hl|Hg].
  - destruct r.
    + destruct (Z.even (Qfloor x)); rewrite ?inject_Z_succ; split; lra.
    + destruct (Qle_bool 0 x); rewrite ?inject_Z_succ; split; lra.
  - split; lra.
  - rewrite inject_Z_succ. split; lra.
Qed.

Lemma Z_of_Q_between (m n : Z) :
  inject_Z m < inject_Z n + 1 -> inject_Z n < inject_Z m + 1 -> m = n.
Proof.
  intros H1 H2.
  rewrite <- inject_Z_succ, <- Zlt_Qlt in H1, H2. lia.
Qed.

(** A number strictly within half a unit of an integer rounds to it. *)
Lemma round_int_unique (r : rounding) (x : Q) (n : Z) :
  inject_Z n - (1 # 2) < x -> x < inject_Z n + (1 # 2) -> round_int r x = n.
Proof.
  intros H1 H2.
  destruct (round_int_bounds r x) as [B1 B2].
  apply Z_of_Q_between; lra.
Qed.

Lemma round_int_proper (r : rounding) (x y : Q) :
  x == y -> round_int r x = round_int r y.
Proof.
  intros Hxy. unfold round_int.
  rewrite (Qfloor_comp x y Hxy).
  assert (Hc : Qcompare (x - inject_Z (Qfloor y)) (1 # 2)
               = Qcompare (y - inject_Z (Qfloor y)) (1 # 2)).
  { apply Qcompare_comp; [rewrite Hxy|]; reflexivity. }
  rewrite Hc.
  assert (Hb : Qle_bool 0 x = Qle_bool 0 y).
  { destruct (Qle_bool 0 x) eqn:E1, (Qle_bool 0 y) eqn:E2; try reflexivity.
    - apply Qle_bool_iff in E1. rewrite Hxy in E1. apply Qle_bool_iff in E1. congruence.
    - apply Qle_bool_iff in E2. rewrite <- Hxy in E2. apply Qle_bool_iff in E2. congruence. }
  rewrite Hb. reflexivity.
Qed.

Lemma round_int_inject (r : rounding) (n : Z) : round_int r (inject_Z n) = n.
Proof. apply round_int_unique; lra. Qed.

Lemma round_int_strict (r : rounding) (x : Q) :
  ~ is_tie x ->
  inject_Z (round_int r x) - (1 # 2) < x /\ x < inject_Z (round_int r x) + (1 # 2).
Proof.
  unfold is_tie, round_int. intros Hn.
  pose proof (Qfloor_le x) as Hlo.
  pose proof (Qlt_floor x) as Hhi.
  rewrite inject_Z_succ in Hhi.
  destruct (Qcompare_spec (x - inject_Z (Qfloor x)) (1 # 2)) as [He|Hl|Hg].
  - contradiction.
  - split; lra.
  - rewrite inject_Z_succ. split; lra.
Qed.

(** Half-up sends a non-negative tie upwards. *)
Lemma round_int_half_up_nonneg (x : Q) :
  0 <= x ->
  inject_Z (round_int ROUND_HALF_UP x) - (1 # 2) <= x /\
  x < inject_Z (round_int ROUND_HALF_UP x) + (1 # 2).
Proof.
  intros Hx. unfold round_int.
  pose proof (Qfloor_le x) as Hlo.
  pose proof (Qlt_floor x) as Hhi.
  rewrite inject_Z_succ in Hhi.
  destruct (Qcompare_spec (x - inject_Z (Qfloor x)) (1 # 2)) as [He|Hl|Hg].
  - apply Qle_bool_iff in Hx. rewrite Hx, inject_Z_succ. split; lra.
  - split; lra.
  - rewrite inject_Z_succ. split; lra.
Qed.

Lemma round_int_nonneg (r : rounding) (x : Q) : 0 <= x -> (0 <= round_int r x)%Z.
Proof.
  intros Hx. destruct (round_int_bounds r x) as [B1 B2].
  assert (H : inject_Z (-1) < inject_Z (round_int r x)).
  { change (inject_Z (-1)) with (- (1)). lra. }
  rewrite <- Zlt_Qlt in H. lia.
Qed.

Lemma round_int_le_inject (r : rounding) (x : Q) (n : Z) :
  x <= inject_Z n -> (round_int r x <= n)%Z.
Proof.
  intros Hx. destruct (round_int_bounds r x) as [B1 B2].
  assert (H : inject_Z (round_int r x) < inject_Z (n + 1)).
  { rewrite inject_Z_succ. lra. }
  rewrite <- Zlt_Qlt in H. lia.
Qed.

End RoundInt.
(** ** Facts about the context rounding of Decimal *)

Section DecimalFacts.

Lemma pow10_pos (k : Z) : 0 < 10 ^ k.
Proof. apply Qpower_0_lt. reflexivity. Qed.

Lemma pow10_plus (a b : Z) : 10 ^ (a + b) == 10 ^ a * 10 ^ b.
Proof. apply Qpower_plus. discriminate. Qed.

Lemma pow10_inject (n : Z) : (0 <= n)%Z -> inject_Z (10 ^ n) == 10 ^ n.
Proof. intros Hn. rewrite Zpower_Qpower by assumption. reflexivity. Qed.

Lemma pow10_lt_inv (a b : Z) : 10 ^ a < 10 ^ b -> (a < b)%Z.
Proof. intros H. apply (Qpower_lt_compat_l_inv 10); [assumption|reflexivity]. Qed.

Lemma pow10_le (a b : Z) : (a <= b)%Z -> 10 ^ a <= 10 ^ b.
Proof. intros H. apply Qpower_le_compat_l; [assumption|discriminate]. Qed.

Lemma ndigits_fuel_spec (fuel : nat) :
  forall n : Z, (0 < n)%Z -> (n < 10 ^ (Z.of_nat fuel + 1))%Z ->
    (10 ^ (PyDecimal.ndigits_fuel fuel n - 1) <= n < 10 ^ PyDecimal.ndigits_fuel fuel n)%Z
    /\ (1 <= PyDecimal.ndigits_fuel fuel n)%Z.
Proof.
  induction fuel as [|fuel IH]; intros n Hpos Hlt.
  - simpl in *. lia.
  - cbn [PyDecimal.ndigits_fuel].
    destruct (Z.ltb_spec n 10) as [Hs|Hb].
    + simpl. lia.
    + assert (Hq : (0 < n / 10)%Z) by (apply Z.div_str_pos; lia).
      assert (Hq2 : (n / 10 < 10 ^ (Z.of_nat fuel + 1))%Z).
      { apply Z.div_lt_upper_bound; [lia|].
        replace (Z.of_nat (S fuel) + 1)%Z with (1 + (Z.of_nat fuel + 1))%Z in Hlt by lia.
        rewrite Z.pow_add_r in Hlt by lia. simpl (10 ^ 1)%Z in Hlt. lia. }
      destruct (IH _ Hq Hq2) as [[L U] One].
      set (d := PyDecimal.ndigits_fuel fuel (n / 10)) in *.
      replace (1 + d - 1)%Z with (1 + (d - 1))%Z by lia.
      rewrite !Z.pow_add_r by lia. simpl (10 ^ 1)%Z.
      pose proof (Z.div_mod n 10 ltac:(lia)) as Hdm.
      pose proof (Z.mod_pos_bound n 10 ltac:(lia)) as Hmb.
      repeat split; nia.
Qed.

Lemma ndigits_spec (n : Z) :
  (0 < n)%Z ->
  (10 ^ (PyDecimal.ndigits n - 1) <= n < 10 ^ PyDecimal.ndigits n)%Z /\ (1 <= PyDecimal.ndigits n)%Z.
Proof.
  intros Hn. unfold PyDecimal.ndigits. apply ndigits_fuel_spec; [assumption|].
  rewrite Z2Nat.id by apply Z.log2_nonneg.
  destruct (Z.log2_spec n Hn) as [_ Hu].
  replace (Z.succ (Z.log2 n)) with (Z.log2 n + 1)%Z in Hu by lia.
  eapply Z.lt_le_trans; [exact Hu|].
  apply Z.pow_le_mono_l. lia.
Qed.

Lemma Qabs_num_den (x : Q) : Qabs x == inject_Z (Z.abs (Qnum x)) / inject_Z (Zpos (Qden x)).
Proof.
  destruct x as [n d]. unfold Qabs. cbn [Qnum Qden].
  rewrite (Qmake_Qdiv (Z.abs n) d). reflexivity.
Qed.

(** The leading digit of a non-zero [x] sits at exponent [adjusted x]
    or above. *)
Lemma adjusted_lower (x : Q) : ~ x == 0 -> 10 ^ PyDecimal.adjusted x <= Qabs x.
Proof.
  intros Hx.
  assert (Hn : (0 < Z.abs (Qnum x))%Z).
  { destruct x as [n d]. cbn [Qnum]. unfold Qeq in Hx. cbn in Hx. lia. }
  rewrite Qabs_num_den.
  unfold PyDecimal.adjusted.
  set (n := Z.abs (Qnum x)) in *.
  set (d := Zpos (Qden x)).
  assert (Hd : (0 < d)%Z) by (unfold d; lia).
  destruct (ndigits_spec n Hn) as [[Ln Un] On].
  destruct (ndigits_spec d Hd) as [[Ld Ud] Od].
  set (dn := PyDecimal.ndigits n) in *.
  set (dd := PyDecimal.ndigits d) in *.
  assert (HdQ : 0 < inject_Z d).
  { change 0 with (inject_Z 0). rewrite <- Zlt_Qlt. assumption. }
  apply Qle_shift_div_l; [assumption|].
  destruct (Z.leb_spec 0%Z (dn - dd)%Z) as [Hge|Hlt].
  - destruct (Z.leb_spec (d * 10 ^ (dn - dd))%Z n) as [Ha|Hb].
    + rewrite <- pow10_inject by assumption.
      rewrite <- inject_Z_mult, <- Zle_Qle. lia.
    + (* 10^(dn-dd-1) * d <= n *)
      destruct (Z.eq_dec (dn - dd)%Z 0%Z) as [Hz|Hnz].
      * replace (dn - dd - 1)%Z with (- (1))%Z by lia.
        change (10 ^ (- (1))) with (1 # 10).
        assert (Hdn : (d < 10 * n)%Z).
        { replace dd with dn in Ud by lia.
          replace dn with (1 + (dn - 1))%Z in Ud by lia.
          rewrite Z.pow_add_r in Ud by lia. simpl (10 ^ 1)%Z in Ud. lia. }
        rewrite Zlt_Qlt, inject_Z_mult in Hdn. change (inject_Z 10) with 10 in Hdn. lra.
      * rewrite <- pow10_inject by lia.
        rewrite <- inject_Z_mult, <- Zle_Qle.
        assert (Hp : (10 ^ (dn - 1) = 10 ^ (dn - dd - 1) * 10 ^ dd)%Z).
        { rewrite <- Z.pow_add_r by lia. f_equal. lia. }
        assert (0 < 10 ^ (dn - dd - 1))%Z by (apply Z.pow_pos_nonneg; lia).
        assert (0 < 10 ^ dd)%Z by (apply Z.pow_pos_nonneg; lia).
        nia.
  - assert (Hinv : forall e : Z, (0 < e)%Z -> 10 ^ (- e) * inject_Z (10 ^ e) == 1).
    { intros e He. rewrite pow10_inject by lia. rewrite <- pow10_plus.
      replace (- e + e)%Z with 0%Z by lia. reflexivity. }
    destruct (Z.leb_spec d (n * 10 ^ (- (dn - dd)))%Z) as [Ha|Hb].
    + rewrite Zle_Qle, inject_Z_mult in Ha.
      pose proof (Hinv (- (dn - dd))%Z ltac:(lia)) as Hi.
      rewrite Z.opp_involutive in Hi.
      assert (Hpp : 0 < 10 ^ (dn - dd)) by apply pow10_pos.
      set (p := 10 ^ (dn - dd)) in *. set (q := inject_Z (10 ^ (- (dn - dd)))) in *.
      assert (Hq : 0 < q). { unfold q. change 0 with (inject_Z 0). rewrite <- Zlt_Qlt. apply Z.pow_pos_nonneg; lia. }
      apply Qle_trans with (p * (inject_Z n * q)).
      * apply Qmult_le_l; assumption.
      * apply Qle_lteq. right. rewrite (Qmult_comm (inject_Z n)), Qmult_assoc, Hi. ring.
    + pose proof (Hinv (- (dn - dd - 1))%Z ltac:(lia)) as Hi.
      rewrite Z.opp_involutive in Hi.
      set (p := 10 ^ (dn - dd - 1)) in *.
      set (e := (- (dn - dd - 1))%Z) in *.
      assert (Hq : 0 < inject_Z (10 ^ e)).
      { change 0 with (inject_Z 0). rewrite <- Zlt_Qlt. apply Z.pow_pos_nonneg; lia. }
      assert (Hz : (d <= n * 10 ^ e)%Z).
      { assert (Hp : (10 ^ dd = 10 ^ (dn - 1) * 10 ^ e)%Z).
        { rewrite <- Z.pow_add_r by lia. f_equal. lia. }
        assert (0 < 10 ^ e)%Z by (apply Z.pow_pos_nonneg; lia).
        nia. }
      rewrite Zle_Qle, inject_Z_mult in Hz.
      apply Qle_trans with (p * (inject_Z n * inject_Z (10 ^ e))).
      * apply Qmult_le_l; [apply pow10_pos | assumption].
      * apply Qle_lteq. right.
        rewrite (Qmult_comm (inject_Z n)), Qmult_assoc, Hi. ring.
Qed.

Lemma pow10_scaled_lt (e N D : Z) :
    (0 <= e -> N < D * 10 ^ e)%Z -> (e < 0 -> N * 10 ^ (- e) < D)%Z ->
    inject_Z N < 10 ^ e * inject_Z D.
Proof.
  intros Hnn Hneg. destruct (Z.leb_spec 0%Z e) as [He|He].
  - rewrite <- pow10_inject by assumption.
    rewrite <- inject_Z_mult, <- Zlt_Qlt. specialize (Hnn He). lia.
  - specialize (Hneg He).
    assert (Hinv : 10 ^ e * inject_Z (10 ^ (- e)) == 1).
    { rewrite pow10_inject by lia. rewrite <- pow10_plus.
      replace (e + - e)%Z with 0%Z by lia. reflexivity. }
    rewrite Zlt_Qlt, inject_Z_mult in Hneg.
    pose proof (pow10_pos e) as Hpe.
    apply Qle_lt_trans with (10 ^ e * (inject_Z N * inject_Z (10 ^ (- e)))).
    + apply Qle_lteq. right.
      rewrite (Qmult_comm (inject_Z N)), Qmult_assoc, Hinv. ring.
    + apply Qmult_lt_l; assumption.
Qed.

(** ... and below exponent [adjusted x + 1]: [adjusted x] is the
    exponent of the leading digit, and the context rounding keeps
    [prec] digits. *)
Lemma adjusted_upper (x : Q) : ~ x == 0 -> Qabs x < 10 ^ (PyDecimal.adjusted x + 1).
Proof.
  intros Hx.
  assert (Hn : (0 < Z.abs (Qnum x))%Z).
  { destruct x as [n d]. cbn [Qnum]. unfold Qeq in Hx. cbn in Hx. lia. }
  rewrite Qabs_num_den.
  unfold PyDecimal.adjusted.
  set (n := Z.abs (Qnum x)) in *.
  set (d := Zpos (Qden x)).
  assert (Hd : (0 < d)%Z) by (unfold d; lia).
  destruct (ndigits_spec n Hn) as [[Ln Un] On].
  destruct (ndigits_spec d Hd) as [[Ld Ud] Od].
  set (dn := PyDecimal.ndigits n) in *.
  set (dd := PyDecimal.ndigits d) in *.
  assert (HdQ : 0 < inject_Z d).
  { change 0 with (inject_Z 0). rewrite <- Zlt_Qlt. assumption. }
  apply Qlt_shift_div_r; [assumption|].
  assert (Htop : inject_Z n < 10 ^ (dn - dd + 1) * inject_Z d).
  { apply pow10_scaled_lt.
    - intros He.
      assert (Hp : (10 ^ dn = 10 ^ (dd - 1) * 10 ^ (dn - dd + 1))%Z).
      { rewrite <- Z.pow_add_r by lia. f_equal. lia. }
      assert (0 < 10 ^ (dn - dd + 1))%Z by (apply Z.pow_pos_nonneg; lia).
      nia.
    - intros He.
      assert (Hp : (10 ^ (dd - 1) = 10 ^ dn * 10 ^ (- (dn - dd + 1)))%Z).
      { rewrite <- Z.pow_add_r by lia. f_equal. lia. }
      assert (0 < 10 ^ (- (dn - dd + 1)))%Z by (apply Z.pow_pos_nonneg; lia).
      nia. }
  destruct (Z.leb_spec 0%Z (dn - dd)%Z) as [Hge|Hlt].
  - destruct (Z.leb_spec (d * 10 ^ (dn - dd))%Z n) as [Ha|Hb]; [exact Htop|].
    replace (dn - dd - 1 + 1)%Z with (dn - dd)%Z by lia.
    apply pow10_scaled_lt; intros; lia.
  - destruct (Z.leb_spec d (n * 10 ^ (- (dn - dd)))%Z) as [Ha|Hb]; [exact Htop|].
    replace (dn - dd - 1 + 1)%Z with (dn - dd)%Z by lia.
    apply pow10_scaled_lt; intros; lia.
Qed.

End DecimalFacts.

Section RoundPrec.

Lemma Qabs_inject_Z (c : Z) : Qabs (inject_Z c) == inject_Z (Z.abs c).
Proof. unfold Qabs, inject_Z. reflexivity. Qed.

(** A number whose decimal expansion fits in the precision is left
    unchanged by the context rounding. *)
Lemma round_prec_exact (x : Q) (c k : Z) :
  x * 10 ^ k == inject_Z c -> (Z.abs c < 10 ^ PyDecimal.prec)%Z ->
  PyDecimal.round_prec x == x.
Proof.
  intros Hc Hb. unfold PyDecimal.round_prec.
  destruct (Qeq_bool x 0) eqn:E.
  - apply Qeq_bool_iff in E. rewrite E. reflexivity.
  - apply Qeq_bool_neq in E.
    pose proof (adjusted_lower x E) as Ha.
    set (a := PyDecimal.adjusted x) in *.
    pose proof (pow10_pos k) as Hk.
    pose proof (pow10_pos a) as Hpa.
    assert (Hak : (a + k < PyDecimal.prec)%Z).
    { apply pow10_lt_inv. rewrite pow10_plus.
      apply Qle_lt_trans with (Qabs x * 10 ^ k).
      - apply Qmult_le_compat_r; [assumption|apply Qlt_le_weak; assumption].
      - rewrite <- (Qabs_pos (10 ^ k)) by (apply Qlt_le_weak; assumption).
        rewrite <- Qabs_Qmult, Hc, Qabs_inject_Z.
        rewrite <- pow10_inject by (unfold PyDecimal.prec; lia).
        rewrite <- Zlt_Qlt. assumption. }
    set (k' := (PyDecimal.prec - 1 - a)%Z).
    assert (Hk' : (0 <= k' - k)%Z) by (unfold k'; lia).
    pose proof (pow10_pos k') as Hpk'.
    assert (Hx : x * 10 ^ k' == inject_Z (c * 10 ^ (k' - k))).
    { rewrite inject_Z_mult, pow10_inject by assumption.
      rewrite <- Hc.
      replace k' with (k + (k' - k))%Z at 1 by lia.
      rewrite pow10_plus. ring. }
    rewrite (round_int_proper _ _ _ Hx), round_int_inject, <- Hx.
    field. intros H0. rewrite H0 in Hpk'. discriminate.
Qed.

(** The context rounding moves a number below 10^m by at most half a
    unit of the digit at exponent m - prec. *)
Lemma round_prec_error (x : Q) (m : Z) :
  0 <= x -> x < 10 ^ m ->
  Qabs (PyDecimal.round_prec x - x) * 10 ^ (PyDecimal.prec - m) <= 1 # 2.
Proof.
  intros H0 Hm. unfold PyDecimal.round_prec.
  destruct (Qeq_bool x 0) eqn:E.
  - apply Qeq_bool_iff in E. rewrite E.
    setoid_replace (0 - 0) with 0 using relation Qeq by ring. simpl (Qabs 0). lra.
  - apply Qeq_bool_neq in E.
    pose proof (adjusted_lower x E) as Ha.
    set (a := PyDecimal.adjusted x) in *.
    rewrite Qabs_pos in Ha by assumption.
    assert (Ham : (a < m)%Z).
    { apply pow10_lt_inv. eapply Qle_lt_trans; eassumption. }
    set (k := (PyDecimal.prec - 1 - a)%Z).
    pose proof (pow10_pos k) as Hpk.
    pose proof (pow10_pos (PyDecimal.prec - m)) as Hpm.
    destruct (round_int_bounds ROUND_HALF_EVEN (x * 10 ^ k)) as [B1 B2].
    set (n := round_int ROUND_HALF_EVEN (x * 10 ^ k)) in *.
    assert (Hle : 10 ^ (PyDecimal.prec - m) <= 10 ^ k).
    { apply pow10_le. unfold k. lia. }
    assert (Hd : Qabs (inject_Z n / 10 ^ k - x) * 10 ^ k <= 1 # 2).
    { rewrite <- (Qabs_pos (10 ^ k)) at 2 by (apply Qlt_le_weak; assumption).
      rewrite <- Qabs_Qmult.
      setoid_replace ((inject_Z n / 10 ^ k - x) * 10 ^ k) with (inject_Z n - x * 10 ^ k) using relation Qeq.
      - apply Qabs_Qle_condition. split; lra.
      - field. intros Hz. rewrite Hz in Hpk. discriminate. }
    eapply Qle_trans; [|exact Hd].
    apply Qmult_le_compat_nonneg.
    + split; [apply Qabs_nonneg | apply Qle_refl].
    + split; [apply Qlt_le_weak; assumption | assumption].
Qed.

Lemma Qfloor_add_Z (x : Q) (k : Z) : Qfloor (x + inject_Z k) = (Qfloor x + k)%Z.
Proof.
  pose proof (Qfloor_le x) as Hlo.
  pose proof (Qlt_floor x) as Hhi.
  pose proof (Qfloor_le (x + inject_Z k)) as Hlo'.
  pose proof (Qlt_floor (x + inject_Z k)) as Hhi'.
  rewrite inject_Z_succ in Hhi, Hhi'.
  apply Z_of_Q_between; rewrite inject_Z_plus; lra.
Qed.

(** Rounding commutes with the addition of an integer, except that
    half-even may resolve a tie differently after the shift. *)
Lemma round_int_add_Z (r : rounding) (x : Q) (k : Z) :
  ~ is_tie x \/ (r = ROUND_HALF_UP /\ 0 <= x /\ 0 <= x + inject_Z k) ->
  round_int r (x + inject_Z k) = (round_int r x + k)%Z.
Proof.
  intros H. unfold round_int, is_tie in *.
  rewrite Qfloor_add_Z.
  assert (Hc : Qcompare (x + inject_Z k - inject_Z (Qfloor x + k)) (1 # 2)
               = Qcompare (x - inject_Z (Qfloor x)) (1 # 2)).
  { apply Qcompare_comp; [rewrite inject_Z_plus; ring | reflexivity]. }
  rewrite Hc.
  destruct (Qcompare_spec (x - inject_Z (Qfloor x)) (1 # 2)) as [He|Hl|Hg]; try lia.
  destruct H as [Hn | (-> & Hx & Hxk)]; [contradiction|].
  apply Qle_bool_iff in Hx, Hxk. rewrite Hx, Hxk. lia.
Qed.

End RoundPrec.

(** ** The VAT calculator: adding then removing VAT *)

Section KdvRoundTrip.

Lemma rbind_ok {A B} (a : A) (k : A -> result B) : rbind (ok a) k = k a.
Proof. reflexivity. Qed.

Lemma q2_value (mode : string) (x y : Q) (c : Z) :
  x == y -> round_int (Kdv.rounding_of mode) (y * 100) = c ->
  (Z.abs c < 10 ^ PyDecimal.prec)%Z ->
  Kdv._q2 x mode = ok (c # 100).
Proof.
  intros Hxy Hr Hb. unfold Kdv._q2, PyDecimal.quantize2.
  assert (Hc : round_int (Kdv.rounding_of mode) (x * 100) = c).
  { rewrite <- Hr. apply round_int_proper. rewrite Hxy. reflexivity. }
  rewrite Hc. apply Z.ltb_lt in Hb. rewrite Hb. reflexivity.
Qed.

Lemma round_int_0 (r : rounding) (x : Q) : x == 0 -> round_int r x = 0%Z.
Proof. intros H. rewrite (round_int_proper r x (inject_Z 0) H). apply round_int_inject. Qed.

Lemma round_prec_zero (x : Q) : x == 0 -> PyDecimal.round_prec x == 0.
Proof.
  intros H. rewrite (round_prec_exact x 0 0).
  - assumption.
  - rewrite H. reflexivity.
  - reflexivity.
Qed.

Lemma decimal_places_bound (k : Z) (x lo hi : Q) :
  decimal_places k x -> lo <= x -> x <= hi ->
  exists c : Z, x * 10 ^ k == inject_Z c /\
                lo * 10 ^ k <= inject_Z c /\ inject_Z c <= hi * 10 ^ k.
Proof.
  intros Hd Hlo Hhi. unfold decimal_places in Hd. exists (Qfloor (x * 10 ^ k)).
  pose proof (pow10_pos k) as Hp.
  split; [exact Hd|]. rewrite <- Hd.
  split; apply Qmult_le_compat_r; try assumption; apply Qlt_le_weak; assumption.
Qed.

(** [_norm_rate] on a rate between 0 and 100 with at most 8 decimals:
    a fraction between 0 and 1 with at most 10 decimals. *)
Lemma norm_rate_value (rate : Q) :
  0 <= rate -> rate <= 100 -> decimal_places 8 rate ->
  exists (oran : Q) (R : Z),
    Kdv._norm_rate (Num rate) = ok oran /\
    oran * inject_Z (10 ^ 10) == inject_Z R /\ (0 <= R <= 10 ^ 10)%Z.
Proof.
  intros H0 H100 Hd.
  destruct (decimal_places_bound 8 rate 0 100 Hd H0 H100) as (c & Hc & Hc0 & Hc1).
  change (10 ^ 8) with (inject_Z (10 ^ 8)) in *.
  change 100 with (inject_Z 100) in Hc1.
  change 0 with (inject_Z 0) in Hc0.
  rewrite <- !inject_Z_mult, <- Zle_Qle in Hc0, Hc1.
  unfold Kdv._norm_rate, Decimal_of_pynum. rewrite rbind_ok.
  destruct (Qle_bool 1 rate) eqn:E.
  - apply Qle_bool_iff in E.
    assert (Hex : PyDecimal.round_prec (rate / 100) == rate / 100).
    { apply (round_prec_exact _ c 10).
      - rewrite <- Hc. change (10 ^ 10) with (inject_Z (10 ^ 10)).
        change (inject_Z (10 ^ 10)) with (100 * inject_Z (10 ^ 8)). field.
      - unfold PyDecimal.prec. lia. }
    exists (PyDecimal.round_prec (rate / 100)), c. split; [reflexivity|].
    split; [|lia]. rewrite Hex, <- Hc.
    change (inject_Z (10 ^ 10)) with (100 * inject_Z (10 ^ 8)). field.
  - exists rate, (c * 100)%Z. split; [reflexivity|].
    assert (Hlt : rate < 1).
    { apply Qnot_le_lt. intros Hle. apply Qle_bool_iff in Hle. congruence. }
    split.
    + rewrite inject_Z_mult, <- Hc.
      change (inject_Z (10 ^ 10)) with (inject_Z (10 ^ 8) * inject_Z 100). ring.
    + assert (Hc2 : inject_Z c < inject_Z (10 ^ 8)).
      { rewrite <- Hc. change (inject_Z (10 ^ 8)) with (1 * inject_Z (10 ^ 8)) at 2.
        apply Qmult_lt_compat_r; [reflexivity|assumption]. }
      rewrite <- Zlt_Qlt in Hc2. lia.
Qed.

End KdvRoundTrip.

Section KdvMargin.

Lemma Qlt_Z_succ_le (a b : Z) : inject_Z a < inject_Z b -> inject_Z a + 1 <= inject_Z b.
Proof.
  intros H. rewrite <- Zlt_Qlt in H.
  rewrite <- inject_Z_succ, <- Zle_Qle. lia.
Qed.

(** The exact quotient (T + K) / (1 + r) stays away from the two
    rounding boundaries of T by at least 1 / (2 (pz + R)), where
    r = R / pz: all three of T, K and the boundaries are multiples of
    1 / (2 pz) once multiplied by 1 + r. *)
Lemma round_trip_margin (m : rounding) (P r : Q) (pz R : Z) :
  0 <= P -> 0 <= r -> r * inject_Z pz == inject_Z R -> (0 < pz)%Z ->
  (~ is_tie P \/ m = ROUND_HALF_UP) ->
  let T := round_int m P in
  let K := round_int m (P * r) in
  (inject_Z T - (1 # 2)) * (1 + r) * (2 * inject_Z pz) + 1
    <= inject_Z (T + K) * (2 * inject_Z pz) /\
  inject_Z (T + K) * (2 * inject_Z pz) + 1
    <= (inject_Z T + (1 # 2)) * (1 + r) * (2 * inject_Z pz).
Proof.
  intros HP Hr0 HR Hpz Htie T K.
  assert (HpzQ : 0 < inject_Z pz).
  { change 0 with (inject_Z 0). rewrite <- Zlt_Qlt. assumption. }
  (* the strict inequalities *)
  assert (Hstrict : (inject_Z T - (1 # 2)) * (1 + r) < inject_Z (T + K) /\
                    inject_Z (T + K) < (inject_Z T + (1 # 2)) * (1 + r)).
  { rewrite inject_Z_plus.
    destruct (Qeq_dec r 0) as [Hz|Hnz].
    - assert (HK : K = 0%Z).
      { unfold K. apply round_int_0. rewrite Hz. ring. }
      rewrite HK, Hz. change (inject_Z 0) with 0. split; lra.
    - assert (Hrpos : 0 < r).
      { destruct (Qle_lt_or_eq _ _ Hr0) as [Hl|He]; [assumption|].
        exfalso. apply Hnz. symmetry. assumption. }
      assert (HPr : 0 <= P * r) by (apply Qmult_le_0_compat; assumption).
      destruct (round_int_bounds m (P * r)) as [E1 E2].
      destruct (round_int_bounds m P) as [D1 D2].
      fold T in D1, D2. fold K in E1, E2.
      destruct Htie as [Hnt | ->].
      + destruct (round_int_strict m P Hnt) as [S1 S2]. fold T in S1, S2.
        split; nra.
      + destruct (round_int_half_up_nonneg P HP) as [U1 U2].
        destruct (round_int_half_up_nonneg (P * r) HPr) as [V1 V2].
        fold T in U1, U2. fold K in V1, V2.
        split; nra. }
  destruct Hstrict as [S1 S2].
  assert (Hl : (inject_Z T - (1 # 2)) * (1 + r) * (2 * inject_Z pz)
               == inject_Z ((2 * T - 1) * (pz + R))).
  { rewrite inject_Z_mult, inject_Z_plus, <- HR.
    unfold Z.sub. rewrite inject_Z_plus, inject_Z_mult.
    rewrite inject_Z_opp.
    change (inject_Z 2) with 2. change (inject_Z 1) with 1. ring. }
  assert (Hu : (inject_Z T + (1 # 2)) * (1 + r) * (2 * inject_Z pz)
               == inject_Z ((2 * T + 1) * (pz + R))).
  { rewrite inject_Z_mult, !inject_Z_plus, <- HR.
    rewrite inject_Z_mult.
    change (inject_Z 2) with 2. change (inject_Z 1) with 1. ring. }
  assert (Hmid : inject_Z (T + K) * (2 * inject_Z pz) == inject_Z ((T + K) * (2 * pz))).
  { rewrite !inject_Z_mult. reflexivity. }
  assert (H2p : 0 < 2 * inject_Z pz) by lra.
  rewrite Hl, Hu, Hmid.
  split; apply Qlt_Z_succ_le.
  - rewrite <- Hl, <- Hmid. apply Qmult_lt_compat_r; assumption.
  - rewrite <- Hu, <- Hmid. apply Qmult_lt_compat_r; assumption.
Qed.

End KdvMargin.

Section KdvTheorem.

Lemma Qmake_100 (c : Z) : c # 100 == inject_Z c / 100.
Proof. rewrite (Qmake_Qdiv c 100). reflexivity. Qed.

Lemma round_int_cents (r : rounding) (c : Z) : round_int r ((c # 100) * 100) = c.
Proof.
  rewrite (round_int_proper r ((c # 100) * 100) (inject_Z c)).
  - apply round_int_inject.
  - rewrite Qmake_100. field.
Qed.

(** The steps shared by [add_vat] and [remove_vat] once the VAT amount
    is known and no withholding is asked for. *)
Lemma withholding_tail (mode : string) (K : Z) :
  (Z.abs K < 10 ^ PyDecimal.prec)%Z ->
  Kdv._q2 (PyDecimal.mul (K # 100) 0) mode = ok (0 # 100) /\
  Kdv._q2 (PyDecimal.sub (K # 100) (0 # 100)) mode = ok (K # 100).
Proof.
  intros HK. split.
  - apply (q2_value mode _ 0 0).
    + apply round_prec_zero. ring.
    + apply round_int_0. ring.
    + reflexivity.
  - apply (q2_value mode _ (K # 100) K).
    + unfold PyDecimal.sub. rewrite (round_prec_exact _ K 2).
      * ring.
      * rewrite Qmake_100. change (10 ^ 2) with 100. field.
      * assumption.
    + apply round_int_cents.
    + assumption.
Qed.

Lemma q2_of_cents (mode : string) (c : Z) :
  (Z.abs c < 10 ^ PyDecimal.prec)%Z -> Kdv._q2 (c # 100) mode = ok (c # 100).
Proof.
  intros Hc. apply (q2_value mode _ (c # 100) c); [reflexivity| |assumption].
  apply round_int_cents.
Qed.

End KdvTheorem.

Section KdvRoundTripTheorem.

Lemma round_trip_quotient (m : rounding) (T K R : Z) (oran y : Q) :
  (0 <= T <= 10 ^ 12)%Z -> (0 <= K <= 10 ^ 12)%Z -> (0 <= R <= 10 ^ 10)%Z ->
  oran * inject_Z (10 ^ 10) == inject_Z R ->
  y * (1 + oran) == inject_Z (T + K) / 100 ->
  (inject_Z T - (1 # 2)) * (1 + oran) * (2 * inject_Z (10 ^ 10)) + 1
    <= inject_Z (T + K) * (2 * inject_Z (10 ^ 10)) ->
  inject_Z (T + K) * (2 * inject_Z (10 ^ 10)) + 1
    <= (inject_Z T + (1 # 2)) * (1 + oran) * (2 * inject_Z (10 ^ 10)) ->
  round_int m (PyDecimal.round_prec y * 100) = T.
Proof.
  intros HT HK HR Horan Hy M1 M2.
  assert (Ho : 0 <= oran /\ oran <= 1).
  { destruct HR as [R0 R1]. rewrite Zle_Qle in R0, R1. rewrite <- Horan in R0, R1.
    change (inject_Z 0) with 0 in R0.
    change (inject_Z (10 ^ 10)) with 10000000000 in *. split; lra. }
  destruct Ho as [Ho0 Ho1].
  change (inject_Z (10 ^ 10)) with 10000000000 in *.
  assert (HTK : 0 <= inject_Z (T + K) /\ inject_Z (T + K) <= 2000000000000).
  { change 0 with (inject_Z 0). change 2000000000000 with (inject_Z 2000000000000).
    rewrite <- !Zle_Qle. lia. }
  destruct HTK as [TK0 TK1].
  set (tk := inject_Z (T + K)) in *. set (t := inject_Z T) in *.
  assert (Hy' : y * (1 + oran) * 100 == tk).
  { rewrite Hy. field. }
  clear Hy.
  assert (Hy0 : 0 <= y).
  { destruct (Qlt_le_dec y 0) as [Hneg|Hpos]; [|assumption].
    exfalso. assert (y * (1 + oran) < 0) by nra. lra. }
  assert (Hy1 : y < 10 ^ 11).
  { change (10 ^ 11) with 100000000000.
    destruct (Qlt_le_dec y 100000000000) as [Hlt|Hge]; [assumption|].
    exfalso. assert (100000000000 <= y * (1 + oran)) by nra. lra. }
  pose proof (round_prec_error y 11 Hy0 Hy1) as Herr.
  change (10 ^ (PyDecimal.prec - 11)) with 100000000000000000 in Herr.
  set (y' := PyDecimal.round_prec y) in *.
  assert (Habs : - (1 # 200000000000000000) <= y' - y <= 1 # 200000000000000000).
  { apply Qabs_Qle_condition.
    apply Qmult_le_r with (z := 100000000000000000); [reflexivity|].
    eapply Qle_trans; [exact Herr|]. apply Qle_lteq. right. reflexivity. }
  destruct Habs as [A1 A2].
  (* the exact quotient keeps its distance from the boundaries *)
  set (w := y * 100) in *.
  assert (Hw : w * (1 + oran) == tk) by (unfold w; rewrite <- Hy'; ring).
  assert (Z1 : t - (1 # 2) + (1 # 40000000000) <= w).
  { destruct (Qlt_le_dec w (t - (1 # 2) + (1 # 40000000000))) as [Hlt|Hge]; [|assumption].
    exfalso.
    assert ((w - (t - (1 # 2))) * (1 + oran) < (1 # 40000000000) * 2).
    { destruct (Qlt_le_dec (w - (t - (1 # 2))) 0); nra. }
    nra. }
  assert (Z2 : w <= t + (1 # 2) - (1 # 40000000000)).
  { destruct (Qlt_le_dec (t + (1 # 2) - (1 # 40000000000)) w) as [Hlt|Hge]; [|assumption].
    exfalso.
    assert (((t + (1 # 2)) - w) * (1 + oran) < (1 # 40000000000) * 2).
    { destruct (Qlt_le_dec ((t + (1 # 2)) - w) 0); nra. }
    nra. }
  apply round_int_unique; fold t; unfold w in *; lra.
Qed.

End KdvRoundTripTheorem.

Section KdvMain.

(** C1 (as amended): for a price between 0 and 10^10 and a rate
    between 0 and 100, both with at most 8 decimals, and either the
    half-up rounding or a price that is not a whole number of cents plus
    exactly half a cent, adding VAT and then removing it from the gross
    gives back the result of adding: in particular the net is the price
    rounded to two decimals. *)
Theorem add_vat_remove_vat_round_trip (price rate : Q) (mode : string) :
  0 < price -> price < 10 ^ 10 -> decimal_places 8 price ->
  0 <= rate -> rate <= 100 -> decimal_places 8 rate ->
  (Kdv.rounding_of mode = ROUND_HALF_UP \/ ~ half_cent price) ->
  exists r1 : Kdv.KDVResult,
    Kdv.add_vat price (Num rate) None mode = ok r1 /\
    Kdv.remove_vat (Kdv.price_incl_vat r1) (Num rate) None mode = ok r1 /\
    Kdv._q2 price mode = ok (Kdv.price_excl_vat r1).
Proof.
  intros Hp0 Hp1 Hpd Hr0 Hr1 Hrd Htie.
  set (m := Kdv.rounding_of mode) in *.
  destruct (norm_rate_value rate Hr0 Hr1 Hrd) as (oran & R & Hnorm & Horan & HR).
  assert (Ho : 0 <= oran /\ oran <= 1).
  { destruct HR as [R0 R1]. rewrite Zle_Qle in R0, R1. rewrite <- Horan in R0, R1.
    change (inject_Z 0) with 0 in R0.
    change (inject_Z (10 ^ 10)) with 10000000000 in *. split; lra. }
  destruct Ho as [Ho0 Ho1].
  assert (Hcp : exists cp : Z, price * inject_Z (10 ^ 8) == inject_Z cp /\ (0 < cp < 10 ^ 18)%Z).
  { exists (Qfloor (price * 10 ^ 8)). unfold decimal_places in Hpd.
    change (inject_Z (10 ^ 8)) with (10 ^ 8). split; [exact Hpd|].
    rewrite !Zlt_Qlt, <- Hpd.
    change (10 ^ 10) with 10000000000 in Hp1.
    change (10 ^ 8) with 100000000. change (inject_Z 0) with 0.
    change (inject_Z (10 ^ 18)) with 1000000000000000000. split; lra. }
  destruct Hcp as (cp & Hcp & Hcpb).
  set (P := price * 100).
  set (T := round_int m P).
  set (K := round_int m (P * oran)).
  assert (HP0 : 0 <= P) by (unfold P; lra).
  assert (HP1 : P <= inject_Z (10 ^ 12)).
  { unfold P. change (inject_Z (10 ^ 12)) with 1000000000000.
    change (10 ^ 10) with 10000000000 in Hp1. lra. }
  assert (HPo0 : 0 <= P * oran) by (apply Qmult_le_0_compat; assumption).
  assert (HPo1 : P * oran <= inject_Z (10 ^ 12)) by nra.
  assert (HT : (0 <= T <= 10 ^ 12)%Z).
  { split; [apply round_int_nonneg | apply round_int_le_inject]; assumption. }
  assert (HK : (0 <= K <= 10 ^ 12)%Z).
  { split; [apply round_int_nonneg | apply round_int_le_inject]; assumption. }
  assert (HTb : (Z.abs T < 10 ^ PyDecimal.prec)%Z) by (unfold PyDecimal.prec; lia).
  assert (HKb : (Z.abs K < 10 ^ PyDecimal.prec)%Z) by (unfold PyDecimal.prec; lia).
  assert (HTKb : (Z.abs (T + K) < 10 ^ PyDecimal.prec)%Z) by (unfold PyDecimal.prec; lia).
  destruct (withholding_tail mode K HKb) as [Htev Hpay].
  (* the steps of add_vat *)
  assert (Hkdv : Kdv._q2 (PyDecimal.mul price oran) mode = ok (K # 100)).
  { apply (q2_value mode _ (price * oran) K); [| |assumption].
    - apply (round_prec_exact _ (cp * R) 18).
      + rewrite inject_Z_mult, <- Hcp, <- Horan.
        change (10 ^ 18) with (inject_Z (10 ^ 8) * inject_Z (10 ^ 10)). ring.
      + unfold PyDecimal.prec. nia.
    - apply round_int_proper. unfold P. ring. }
  assert (Hbrut : Kdv._q2 (PyDecimal.add price (K # 100)) mode = ok ((T + K) # 100)).
  { apply (q2_value mode _ (price + (K # 100)) (T + K)); [| |assumption].
    - apply (round_prec_exact _ (cp + K * 10 ^ 6) 8).
      + rewrite inject_Z_plus, inject_Z_mult, <- Hcp, Qmake_100.
        change (10 ^ 8) with (inject_Z (10 ^ 8)).
        change (inject_Z (10 ^ 8)) with (100 * inject_Z (10 ^ 6)). field.
      + unfold PyDecimal.prec. lia.
    - transitivity (round_int m (P + inject_Z K)); [|apply round_int_add_Z].
      + apply round_int_proper. unfold P. rewrite Qmake_100. field.
      + destruct Htie as [Hup|Hnt]; [right|left; exact Hnt].
        split; [exact Hup|]. split; [assumption|].
        assert (0 <= inject_Z K) by (change 0 with (inject_Z 0); rewrite <- Zle_Qle; lia).
        lra. }
  assert (Hnet : Kdv._q2 price mode = ok (T # 100)).
  { apply (q2_value mode _ price T); [reflexivity|reflexivity|assumption]. }
  exists (Kdv.mkKDVResult (T # 100) (K # 100) ((T + K) # 100) oran 0 (0 # 100) (K # 100)).
  split; [|split].
  - unfold Kdv.add_vat. rewrite Hnorm, rbind_ok, Hkdv, rbind_ok, Hbrut, rbind_ok.
    cbn [Kdv._parse_withholding]. rewrite rbind_ok, Htev, rbind_ok, Hpay, rbind_ok.
    rewrite Hnet, rbind_ok. reflexivity.
  - cbn [Kdv.price_incl_vat].
    assert (Hone : PyDecimal.add 1 oran == 1 + oran).
    { apply (round_prec_exact _ (10 ^ 10 + R) 10).
      - rewrite inject_Z_plus, <- Horan. change (10 ^ 10) with (inject_Z (10 ^ 10)). ring.
      - unfold PyDecimal.prec. lia. }
    assert (Hnz : Qeq_bool (PyDecimal.add 1 oran) 0 = false).
    { destruct (Qeq_bool (PyDecimal.add 1 oran) 0) eqn:E; [|reflexivity].
      apply Qeq_bool_iff in E. rewrite Hone in E. lra. }
    destruct (round_trip_margin m P oran (10 ^ 10) R HP0 Ho0 Horan ltac:(lia)
                ltac:(destruct Htie; [right|left]; assumption)) as [M1 M2].
    fold T K in M1, M2.
    set (y := ((T + K) # 100) / PyDecimal.add 1 oran).
    assert (Hy : y * (1 + oran) == inject_Z (T + K) / 100).
    { unfold y. rewrite Hone, Qmake_100. field. lra. }
    assert (Hq : Kdv._q2 (PyDecimal.round_prec y) mode = ok (T # 100)).
    { apply (q2_value mode _ (PyDecimal.round_prec y) T); [reflexivity| |assumption].
      apply (round_trip_quotient m T K R oran y); assumption. }
    assert (Hkdv' : Kdv._q2 (PyDecimal.sub ((T + K) # 100) (T # 100)) mode = ok (K # 100)).
    { apply (q2_value mode _ (K # 100) K); [| |assumption].
      - unfold PyDecimal.sub. rewrite (round_prec_exact _ K 2).
        + rewrite !Qmake_100, inject_Z_plus. field.
        + rewrite !Qmake_100, inject_Z_plus. change (10 ^ 2) with 100. field.
        + assumption.
      - apply round_int_cents. }
    unfold Kdv.remove_vat. rewrite Hnorm, rbind_ok.
    unfold PyDecimal.div. rewrite Hnz, rbind_ok. fold y.
    rewrite Hq, rbind_ok, Hkdv', rbind_ok, (q2_of_cents mode (T + K) HTKb), rbind_ok.
    cbn [Kdv._parse_withholding]. rewrite rbind_ok, Htev, rbind_ok, Hpay, rbind_ok.
    reflexivity.
  - exact Hnet.
Qed.

End KdvMain.

Section KdvFromVat.




End KdvFromVat.

Section KdvExamples.

Example add_vat_with_withholding :
  Kdv.add_vat 100 (Num 20) (Some (Str "7/10")) "even"
  = ok (Kdv.mkKDVResult (10000 # 100) (2000 # 100) (12000 # 100)
          (PyDecimal.round_prec (20 / 100)) (PyDecimal.round_prec (7 / 10))
          (1400 # 100) (600 # 100)).
Proof. vm_compute. reflexivity. Qed.

End KdvExamples.

(** ** The claims about the VAT calculator, on concrete inputs *)

Section KdvClaims.

Lemma add_vat_remove_vat_round_trip_witness :
  exists r1 : Kdv.KDVResult,
    Kdv.add_vat (1005 # 1000) (Num 5) None "up" = ok r1 /\
    Kdv.remove_vat (Kdv.price_incl_vat r1) (Num 5) None "up" = ok r1 /\
    Kdv._q2 (1005 # 1000) "up" = ok (Kdv.price_excl_vat r1).
Proof.
  apply (add_vat_remove_vat_round_trip (1005 # 1000) 5 "up").
  - reflexivity.
  - reflexivity.
  - reflexivity.
  - discriminate.
  - discriminate.
  - reflexivity.
  - left. reflexivity.
Defined.

(** C1, as stated, fails: with price 1.005, rate 5 and the default
    rounding, adding VAT gives 1.06 and removing it gives 1.01, whereas
    1.005 rounded to two decimals under that rounding is 1.00. *)
Lemma round_trip_fails_on_half_cent :
  0 < 1005 # 1000 /\ 0 <= 5 /\ 5 <= 100 /\
  exists r1 r2 : Kdv.KDVResult,
    Kdv.add_vat (1005 # 1000) (Num 5) None "even" = ok r1 /\
    Kdv.remove_vat (Kdv.price_incl_vat r1) (Num 5) None "even" = ok r2 /\
    Kdv.price_incl_vat r1 = 106 # 100 /\
    Kdv.price_excl_vat r2 = 101 # 100 /\
    Kdv._q2 (1005 # 1000) "even" = ok (100 # 100) /\
    round2 (1005 # 1000) = 100 # 100.
Proof.
  split; [reflexivity|]. split; [discriminate|]. split; [discriminate|].
  eexists. eexists.
  split; [vm_compute; reflexivity|]. split; [vm_compute; reflexivity|].
  repeat split.
Qed.

(** Beyond the digits of the context the calculator fails altogether:
    the price 10^27 cannot be rounded to two decimals. *)
Lemma add_vat_quantize_overflow :
  Kdv.add_vat (10 ^ 27) (Num 20) None "even" = raise (InvalidOperation QuantizePrecision).
Proof. vm_compute. reflexivity. Qed.



(** C7: the denominator "0.0" is zero, and yet the ratio is not 0: the
    division is attempted and raises. *)
Theorem parse_withholding_zero_denominator_raises :
  Decimal_of_string "0.0" = ok (inject_Z 0 * 10 ^ (-1)) /\
  inject_Z 0 * 10 ^ (-1) == 0 /\
  Kdv._parse_withholding (Some (Str "1/0.0")) = raise DivisionByZero /\
  Kdv.add_vat 100 (Num 20) (Some (Str "1/0.0")) "even" = raise DivisionByZero.
Proof. repeat split; vm_compute; reflexivity. Qed.

(** The other cases of the withholding input behave as specified. *)
Lemma parse_withholding_none : Kdv._parse_withholding None = ok 0.
Proof. reflexivity. Qed.

Lemma parse_withholding_denominator_0 (t a : string) :
  PyStr.split1 "/" (PyStr.replace " " "" (PyStr.strip t)) = Some (a, "0") ->
  Kdv._parse_withholding (Some (Str t)) = ok 0.
Proof.
  intros H. unfold Kdv._parse_withholding.
  assert (Hin : PyStr.str_in "/" (PyStr.replace " " "" (PyStr.strip t)) = true).
  { revert H. generalize (PyStr.replace " " "" (PyStr.strip t)) as s. intros s. revert a.
    induction s as [|c s IH]; intros a H; cbn [PyStr.split1] in H.
    - cbn in H. discriminate.
    - cbn [PyStr.str_in]. destruct (String.prefix "/" (String c s)); [reflexivity|].
      destruct (PyStr.split1 "/" s) as [[a' b']|] eqn:E; [|discriminate].
      injection H as _ ->. rewrite (IH a' eq_refl). apply orb_true_r. }
  rewrite Hin, H. reflexivity.
Qed.

Lemma parse_withholding_number (q : Q) :
  exists t : Q,
    Kdv._parse_withholding (Some (Num q)) = ok t /\ 0 <= t /\ t <= 1 /\
    (0 <= q -> q <= 1 -> t = q).
Proof.
  unfold Kdv._parse_withholding.
  destruct (Qlt_le_dec 1 q) as [Hgt|Hle].
  - unfold PyDecimal.div. change (Qeq_bool 100 0) with false. cbv iota. rewrite rbind_ok.
    set (v := PyDecimal.round_prec (q / 100)).
    destruct (Qlt_le_dec v 0) as [Hn|Hp].
    + destruct (Qlt_le_dec 1 0) as [H|_]; [discriminate H|].
      exists 0. repeat split; try discriminate; intros; lra.
    + destruct (Qlt_le_dec 1 v) as [H1|H1].
      * exists 1. repeat split; try discriminate; intros; lra.
      * exists v. repeat split; try assumption; intros; lra.
  - rewrite rbind_ok.
    destruct (Qlt_le_dec q 0) as [Hn|Hp].
    + destruct (Qlt_le_dec 1 0) as [H|_]; [discriminate H|].
      exists 0. repeat split; try discriminate; intros; lra.
    + destruct (Qlt_le_dec 1 q) as [H1|H1]; [lra|].
      exists q. repeat split; try assumption.
Qed.

Example parse_withholding_fraction :
  Kdv._parse_withholding (Some (Str "7/10")) = ok (PyDecimal.round_prec (7 / 10)) /\
  PyDecimal.round_prec (7 / 10) == 7 # 10 /\
  Kdv._parse_withholding (Some (Str "5/2")) = ok (PyDecimal.round_prec 1) /\
  Kdv._parse_withholding (Some (Str " 150 ")) = ok 1 /\
  Kdv._parse_withholding (Some (Str "1/0")) = ok 0.
Proof. repeat split; vm_compute; reflexivity. Qed.

End KdvClaims.

(** ** Product groups with their highest commission, on concrete rows *)

Section PgClaims.
Import Service.

Example list_pg_commissions_10_15 :
  list_pg_commissions ascii_lower SampleRows.ten_then_15 "trendyol" ""
  = [mkEntry "Elbise" (Some (Fin 15)) "15,00%"].
Proof. vm_compute. reflexivity. Qed.

End PgClaims.

(** ** The commission and profit calculation *)

Section CommissionCalc.
Import Service.

Lemma fdiv_nonzero (x y : Q) :
  ~ y == 0 -> Traced.fdiv x y = (ok (x / y), [y]).
Proof.
  intros Hy. unfold Traced.fdiv.
  destruct (Qeq_bool y 0) eqn:E; [|reflexivity].
  apply Qeq_bool_iff in E. contradiction.
Qed.

Lemma extract_vat_share_pos (gross v : Q) :
  0 < v ->
  _extract_vat_share gross v = (ok (gross * (v / (100 + v))), [100 + v]).
Proof.
  intros Hv. unfold _extract_vat_share.
  destruct (Qlt_le_dec 0 v) as [_|Hle]; [|lra].
  rewrite fdiv_nonzero by lra. reflexivity.
Qed.

Lemma extract_vat_share_nonpos (gross v : Q) :
  v <= 0 -> _extract_vat_share gross v = (ok 0, []).
Proof.
  intros Hv. unfold _extract_vat_share.
  destruct (Qlt_le_dec 0 v) as [Hlt|_]; [lra|reflexivity].
Qed.

(** The outcome and the divisors of the calculation on a positive sale price. *)
Lemma calculate_commission_run (mid : string) (p : calc_params) :
  0 < default 0 (salePrice p) ->
  exists res : calc_result,
    calculate_commission mid p =
      (ok res,
       ([100; 100; 100; default 0 (salePrice p)] ++
        (if Qlt_le_dec 0 (default 0 (vatPercent p))
         then repeat (100 + default 0 (vatPercent p)) 5 else []))%list) /\
    commissionAmount res = round2 (Exact.commission p) /\
    serviceAmount res = round2 (Exact.service p) /\
    exportAmount res = round2 (Exact.export p) /\
    cargoDeduction res = round2 (default 0 (cargoPrice p)) /\
    payout res = round2 (Exact.payout p) /\
    netProfit res = round2 (Exact.net_profit p) /\
    profitMargin res = round2 (Exact.margin p) /\
    error_ res = None.
Proof.
  intros Hs. unfold calculate_commission.
  destruct (Qle_bool (default 0 (salePrice p)) 0) eqn:E.
  { apply Qle_bool_iff in E. lra. }
  rewrite !(fdiv_nonzero _ 100) by discriminate.
  cbn [Traced.bind ok].
  destruct (Qlt_le_dec 0 (default 0 (salePrice p))) as [_|Hle]; [|lra].
  rewrite (fdiv_nonzero _ (default 0 (salePrice p))) by lra.
  cbn [Traced.bind Traced.ret ok].
  destruct (Qlt_le_dec 0 (default 0 (vatPercent p))) as [Hv|Hv].
  - rewrite !(extract_vat_share_pos _ _ Hv). cbn [Traced.bind Traced.ret ok].
    eexists. split; [reflexivity|]. repeat split; reflexivity.
  - rewrite !(extract_vat_share_nonpos _ _ Hv). cbn [Traced.bind Traced.ret ok].
    eexists. split; [reflexivity|]. repeat split; reflexivity.
Qed.

End CommissionCalc.

Section CommissionClaims.
Import Service.

(** C10: the VAT share of a rate that is not positive is 0 and no
    division is evaluated; on a positive sale price the calculation
    raises nothing, and the divisors it evaluates are the constant 100
    (three times), the sale price, and 100 + vatPercent (five times,
    and only when vatPercent > 0), none of which is zero. *)
Theorem calculate_commission_never_divides_by_zero
    (mid : string) (p : calc_params) (gross v : Q) :
  (v <= 0 -> _extract_vat_share gross v = (ok 0, [])) /\
  (0 < default 0 (salePrice p) ->
     (exists res : calc_result, Traced.outcome (calculate_commission mid p) = ok res) /\
     Traced.divisors (calculate_commission mid p)
     = ([100; 100; 100; default 0 (salePrice p)] ++
        (if Qlt_le_dec 0 (default 0 (vatPercent p))
         then repeat (100 + default 0 (vatPercent p)) 5 else []))%list /\
     Forall (fun d : Q => ~ d == 0) (Traced.divisors (calculate_commission mid p))).
Proof.
  split; [apply extract_vat_share_nonpos|].
  intros Hs.
  destruct (calculate_commission_run mid p Hs) as (res & Hrun & _).
  rewrite Hrun. cbn [Traced.outcome Traced.divisors fst snd].
  split; [exists res; reflexivity|]. split; [reflexivity|].
  apply Forall_app. split.
  - repeat constructor; try discriminate. lra.
  - destruct (Qlt_le_dec 0 (default 0 (vatPercent p))) as [Hv|Hv]; [|constructor].
    cbn [repeat]. repeat constructor; lra.
Qed.

Lemma calculate_commission_never_divides_by_zero_witness :
  _extract_vat_share 118 (- (100)) = (ok 0, []) /\
  Forall (fun d : Q => ~ d == 0)
    (Traced.divisors
       (calculate_commission "n11"
          (mkParams (Some 200) (Some 100) (Some 20) (Some (- (100))) (Some 10) None None None))).
Proof.
  pose proof (calculate_commission_never_divides_by_zero "n11"
           (mkParams (Some 200) (Some 100) (Some 20) (Some (- (100))) (Some 10) None None None)
           118 (- (100))) as [H1 H2].
  split.
  - apply H1. discriminate.
  - apply H2. reflexivity.
Defined.

End CommissionClaims.

(** ** Hot reload *)

Section Refresh.
Import Service.

Variable fs : filesystem.
Variable force : bool.

Lemma refresh_step_files (acc : state * bool) (kp : string * string) :
  _files (fst (refresh_step fs force acc kp)) = _files (fst acc).
Proof.
  destruct acc as [s changed], kp as [key path]. unfold refresh_step.
  destruct (negb (fs_exists fs path)); [reflexivity|].
  destruct (force || _)%bool; [|reflexivity].
  destruct (_load_csv_normalized fs path key); reflexivity.
Qed.

(** A turn of the loop leaves the entries of the other marketplaces
    alone. *)
Lemma refresh_step_other (acc : state * bool) (kp : string * string) (key : string) :
  fst kp <> key ->
  _data (fst (refresh_step fs force acc kp)) !! key = _data (fst acc) !! key /\
  _mtimes (fst (refresh_step fs force acc kp)) !! key = _mtimes (fst acc) !! key.
Proof.
  destruct acc as [s changed], kp as [k path]. cbn [fst]. intros Hne.
  unfold refresh_step.
  destruct (negb (fs_exists fs path)).
  { cbn. rewrite lookup_insert_ne by assumption. split; reflexivity. }
  destruct (force || _)%bool; [|split; reflexivity].
  destruct (_load_csv_normalized fs path k); [split; reflexivity|].
  cbn. rewrite !lookup_insert_ne by assumption. split; reflexivity.
Qed.

Lemma refresh_fold_other (l : list (string * string)) (acc : state * bool) (key : string) :
  key ∉ map fst l ->
  _data (fst (fold_left (refresh_step fs force) l acc)) !! key = _data (fst acc) !! key /\
  _mtimes (fst (fold_left (refresh_step fs force) l acc)) !! key = _mtimes (fst acc) !! key.
Proof.
  revert acc. induction l as [|kp l IH]; intros acc Hnot; [split; reflexivity|].
  cbn [fold_left]. cbn [map] in Hnot.
  apply not_elem_of_cons in Hnot as [Hne Hnot].
  destruct (IH (refresh_step fs force acc kp) Hnot) as [Hd Hm].
  destruct (refresh_step_other acc kp key) as [Hd' Hm']; [congruence|].
  split; congruence.
Qed.

(** The turn of the loop for a marketplace whose file is missing. *)
Lemma refresh_step_missing (acc : state * bool) (key path : string) :
  fs_exists fs path = false ->
  _data (fst (refresh_step fs force acc (key, path))) !! key = Some [].
Proof.
  destruct acc as [s changed]. intros He. unfold refresh_step. rewrite He.
  cbn. apply lookup_insert_eq.
Qed.

(** The turn of the loop for a marketplace whose reload fails. *)
Lemma refresh_step_failed (acc : state * bool) (key path : string) (e : pyexn) :
  fs_exists fs path = true ->
  _load_csv_normalized fs path key = raise e ->
  refresh_step fs force acc (key, path) = acc.
Proof.
  destruct acc as [s changed]. intros He Hl. unfold refresh_step. rewrite He, Hl.
  cbn. destruct (force || _)%bool; reflexivity.
Qed.

(** C3: a reload that fails while the file exists leaves the rows and
    the recorded modification time of that marketplace as they were, and
    a marketplace whose file does not exist gets the empty list of rows;
    [refresh_if_changed] itself always returns. *)
Theorem refresh_keeps_stale_snapshot (s : state) (key path : string) :
  NoDup (map fst (_files s)) ->
  (key, path) ∈ _files s ->
  let s' := fst (refresh_if_changed fs force s) in
  (fs_exists fs path = true ->
   (exists e : pyexn, _load_csv_normalized fs path key = raise e) ->
   _data s' !! key = _data s !! key /\ _mtimes s' !! key = _mtimes s !! key) /\
  (fs_exists fs path = false ->
   _data s' !! key = Some [] /\ data_of s' key = []).
Proof.
  intros Hnd Hin s'. unfold s', refresh_if_changed.
  apply list_elem_of_split in Hin as (l1 & l2 & Hl).
  rewrite Hl in *. clear s'.
  rewrite map_app in Hnd. cbn [map fst] in Hnd.
  apply NoDup_app in Hnd as (Hnd1 & Hdisj & Hnd2).
  apply NoDup_cons in Hnd2 as [Hnot2 _].
  assert (Hnot1 : key ∉ map fst l1).
  { intros Hk. apply (Hdisj key Hk). left. }
  rewrite fold_left_app. cbn [fold_left].
  set (acc1 := fold_left (refresh_step fs force) l1 (s, false)).
  destruct (refresh_fold_other l1 (s, false) key Hnot1) as [Hd1 Hm1].
  fold acc1 in Hd1, Hm1. cbn [fst] in Hd1, Hm1.
  split.
  - intros He (e & Hfail).
    destruct (refresh_fold_other l2 (refresh_step fs force acc1 (key, path)) key Hnot2)
      as [Hd2 Hm2].
    rewrite (refresh_step_failed acc1 key path e He Hfail) in Hd2, Hm2.
    rewrite (refresh_step_failed acc1 key path e He Hfail).
    split; congruence.
  - intros He.
    destruct (refresh_fold_other l2 (refresh_step fs force acc1 (key, path)) key Hnot2)
      as [Hd2 _].
    rewrite (refresh_step_missing acc1 key path He) in Hd2.
    split; [exact Hd2|]. unfold data_of. rewrite Hd2. reflexivity.
Qed.

End Refresh.

Section RefreshWitness.
Import Service.

Lemma refresh_keeps_stale_snapshot_witness :
  (_data (fst (refresh_if_changed Sample.fs_broken false Sample.loaded)) !! "trendyol"
     = Some [Sample.row_phone] /\
   _mtimes (fst (refresh_if_changed Sample.fs_broken false Sample.loaded)) !! "trendyol"
     = Some 10) /\
  _data (fst (refresh_if_changed Sample.fs_broken false Sample.loaded)) !! "n11" = Some [].
Proof.
  split.
  - apply (refresh_keeps_stale_snapshot Sample.fs_broken false Sample.loaded
             "trendyol" "/srv/data/commissions_flat.csv").
    + apply (bool_decide_unpack _). vm_compute. exact I.
    + apply (bool_decide_unpack _). vm_compute. exact I.
    + reflexivity.
    + eexists. vm_compute. reflexivity.
  - apply (refresh_keeps_stale_snapshot Sample.fs_broken false Sample.loaded
             "n11" "/srv/data/n11_commissions.csv").
    + apply (bool_decide_unpack _). vm_compute. exact I.
    + apply (bool_decide_unpack _). vm_compute. exact I.
    + reflexivity.
Defined.

End RefreshWitness.

(** ** The stable sort *)

Section SortBy.
Context {A : Type} (le : A -> A -> bool).
Hypothesis le_total : forall a b, le a b = true \/ le b a = true.
Hypothesis le_trans : forall a b c, le a b = true -> le b c = true -> le a c = true.

Lemma insert_by_perm (x : A) (l : list A) : Permutation (insert_by le x l) (x :: l).
Proof.
  induction l as [|y l IH]; cbn [insert_by]; [reflexivity|].
  destruct (le x y); [reflexivity|].
  rewrite IH. apply perm_swap.
Qed.

Lemma sort_by_perm (l : list A) : Permutation (sort_by le l) l.
Proof.
  induction l as [|x l IH]; cbn [sort_by]; [reflexivity|].
  rewrite insert_by_perm, IH. reflexivity.
Qed.

Lemma insert_by_sorted (x : A) (l : list A) :
  StronglySorted (fun a b => le a b = true) l ->
  StronglySorted (fun a b => le a b = true) (insert_by le x l).
Proof.
  induction 1 as [|y l Hs IH Hall]; cbn [insert_by].
  - repeat constructor.
  - destruct (le x y) eqn:E.
    + constructor; [constructor; assumption|].
      constructor; [assumption|].
      eapply Forall_impl; [exact Hall|]. intros z Hz. eapply le_trans; eassumption.
    + assert (Hyx : le y x = true).
      { destruct (le_total x y) as [H|H]; [congruence|assumption]. }
      constructor; [assumption|].
      rewrite (insert_by_perm x l). constructor; assumption.
Qed.

Lemma sort_by_sorted (l : list A) :
  StronglySorted (fun a b => le a b = true) (sort_by le l).
Proof.
  induction l as [|x l IH]; cbn [sort_by]; [constructor|].
  apply insert_by_sorted. assumption.
Qed.

Lemma filter_insert_by (k : A) (x : A) (l : list A) :
  filter (fun y => same_rank le k y) (insert_by le x l)
  = filter (fun y => same_rank le k y) (x :: l).
Proof.
  induction l as [|y l IH]; cbn [insert_by]; [reflexivity|].
  destruct (le x y) eqn:E; [reflexivity|].
  rewrite filter_cons, IH, !filter_cons.
  destruct (decide (same_rank le k y)) as [Hy|Hy]; [|reflexivity].
  destruct (decide (same_rank le k x)) as [Hx|Hx]; [|reflexivity].
  exfalso. unfold same_rank in Hx, Hy.
  apply Is_true_true in Hx, Hy.
  apply andb_true_iff in Hx as [_ Hxk], Hy as [Hky _].
  rewrite (le_trans _ _ _ Hxk Hky) in E. discriminate.
Qed.

(** The sort is stable: the elements of one rank keep their order. *)
Lemma sort_by_stable (k : A) (l : list A) :
  filter (fun y => same_rank le k y) (sort_by le l)
  = filter (fun y => same_rank le k y) l.
Proof.
  induction l as [|x l IH]; cbn [sort_by]; [reflexivity|].
  rewrite filter_insert_by, !filter_cons, IH. reflexivity.
Qed.

Lemma StronglySorted_lookup (R : A -> A -> Prop) (l : list A) (i j : nat) (a b : A) :
  StronglySorted R l -> (i < j)%nat -> l !! i = Some a -> l !! j = Some b -> R a b.
Proof.
  intros Hs. revert i j. induction Hs as [|x l Hs IH Hall]; intros i j Hij Hi Hj.
  - rewrite lookup_nil in Hi. discriminate.
  - destruct j as [|j]; [lia|]. cbn in Hj.
    destruct i as [|i].
    + cbn in Hi. injection Hi as ->.
      rewrite Forall_forall in Hall. apply Hall.
      eapply list_elem_of_lookup_2. eassumption.
    + cbn in Hi. apply (IH i j); [lia|assumption|assumption].
Qed.

End SortBy.

(** ** Search *)

Section Search.
Import Service.

Lemma string_leb_trans (a b c : string) :
  String.leb a b = true -> String.leb b c = true -> String.leb a c = true.
Proof.
  intros H1 H2. apply Is_true_true.
  apply Is_true_true in H1, H2.
  exact (@transitivity _ String.le _ a b c H1 H2).
Qed.

Lemma key_leb_total (a b : nat * string) : key_leb a b = true \/ key_leb b a = true.
Proof.
  unfold key_leb. destruct a as [p s], b as [p' s']. cbn [fst snd].
  destruct (Nat.ltb_spec p p') as [H|H]; [left; reflexivity|].
  destruct (Nat.ltb_spec p' p) as [H'|H']; [right; reflexivity|].
  assert (p = p') as -> by lia. rewrite Nat.eqb_refl. cbn.
  apply String.leb_total.
Qed.

Lemma key_leb_trans (a b c : nat * string) :
  key_leb a b = true -> key_leb b c = true -> key_leb a c = true.
Proof.
  unfold key_leb. destruct a as [p s], b as [p' s'], c as [p'' s'']. cbn [fst snd].
  intros H1 H2.
  apply orb_true_iff in H1 as [H1|H1], H2 as [H2|H2].
  - apply Nat.ltb_lt in H1, H2. apply orb_true_iff. left. apply Nat.ltb_lt. lia.
  - apply andb_true_iff in H2 as [H2 _]. apply Nat.eqb_eq in H2. subst.
    rewrite H1. reflexivity.
  - apply andb_true_iff in H1 as [H1 _]. apply Nat.eqb_eq in H1. subst.
    rewrite H2. reflexivity.
  - apply andb_true_iff in H1 as [H1 L1], H2 as [H2 L2].
    apply Nat.eqb_eq in H1, H2. subst. rewrite Nat.eqb_refl.
    rewrite (string_leb_trans _ _ _ L1 L2). apply orb_true_r.
Qed.

Lemma key_leb_inv (a b : nat * string) :
  key_leb a b = true ->
  (fst a <= fst b)%nat /\ (fst a = fst b -> String.leb (snd a) (snd b) = true).
Proof.
  unfold key_leb. intros H. apply orb_true_iff in H as [H|H].
  - apply Nat.ltb_lt in H. split; [lia|]. intros He. lia.
  - apply andb_true_iff in H as [H L]. apply Nat.eqb_eq in H. split; [lia|auto].
Qed.

(** C4 (as amended): with q the query after lower-casing, folding of
    the Turkish letters and trimming, an empty q returns all rows in
    their order; otherwise the result holds exactly the rows one of whose
    folded fields contains q, ordered by rank (category before
    sub-category before product group) and, within a rank, by the
    lower-cased text "category → subCategory → productGroup", the rows
    with the same rank and text keeping their original order. *)
Theorem search_products_ranked (lower : string -> string) (s : state) (mid query : string) :
  let rows := data_of s mid in
  let q := PyStr.strip (_normalize_turkish (lower query)) in
  let res := search_products lower s mid query in
  let le := fun a b : Row => key_leb (search_key lower q a) (search_key lower q b) in
  if String.eqb q "" then res = rows
  else
    Permutation res (filter (matches lower q) rows) /\
    (forall (i j : nat) (a b : Row),
        (i < j)%nat -> res !! i = Some a -> res !! j = Some b ->
        (priority lower q a <= priority lower q b)%nat /\
        (priority lower q a = priority lower q b ->
         String.leb (path_for_sort lower a) (path_for_sort lower b) = true)) /\
    (forall k : Row,
        filter (fun r => same_rank le k r) res
        = filter (fun r => same_rank le k r) (filter (matches lower q) rows)).
Proof.
  intros rows q res le. unfold res, search_products. fold rows q.
  destruct (String.eqb q "") eqn:E; [reflexivity|].
  fold le.
  assert (Htot : forall a b, le a b = true \/ le b a = true).
  { intros a b. apply key_leb_total. }
  assert (Htr : forall a b c, le a b = true -> le b c = true -> le a c = true).
  { intros a b c. apply key_leb_trans. }
  split; [apply sort_by_perm|]. split.
  - intros i j a b Hij Hi Hj.
    pose proof (sort_by_sorted le Htot Htr (filter (matches lower q) rows)) as Hs.
    pose proof (StronglySorted_lookup _ _ i j a b Hs Hij Hi Hj) as Hab.
    apply key_leb_inv in Hab. exact Hab.
  - intros k. apply sort_by_stable. exact Htr.
Qed.

(** C4, as stated, fails on the order within a rank: both rows match
    "x" in their category, the displayed path "Bx → s → g" comes before
    "ax → s → g" in lexicographic order, and yet the row "ax" is
    returned first, because the paths are compared in lower case. *)
Lemma search_products_orders_by_lowercase_path :
  search_products ascii_lower SampleRows.two_categories "n11" "x"
    = [SampleRows.row_ax; SampleRows.row_Bx] /\
  priority ascii_lower "x" SampleRows.row_ax = priority ascii_lower "x" SampleRows.row_Bx /\
  String.ltb (displayed_path SampleRows.row_Bx) (displayed_path SampleRows.row_ax) = true.
Proof. vm_compute. repeat split. Qed.

(** The empty query returns the rows as they are. *)
Lemma search_products_empty_query (s : state) (mid : string) :
  search_products ascii_lower s mid "" = data_of s mid.
Proof. reflexivity. Qed.

(** A query of blanks is not empty, yet it returns every row. *)
Lemma search_products_blank_query :
  search_products ascii_lower SampleRows.two_categories "n11" " "
    = [SampleRows.row_ax; SampleRows.row_Bx] /\
  matches ascii_lower (_normalize_turkish (ascii_lower " ")) SampleRows.row_ax = false.
Proof. vm_compute. repeat split. Qed.

End Search.

(** ** Scale normalisation *)

Section FixScale.
Import Service.




Lemma length_insert_by {A} (le : A -> A -> bool) (x : A) (l : list A) :
  length (insert_by le x l) = S (length l).
Proof.
  induction l as [|y l IH]; cbn [insert_by]; [reflexivity|].
  destruct (le x y); cbn [length]; [reflexivity|]. rewrite IH. reflexivity.
Qed.

Lemma length_sort_by {A} (le : A -> A -> bool) (l : list A) :
  length (sort_by le l) = length l.
Proof.
  induction l as [|x l IH]; cbn [sort_by]; [reflexivity|].
  rewrite length_insert_by, IH. reflexivity.
Qed.







End FixScale.

(** ** Product groups with their highest commission *)

Section PgAggregation.
Import Service.
Variable lower : string -> string.
Variable norm_q : string.

Lemma dict_get_set_eq {V} (k : string) (v : V) (d : list (string * V)) :
  dict_get k (dict_set k v d) = Some v.
Proof.
  induction d as [|[k' v'] d IH]; cbn [dict_set dict_get].
  - rewrite String.eqb_refl. reflexivity.
  - destruct (String.eqb k k') eqn:E; cbn [dict_get].
    + rewrite String.eqb_refl. reflexivity.
    + rewrite E. exact IH.
Qed.

Lemma dict_get_set_ne {V} (k k0 : string) (v : V) (d : list (string * V)) :
  k0 <> k -> dict_get k0 (dict_set k v d) = dict_get k0 d.
Proof.
  intros Hne. induction d as [|[k' v'] d IH]; cbn [dict_set dict_get].
  - destruct (String.eqb_spec k0 k); [contradiction|reflexivity].
  - destruct (String.eqb_spec k k') as [->|Hk]; cbn [dict_get].
    + destruct (String.eqb_spec k0 k'); [contradiction|reflexivity].
    + destruct (String.eqb k0 k'); [reflexivity|exact IH].
Qed.

Lemma dict_set_keys {V} (k : string) (v : V) (d : list (string * V)) :
  map fst (dict_set k v d)
  = match dict_get k d with
    | Some _ => map fst d
    | None => (map fst d ++ [k])%list
    end.
Proof.
  induction d as [|[k' v'] d IH]; cbn [dict_set dict_get map fst]; [reflexivity|].
  destruct (String.eqb_spec k k') as [->|Hk]; cbn [map fst]; [reflexivity|].
  rewrite IH. destruct (dict_get k d); reflexivity.
Qed.

Lemma dict_get_None_keys {V} (k : string) (d : list (string * V)) :
  dict_get k d = None -> k ∉ map fst d.
Proof.
  induction d as [|[k' v'] d IH]; cbn [dict_get map fst]; intros H.
  - apply not_elem_of_nil.
  - destruct (String.eqb_spec k k') as [->|Hk]; [discriminate|].
    apply not_elem_of_cons. split; [assumption|apply IH; assumption].
Qed.

Lemma dict_set_NoDup {V} (k : string) (v : V) (d : list (string * V)) :
  NoDup (map fst d) -> NoDup (map fst (dict_set k v d)).
Proof.
  intros Hnd. rewrite dict_set_keys.
  destruct (dict_get k d) eqn:E; [assumption|].
  apply NoDup_app. split; [assumption|]. split.
  - intros x Hx Hx'. apply list_elem_of_singleton in Hx'. subst x.
    exact (dict_get_None_keys k d E Hx).
  - apply NoDup_singleton.
Qed.

Lemma dict_get_elem {V} (k : string) (v : V) (d : list (string * V)) :
  NoDup (map fst d) -> (k, v) ∈ d -> dict_get k d = Some v.
Proof.
  induction d as [|[k' v'] d IH]; cbn [dict_get map fst]; intros Hnd Hin.
  - apply elem_of_nil in Hin. contradiction.
  - apply NoDup_cons in Hnd as [Hnot Hnd].
    apply elem_of_cons in Hin as [Heq|Hin].
    + injection Heq as -> ->. rewrite String.eqb_refl. reflexivity.
    + destruct (String.eqb_spec k k') as [->|Hk]; [|apply IH; assumption].
      exfalso. apply Hnot. apply list_elem_of_In, in_map_iff.
      exists (k', v). split; [reflexivity|apply list_elem_of_In; assumption].
Qed.

Lemma dict_elem_get {V} (k : string) (v : V) (d : list (string * V)) :
  dict_get k d = Some v -> (k, v) ∈ d.
Proof.
  induction d as [|[k' v'] d IH]; cbn [dict_get]; intros H; [discriminate|].
  destruct (String.eqb_spec k k') as [->|Hk].
  - injection H as ->. left.
  - right. apply IH. assumption.
Qed.

(** One turn of the loop, in terms of [pg_passes] and [entry_of]. *)
Lemma pg_step_unfold (seen : list (string * pg_entry)) (r : Row) :
  pg_step lower norm_q seen r
  = if pg_passes lower norm_q r then
      if match dict_get (pg_of r) seen with
         | None => true
         | Some current => fgt (pg_value r) (or_zero (commissionPercent current))
         end
      then dict_set (pg_of r) (entry_of r) seen
      else seen
    else seen.
Proof.
  unfold pg_step, pg_passes, pg_of, entry_of, pg_value.
  destruct (String.eqb (PyStr.strip (Urun_Grubu r)) ""); cbn [negb andb]; [reflexivity|].
  destruct (String.eqb norm_q ""); cbn [negb andb orb]; [reflexivity|].
  destruct (PyStr.str_in norm_q (_normalize_turkish (lower (PyStr.strip (Urun_Grubu r)))));
    reflexivity.
Qed.

Lemma pg_value_numeric (r : Row) : numeric_row r -> pg_value r = Fin (pg_number r).
Proof.
  unfold numeric_row, pg_number, pg_value. intros H.
  destruct (commission_value (Komisyon r)) as [[q|]|]; cbn [or_zero].
  - destruct (Qeq_bool q 0); reflexivity.
  - contradiction.
  - reflexivity.
Qed.

Lemma pg_value_entry_of (r : Row) : or_zero (commissionPercent (entry_of r)) = pg_value r.
Proof. reflexivity. Qed.

Lemma fgt_Fin (x y : Q) : fgt (Fin x) (Fin y) = true <-> y < x.
Proof.
  cbn [fgt]. destruct (Qle_bool x y) eqn:E; cbn [negb].
  - apply Qle_bool_iff in E. split; [discriminate|]. intros H. lra.
  - split; [|reflexivity]. intros _. apply Qnot_le_lt. intros H.
    apply Qle_bool_iff in H. congruence.
Qed.

(** The dictionary after the loop has read [rows]: every key holds the
    entry of the first row with the highest commission of its group, and
    a group without key has no row that the aggregation takes. *)
Lemma pg_fold_invariant (rows : list Row) :
  Forall numeric_row rows ->
  forall k : string,
    match dict_get k (fold_left (pg_step lower norm_q) rows []) with
    | Some e => kept lower norm_q rows k e
    | None => Forall (fun r' => ~ (pg_passes lower norm_q r' = true /\ pg_of r' = k)) rows
    end.
Proof.
  induction rows as [|r rows IH] using rev_ind; intros Hnum k.
  - cbn. constructor.
  - apply Forall_app in Hnum as [Hnum Hr].
    apply (proj1 (Forall_singleton _ _)) in Hr.
    specialize (IH Hnum).
    rewrite fold_left_app. cbn [fold_left].
    set (seen := fold_left (pg_step lower norm_q) rows []) in *.
    rewrite pg_step_unfold.
    destruct (pg_passes lower norm_q r) eqn:Hp.
    + (* the row is taken *)
      pose proof (IH (pg_of r)) as IHr.
      destruct (dict_get (pg_of r) seen) as [cur|] eqn:Hcur.
      * destruct IHr as (l1 & r0 & l2 & Hrows & Hp0 & Hk0 & He0 & Hl1 & Hl2).
        assert (Hn0 : numeric_row r0).
        { rewrite Forall_forall in Hnum. apply Hnum. rewrite Hrows.
          apply elem_of_app. right. left. }
        rewrite He0, pg_value_entry_of, (pg_value_numeric r Hr), (pg_value_numeric r0 Hn0).
        destruct (fgt (Fin (pg_number r)) (Fin (pg_number r0))) eqn:Hgt.
        -- (* the row replaces the entry *)
           apply fgt_Fin in Hgt.
           destruct (String.eqb_spec k (pg_of r)) as [->|Hne].
           ++ rewrite dict_get_set_eq.
              exists rows, r, []. repeat split; try assumption; [|constructor].
              rewrite Hrows. apply Forall_app. split; [|constructor].
              ** eapply Forall_impl; [exact Hl1|]. cbn. intros x Hx H1 H2.
                 specialize (Hx H1 H2). lra.
              ** intros _ _. assumption.
              ** eapply Forall_impl; [exact Hl2|]. cbn. intros x Hx H1 H2.
                 specialize (Hx H1 H2). lra.
           ++ rewrite dict_get_set_ne by assumption.
              specialize (IH k). destruct (dict_get k seen) as [e|].
              ** destruct IH as (m1 & r1 & m2 & Hrows1 & Hp1 & Hk1 & He1 & Hm1 & Hm2).
                 exists m1, r1, (m2 ++ [r])%list. repeat split; try assumption.
                 --- rewrite Hrows1, <- app_assoc. reflexivity.
                 --- apply Forall_app. split; [assumption|].
                     constructor; [|constructor]. intros _ Heq. congruence.
              ** apply Forall_app. split; [assumption|].
                 constructor; [|constructor]. intros [_ Heq]. congruence.
        -- (* the entry stays *)
           assert (Hle : pg_number r <= pg_number r0).
           { apply Qnot_lt_le. intros Hlt. apply fgt_Fin in Hlt. congruence. }
           destruct (String.eqb_spec k (pg_of r)) as [->|Hne].
           ++ rewrite Hcur.
              exists l1, r0, (l2 ++ [r])%list. repeat split; try assumption.
              ** rewrite Hrows, <- app_assoc. reflexivity.
              ** apply Forall_app. split; [assumption|].
                 constructor; [|constructor]. intros _ _. assumption.
           ++ specialize (IH k). destruct (dict_get k seen) as [e|].
              ** destruct IH as (m1 & r1 & m2 & Hrows1 & Hp1 & Hk1 & He1 & Hm1 & Hm2).
                 exists m1, r1, (m2 ++ [r])%list. repeat split; try assumption.
                 --- rewrite Hrows1, <- app_assoc. reflexivity.
                 --- apply Forall_app. split; [assumption|].
                     constructor; [|constructor]. intros _ Heq. congruence.
              ** apply Forall_app. split; [assumption|].
                 constructor; [|constructor]. intros [_ Heq]. congruence.
      * (* the first row of its group *)
        destruct (String.eqb_spec k (pg_of r)) as [->|Hne].
        -- rewrite dict_get_set_eq.
           exists rows, r, []. repeat split; try assumption; [|constructor].
           eapply Forall_impl; [exact IHr|]. cbn. intros x Hx H1 H2.
           exfalso. apply Hx. split; assumption.
        -- rewrite dict_get_set_ne by assumption.
           specialize (IH k). destruct (dict_get k seen) as [e|].
           ++ destruct IH as (m1 & r1 & m2 & Hrows1 & Hp1 & Hk1 & He1 & Hm1 & Hm2).
              exists m1, r1, (m2 ++ [r])%list. repeat split; try assumption.
              ** rewrite Hrows1, <- app_assoc. reflexivity.
              ** apply Forall_app. split; [assumption|].
                 constructor; [|constructor]. intros _ Heq. congruence.
           ++ apply Forall_app. split; [assumption|].
              constructor; [|constructor]. intros [_ Heq]. congruence.
    + (* the row is skipped *)
      specialize (IH k). destruct (dict_get k seen) as [e|].
      * destruct IH as (m1 & r1 & m2 & Hrows1 & Hp1 & Hk1 & He1 & Hm1 & Hm2).
        exists m1, r1, (m2 ++ [r])%list. repeat split; try assumption.
        -- rewrite Hrows1, <- app_assoc. reflexivity.
        -- apply Forall_app. split; [assumption|].
           constructor; [|constructor]. intros Hp'. congruence.
      * apply Forall_app. split; [assumption|].
        constructor; [|constructor]. intros [Hp' _]. congruence.
Qed.

Lemma pg_fold_NoDup (rows : list Row) :
  NoDup (map fst (fold_left (pg_step lower norm_q) rows [])).
Proof.
  induction rows as [|r rows IH] using rev_ind; [constructor|].
  rewrite fold_left_app. cbn [fold_left]. rewrite pg_step_unfold.
  destruct (pg_passes lower norm_q r); [|assumption].
  destruct (match dict_get (pg_of r) _ with None => true | Some _ => _ end);
    [|assumption].
  apply dict_set_NoDup. assumption.
Qed.

Lemma kept_productGroup (rows : list Row) (k : string) (e : pg_entry) :
  kept lower norm_q rows k e -> productGroup e = k.
Proof. intros (l1 & r & l2 & _ & _ & Hk & -> & _). exact Hk. Qed.

End PgAggregation.

Section PgTheorem.
Import Service.

(** X16: on rows whose commissions are numbers or missing (no NaN), the
    aggregation is as specified: one entry per product group that passes
    the filter, made from the first row with the highest commission of
    the group (a missing commission counting as 0), in the order of the
    lower-cased names. *)
Lemma list_pg_commissions_first_max (lower : string -> string) (s : state)
    (site_key q : string) :
  Forall numeric_row (data_of s site_key) ->
  let rows := data_of s site_key in
  let norm_q := if String.eqb q "" then "" else _normalize_turkish (lower q) in
  let res := list_pg_commissions lower s site_key q in
  StronglySorted
    (fun a b => String.leb (lower (productGroup a)) (lower (productGroup b)) = true) res /\
  NoDup (map productGroup res) /\
  (forall e : pg_entry, e ∈ res -> kept lower norm_q rows (productGroup e) e) /\
  (forall r : Row, r ∈ rows -> pg_passes lower norm_q r = true ->
     exists e : pg_entry, e ∈ res /\ productGroup e = pg_of r).
Proof.
  intros Hnum rows norm_q res. unfold res, list_pg_commissions. fold rows norm_q.
  set (seen := fold_left (pg_step lower norm_q) rows []).
  set (le := fun a b : pg_entry =>
               String.leb (lower (productGroup a)) (lower (productGroup b))).
  pose proof (pg_fold_invariant lower norm_q rows Hnum) as Hinv. fold seen in Hinv.
  pose proof (pg_fold_NoDup lower norm_q rows) as Hnd. fold seen in Hnd.
  pose proof (sort_by_perm le (map snd seen)) as Hperm.
  assert (Hmem : forall e, e ∈ sort_by le (map snd seen) ->
                           exists k, dict_get k seen = Some e).
  { intros e He. rewrite Hperm in He.
    apply list_elem_of_In, in_map_iff in He as ([k e'] & <- & Hin).
    exists k. apply dict_get_elem; [assumption|apply list_elem_of_In; assumption]. }
  assert (Hkept : forall k e, dict_get k seen = Some e -> kept lower norm_q rows k e).
  { intros k e Hg. specialize (Hinv k). rewrite Hg in Hinv. exact Hinv. }
  split; [|split; [|split]].
  - apply sort_by_sorted.
    + intros a b. apply String.leb_total.
    + intros a b c. apply string_leb_trans.
  - rewrite Hperm.
    assert (Hkeys : map productGroup (map snd seen) = map fst seen).
    { rewrite map_map. apply map_ext_in. intros [k e] Hin. cbn [fst snd].
      apply (kept_productGroup lower norm_q rows). apply Hkept.
      apply dict_get_elem; [assumption|apply list_elem_of_In; assumption]. }
    rewrite Hkeys. exact Hnd.
  - intros e He. destruct (Hmem e He) as (k & Hg).
    pose proof (Hkept k e Hg) as Hk.
    rewrite (kept_productGroup lower norm_q rows k e Hk). exact Hk.
  - intros r Hr Hp.
    specialize (Hinv (pg_of r)).
    destruct (dict_get (pg_of r) seen) as [e|] eqn:Hg.
    + exists e. split.
      * rewrite Hperm. apply list_elem_of_In, in_map_iff.
        exists (pg_of r, e). split; [reflexivity|].
        apply list_elem_of_In, dict_elem_get. assumption.
      * apply (kept_productGroup lower norm_q rows). assumption.
    + rewrite Forall_forall in Hinv. exfalso. apply (Hinv r Hr). split; [assumption|reflexivity].
Qed.

(** C5: a file with the four canonical columns, two rows of the
    product group "Elbise", the first with an empty commission cell and
    the second with 15.  The loader turns the empty cell into NaN, and
    the aggregation keeps the entry of the first row instead of the one
    with the highest commission, 15. *)
Theorem list_pg_commissions_keeps_nan :
  data_of (init "/srv/data" "/srv" SampleRows.fs_canonical) "trendyol"
    = [ mkRow "Moda" "Giyim" "Elbise" (PFloat NaN);
        mkRow "Moda" "Abiye" "Elbise" (PFloat (Fin 15)) ] /\
  list_pg_commissions ascii_lower (init "/srv/data" "/srv" SampleRows.fs_canonical)
    "trendyol" ""
    = [mkEntry "Elbise" (Some NaN) "nan%"] /\
  list_pg_commissions ascii_lower SampleRows.nan_then_15 "trendyol" ""
    = [mkEntry "Elbise" (Some NaN) "nan%"].
Proof. repeat split; vm_compute; reflexivity. Qed.

End PgTheorem.

(** ** Resolution of the columns *)

Section Columns.
Import Service.

Lemma elem_of_drop_duplicates_go (seen l : list Row) (r : Row) :
  r ∈ drop_duplicates_go seen l -> r ∈ l.
Proof.
  revert seen. induction l as [|x l IH]; intros seen H; cbn [drop_duplicates_go] in H.
  - exact H.
  - destruct (existsb (row_eqb x) seen).
    + right. eapply IH. eassumption.
    + apply elem_of_cons in H as [->|H]; [left|right; eapply IH; eassumption].
Qed.

Lemma flat4_rows_two_level (df : DataFrame) (cat_col sub_col grp com : string) (r : Row) :
  String.eqb cat_col "" = false -> String.eqb sub_col "" = false ->
  String.eqb cat_col sub_col = false ->
  r ∈ flat4_rows df cat_col sub_col grp com ->
  exists raw : list cell,
    raw ∈ records df /\
    Kategori r = text_of df cat_col raw /\
    Alt_Kategori r = text_of df sub_col raw /\
    Urun_Grubu r = text_of df grp raw.
Proof.
  intros Hc Hs Hcs Hin. unfold flat4_rows in Hin. rewrite Hc, Hs, Hcs in Hin.
  cbn [negb andb] in Hin.
  apply list_elem_of_In, in_map_iff in Hin as ([raw v] & <- & Hin).
  apply in_combine_l in Hin. exists raw.
  split; [apply list_elem_of_In; assumption|]. repeat split.
Qed.

Lemma resolve_columns_by_names (df df' : DataFrame) (c : candidates) :
  columns df' = columns df -> resolve_columns df' c = resolve_columns df c.
Proof.
  intros Hcols.
  assert (Hhas : has_column df' = has_column df).
  { unfold has_column. rewrite Hcols. reflexivity. }
  unfold resolve_columns, _pick_first_present. rewrite Hhas. reflexivity.
Qed.

Lemma row_eqb_refl (r : Row) : row_eqb r r = true.
Proof.
  unfold row_eqb. rewrite !String.eqb_refl. cbn [andb].
  destruct (Komisyon r) as [|[q|]|s]; cbn.
  - reflexivity.
  - apply Qeq_bool_iff. reflexivity.
  - reflexivity.
  - apply String.eqb_refl.
Qed.

Lemma row_eqb_texts (a b : Row) :
  row_eqb a b = true ->
  Kategori a = Kategori b /\ Alt_Kategori a = Alt_Kategori b /\ Urun_Grubu a = Urun_Grubu b.
Proof.
  unfold row_eqb. intros H.
  apply andb_true_iff in H as [H _]. apply andb_true_iff in H as [H H3].
  apply andb_true_iff in H as [H1 H2].
  apply String.eqb_eq in H1, H2, H3. repeat split; assumption.
Qed.

(** Every row survives [drop_duplicates] in the person of an equal one. *)
Lemma drop_duplicates_go_keeps (seen l : list Row) (r : Row) :
  r ∈ l ->
  existsb (row_eqb r) seen = true \/
  exists r' : Row, r' ∈ drop_duplicates_go seen l /\ row_eqb r r' = true.
Proof.
  revert seen. induction l as [|x l IH]; intros seen Hin.
  - apply elem_of_nil in Hin. contradiction.
  - cbn [drop_duplicates_go].
    apply elem_of_cons in Hin as [->|Hin].
    + destruct (existsb (row_eqb x) seen) eqn:E; [left; reflexivity|].
      right. exists x. split; [left|apply row_eqb_refl].
    + destruct (existsb (row_eqb x) seen) eqn:E; [apply IH; exact Hin|].
      destruct (IH (x :: seen) Hin) as [H|(r' & Hr' & He)].
      * cbn [existsb] in H. apply orb_true_iff in H as [H|H].
        -- right. exists x. split; [left|exact H].
        -- left. exact H.
      * right. exists r'. split; [right; exact Hr'|exact He].
Qed.

Lemma in_combine_left {A B} (l : list A) (l' : list B) (x : A) :
  In x l -> (length l <= length l')%nat -> exists y : B, In (x, y) (combine l l').
Proof.
  revert l'. induction l as [|a l IH]; intros l' Hin Hlen; [destruct Hin|].
  destruct l' as [|b l']; [cbn in Hlen; lia|].
  destruct Hin as [->|Hin].
  - exists b. left. reflexivity.
  - destruct (IH l' Hin) as [y Hy]; [cbn in Hlen; lia|].
    exists y. right. exact Hy.
Qed.

Lemma length_fix_scale (ser : list (option Q)) : length (_fix_scale ser) = length ser.
Proof.
  unfold _fix_scale.
  destruct (negb (Nat.eqb (length (notna ser)) 0) && Qle_bool (quantile95 (notna ser)) 1)%bool;
    [apply length_map|reflexivity].
Qed.

(** In the other direction: every record of the table gives a row. *)
Lemma flat4_rows_two_level_all (df : DataFrame) (cat_col sub_col grp com : string)
    (raw : list cell) :
  String.eqb cat_col "" = false -> String.eqb sub_col "" = false ->
  String.eqb cat_col sub_col = false ->
  raw ∈ records df ->
  exists r : Row,
    r ∈ flat4_rows df cat_col sub_col grp com /\
    Kategori r = text_of df cat_col raw /\
    Alt_Kategori r = text_of df sub_col raw /\
    Urun_Grubu r = text_of df grp raw.
Proof.
  intros Hc Hs Hcs Hin. unfold flat4_rows. rewrite Hc, Hs, Hcs. cbn [negb andb].
  set (vals := if String.eqb com "" then _ else _).
  assert (Hlen : (length (records df) <= length vals)%nat).
  { unfold vals. destruct (String.eqb com "").
    - rewrite length_map. lia.
    - rewrite length_fix_scale, length_map. lia. }
  apply list_elem_of_In in Hin.
  destruct (in_combine_left (records df) vals raw Hin Hlen) as [v Hv].
  eexists. split.
  - apply list_elem_of_In, in_map_iff. exists (raw, v). split; [reflexivity|exact Hv].
  - repeat split.
Qed.

(** The keys of an item after the loop of [normalize_api_item]: a new
    key holds the value of the entries renamed to it, when they agree. *)
Lemma rename_fold_get {V} (f : string -> string) (K : string) (a : V)
    (it acc : list (string * V)) :
  Forall (fun kv => f (fst kv) = K -> snd kv = a) it ->
  Exists (fun kv => f (fst kv) = K) it ->
  dict_get K (fold_left (fun out kv => dict_set (f (fst kv)) (snd kv) out) it acc) = Some a.
Proof.
  revert acc. induction it as [|x it IH] using rev_ind; intros acc Hall Hex.
  - inversion Hex.
  - rewrite fold_left_app. cbn [fold_left].
    apply Forall_app in Hall as [Hall Hx].
    apply Forall_cons in Hx as [Hx _].
    destruct (String.eqb_spec (f (fst x)) K) as [E|E].
    + rewrite E, dict_get_set_eq. rewrite (Hx E). reflexivity.
    + rewrite dict_get_set_ne by congruence.
      apply IH; [exact Hall|].
      apply Exists_app in Hex as [Hex|Hex]; [exact Hex|].
      apply Exists_cons in Hex as [Hex|Hex]; [contradiction|inversion Hex].
Qed.

Lemma rename_keys_get (it : item) (old new : string) (a : pyval) :
  NoDup (map fst it) ->
  dict_get old it = Some a ->
  api_key (bool_decide (is_Some (dict_get "Ana Kategori" it)))
          (bool_decide (is_Some (dict_get "Alt Kategori" it))) old = new ->
  Forall (fun kv => api_key (bool_decide (is_Some (dict_get "Ana Kategori" it)))
                      (bool_decide (is_Some (dict_get "Alt Kategori" it))) (fst kv) = new ->
                    fst kv = old) it ->
  item_get new (rename_keys it) = a.
Proof.
  intros Hnd Hget Hold Hall. unfold item_get, rename_keys.
  rewrite (rename_fold_get _ new a); [reflexivity| |].
  - apply Forall_forall. intros [k v] Hin Hk. cbn [fst snd] in *.
    rewrite Forall_forall in Hall. specialize (Hall (k, v) Hin Hk). cbn [fst] in Hall.
    subst k. apply (dict_get_elem _ _ _ Hnd) in Hin. congruence.
  - apply Exists_exists. exists (old, a). split; [|exact Hold].
    apply dict_elem_get. exact Hget.
Qed.

(** What [normalize_api_item] writes after its loop goes under other
    keys than "category" and "subCategory". *)
Lemma normalize_api_item_keeps (it out : item) (K : string) :
  K = "category" \/ K = "subCategory" ->
  normalize_api_item it = Some out ->
  item_get K out = item_get K (rename_keys it).
Proof.
  intros HK H. unfold normalize_api_item in H.
  set (o0 := rename_keys it) in *.
  set (o1 := if none_or_blank (item_get "commissionPercent" o0) then _ else o0) in H.
  assert (H1 : item_get K o1 = item_get K o0).
  { unfold o1. destruct (none_or_blank _); [|reflexivity].
    destruct (_extract_num _); [|reflexivity].
    unfold item_get. rewrite dict_get_set_ne; [reflexivity|].
    destruct HK as [-> | ->]; discriminate. }
  clearbody o1.
  set (o2 := if (negb (truthy (item_get "commissionText" o1))
                 && negb (is_none (item_get "commissionPercent" o1)))%bool
             then _ else o1) in H.
  assert (H2 : item_get K o2 = item_get K o1).
  { unfold o2. destruct (_ && _)%bool; [|reflexivity].
    destruct (float_of_pyval _); [|reflexivity].
    unfold item_get. rewrite dict_get_set_ne; [reflexivity|].
    destruct HK as [-> | ->]; discriminate. }
  clearbody o2.
  set (o3 := if (negb (truthy (item_get "displayCommissionText" o2))
                 && truthy (item_get "commissionText" o2))%bool
             then _ else o2) in H.
  assert (H3 : item_get K o3 = item_get K o2).
  { unfold o3. destruct (_ && _)%bool; [|reflexivity].
    unfold item_get. rewrite dict_get_set_ne; [reflexivity|].
    destruct HK as [-> | ->]; discriminate. }
  clearbody o3.
  destruct (text_or_blank (item_get "category" o3)) as [cat|]; [|discriminate H].
  destruct (text_or_blank (item_get "subCategory" o3)) as [sub|]; [|discriminate H].
  destruct (text_or_blank (item_get "productGroup" o3)) as [pg|]; [|discriminate H].
  injection H as <-.
  rewrite <- H1, <- H2, <- H3.
  destruct (negb _).
  - unfold item_get. rewrite dict_get_set_ne; [reflexivity|].
    destruct HK as [-> | ->]; discriminate.
  - destruct (_ && _)%bool; [|reflexivity].
    unfold item_get. rewrite dict_get_set_ne; [reflexivity|].
    destruct HK as [-> | ->]; discriminate.
Qed.

(** C6 (as amended): under the candidate lists of Trendyol and of
    Hepsiburada, a table with the columns "Ana Kategori" and "Kategori"
    and no "Alt Kategori" (and whose product-group column resolves) is
    normalised with "Ana Kategori" as category and "Kategori" as
    sub-category: every row of the result is made from a record of the
    table that way, and every record with a text that is not empty has
    its row in the result.  The binding is computed from the column
    names alone.  And [normalize_api_item] renames the keys of an item
    with "Ana Kategori" and "Kategori" and without "Alt Kategori" the
    same way: when no other key of the item is renamed to "category" or
    "subCategory", the result holds the value of "Ana Kategori" under
    "category" and the value of "Kategori" under "subCategory". *)
Theorem main_category_rule (df : DataFrame) (mp_key : string) (mp : marketplace)
    (grp : string) :
  mp_key = "trendyol" \/ mp_key = "hepsiburada" ->
  dict_get mp_key marketplaces = Some mp ->
  has_column df "Ana Kategori" = true ->
  has_column df "Kategori" = true ->
  has_column df "Alt Kategori" = false ->
  _pick_first_present df (product_group (columns_candidates mp)) = Some grp ->
  resolve_columns df (columns_candidates mp)
    = ok ("Ana Kategori", "Kategori", grp,
          default "" (_pick_first_present df (commission (columns_candidates mp)))) /\
  (exists rows : list Row,
      _normalize_to_flat4 df (columns_candidates mp) = ok rows /\
      (forall r : Row, r ∈ rows ->
         exists raw : list cell,
           raw ∈ records df /\
           Kategori r = text_of df "Ana Kategori" raw /\
           Alt_Kategori r = text_of df "Kategori" raw /\
           Urun_Grubu r = text_of df grp raw) /\
      (forall raw : list cell, raw ∈ records df ->
         text_of df "Ana Kategori" raw <> "" \/ text_of df "Kategori" raw <> "" \/
         text_of df grp raw <> "" ->
         exists r : Row,
           r ∈ rows /\
           Kategori r = text_of df "Ana Kategori" raw /\
           Alt_Kategori r = text_of df "Kategori" raw /\
           Urun_Grubu r = text_of df grp raw)) /\
  (forall df' : DataFrame,
      columns df' = columns df ->
      resolve_columns df' (columns_candidates mp) = resolve_columns df (columns_candidates mp)) /\
  api_key true false "Ana Kategori" = "category" /\
  api_key true false "Kategori" = "subCategory" /\
  (forall (it out : item) (a k : pyval),
      NoDup (map fst it) ->
      dict_get "Ana Kategori" it = Some a ->
      dict_get "Kategori" it = Some k ->
      dict_get "Alt Kategori" it = None ->
      Forall (fun kv => api_key true false (fst kv) = "category" ->
                        fst kv = "Ana Kategori") it ->
      Forall (fun kv => api_key true false (fst kv) = "subCategory" ->
                        fst kv = "Kategori") it ->
      normalize_api_item it = Some out ->
      item_get "category" out = a /\ item_get "subCategory" out = k).
Proof.
  intros Hkey Hget HA HK HAlt Hgrp.
  assert (Hcat : category (columns_candidates mp) = ["Ana Kategori"; "Kategori"] /\
                 sub_category (columns_candidates mp) = ["Kategori"; "Alt Kategori"] /\
                 product_group (columns_candidates mp)
                 = ["Ürün Grubu"; "Urun Grubu"; "Urun_Grubu"]).
  { destruct Hkey as [-> | ->]; vm_compute in Hget; injection Hget as <-;
      repeat split. }
  destruct Hcat as (Hc & Hs & Hg).
  assert (Hgne : String.eqb grp "" = false).
  { unfold _pick_first_present in Hgrp. rewrite Hg in Hgrp.
    apply find_some in Hgrp as [Hin _].
    destruct Hin as [<-|[<-|[<-|[]]]]; reflexivity. }
  assert (Hres : resolve_columns df (columns_candidates mp)
                 = ok ("Ana Kategori", "Kategori", grp,
                       default "" (_pick_first_present df (commission (columns_candidates mp))))).
  { assert (Hc' : _pick_first_present df (category (columns_candidates mp))
                  = Some "Ana Kategori").
    { unfold _pick_first_present. rewrite Hc. cbn [find]. rewrite HA. reflexivity. }
    assert (Hs' : _pick_first_present df (sub_category (columns_candidates mp))
                  = Some "Kategori").
    { unfold _pick_first_present. rewrite Hs. cbn [find]. rewrite HK. reflexivity. }
    unfold resolve_columns. rewrite Hc', Hs', Hgrp.
    cbn [default from_option id]. rewrite Hgne. reflexivity. }
  split; [exact Hres|]. split; [|split; [|split; [|split]]].
  - unfold _normalize_to_flat4. rewrite Hres, rbind_ok.
    eexists. split; [reflexivity|]. split.
    + intros r Hr.
      apply elem_of_drop_duplicates_go in Hr.
      apply list_elem_of_filter in Hr as [_ Hr].
      eapply (flat4_rows_two_level df "Ana Kategori" "Kategori" grp); try reflexivity.
      exact Hr.
    + intros raw Hraw Hne.
      destruct (flat4_rows_two_level_all df "Ana Kategori" "Kategori" grp
                  (default "" (_pick_first_present df (commission (columns_candidates mp))))
                  raw eq_refl eq_refl eq_refl Hraw) as (r & Hr & H1 & H2 & H3).
      assert (Hfil : r ∈ filter row_nonempty
                       (flat4_rows df "Ana Kategori" "Kategori" grp
                          (default "" (_pick_first_present df
                                         (commission (columns_candidates mp)))))).
      { apply list_elem_of_filter. split; [|exact Hr].
        apply Is_true_true. unfold row_nonempty. rewrite H1, H2, H3.
        destruct (String.eqb_spec (text_of df "Ana Kategori" raw) "") as [E1|E1];
          [|reflexivity].
        destruct (String.eqb_spec (text_of df "Kategori" raw) "") as [E2|E2];
          [|reflexivity].
        destruct (String.eqb_spec (text_of df grp raw) "") as [E3|E3]; [|reflexivity].
        exfalso. destruct Hne as [H|[H|H]]; contradiction. }
      destruct (drop_duplicates_go_keeps [] _ r Hfil) as [H|(r' & Hr' & He)];
        [discriminate H|].
      apply row_eqb_texts in He as (E1 & E2 & E3).
      exists r'. split; [exact Hr'|]. repeat split; congruence.
  - intros df' Hcols. apply resolve_columns_by_names. exact Hcols.
  - reflexivity.
  - reflexivity.
  - intros it out a k Hnd Ha Hk Halt Hcatk Hsubk Hout.
    assert (Hana : bool_decide (is_Some (dict_get "Ana Kategori" it)) = true).
    { rewrite Ha. reflexivity. }
    assert (Halt' : bool_decide (is_Some (dict_get "Alt Kategori" it)) = false).
    { rewrite Halt. reflexivity. }
    split.
    + rewrite (normalize_api_item_keeps it out "category") by (left; reflexivity) || exact Hout.
      apply (rename_keys_get it "Ana Kategori"); try assumption.
      * rewrite Hana, Halt'. reflexivity.
      * rewrite Hana, Halt'. exact Hcatk.
    + rewrite (normalize_api_item_keeps it out "subCategory") by (right; reflexivity) || exact Hout.
      apply (rename_keys_get it "Kategori"); try assumption.
      * rewrite Hana, Halt'. reflexivity.
      * rewrite Hana, Halt'. exact Hsubk.
Qed.

Lemma main_category_rule_witness :
  (exists rows : list Row,
    _normalize_to_flat4 SampleTables.two_level
      (columns_candidates
         (mkMarketplace "Hepsiburada" "hepsiburada_commissions.csv"
            (SampleTables.candidates_of "hepsiburada"))) = ok rows /\
    (forall r : Row, r ∈ rows ->
      exists raw : list cell,
        raw ∈ records SampleTables.two_level /\
        Kategori r = text_of SampleTables.two_level "Ana Kategori" raw /\
        Alt_Kategori r = text_of SampleTables.two_level "Kategori" raw /\
        Urun_Grubu r = text_of SampleTables.two_level "Ürün Grubu" raw) /\
    (forall raw : list cell, raw ∈ records SampleTables.two_level ->
       text_of SampleTables.two_level "Ana Kategori" raw <> "" \/
       text_of SampleTables.two_level "Kategori" raw <> "" \/
       text_of SampleTables.two_level "Ürün Grubu" raw <> "" ->
       exists r : Row,
         r ∈ rows /\
         Kategori r = text_of SampleTables.two_level "Ana Kategori" raw /\
         Alt_Kategori r = text_of SampleTables.two_level "Kategori" raw /\
         Urun_Grubu r = text_of SampleTables.two_level "Ürün Grubu" raw)) /\
  (forall out : item,
      normalize_api_item
        [ ("Ana Kategori", PStr "Telefon"); ("Kategori", PStr "Aksesuar");
          ("Ürün Grubu", PStr "Kılıf"); ("Uygulanan_Komisyon_%_KDV_Dahil", PFloat (Fin 12)) ]
      = Some out ->
      item_get "category" out = PStr "Telefon" /\
      item_get "subCategory" out = PStr "Aksesuar").
Proof.
  destruct (main_category_rule SampleTables.two_level "hepsiburada"
              (mkMarketplace "Hepsiburada" "hepsiburada_commissions.csv"
                 (SampleTables.candidates_of "hepsiburada")) "Ürün Grubu")
    as (_ & Hrows & _ & _ & _ & Hitem).
  - right. reflexivity.
  - reflexivity.
  - reflexivity.
  - reflexivity.
  - reflexivity.
  - reflexivity.
  - split; [exact Hrows|].
    intros out Hout.
    apply (Hitem [ ("Ana Kategori", PStr "Telefon"); ("Kategori", PStr "Aksesuar");
                   ("Ürün Grubu", PStr "Kılıf");
                   ("Uygulanan_Komisyon_%_KDV_Dahil", PFloat (Fin 12)) ]
             out (PStr "Telefon") (PStr "Aksesuar")); try reflexivity; try exact Hout.
    + apply (bool_decide_unpack _). vm_compute. exact I.
    + repeat (apply Forall_cons; split; [vm_compute; intros H; first [reflexivity|discriminate H]|]).
      apply Forall_nil. exact I.
    + repeat (apply Forall_cons; split; [vm_compute; intros H; first [reflexivity|discriminate H]|]).
      apply Forall_nil. exact I.
Defined.

(** C6, as stated, fails: under the candidate lists of N11 the same
    table is normalised with "Kategori" as category and an empty
    sub-category; the main category is not read. *)
Lemma n11_binds_category_column :
  has_column SampleTables.two_level "Ana Kategori" = true /\
  has_column SampleTables.two_level "Kategori" = true /\
  has_column SampleTables.two_level "Alt Kategori" = false /\
  _normalize_to_flat4 SampleTables.two_level (SampleTables.candidates_of "n11")
  = ok [ mkRow "Telefon" "" "Kılıf" (PFloat (Fin (125 # 10)));
         mkRow "Telefon" "" "Şarj Aleti" (PStr "") ].
Proof. vm_compute. repeat split. Qed.

End Columns.

(** ** Bounds on the context rounding *)

Section RoundPrecBounds.

Lemma round_int_ge_inject (r : rounding) (x : Q) (n : Z) :
  inject_Z n <= x -> (n <= round_int r x)%Z.
Proof.
  intros Hx. destruct (round_int_bounds r x) as [B1 B2].
  assert (H : inject_Z n < inject_Z (round_int r x + 1)).
  { rewrite inject_Z_succ. lra. }
  rewrite <- Zlt_Qlt in H. lia.
Qed.

Lemma pow10_le_inv (a b : Z) : 10 ^ a <= 10 ^ b -> (a <= b)%Z.
Proof.
  intros H. destruct (Z_le_gt_dec a b) as [|Hgt]; [assumption|]. exfalso.
  assert (Hlt : (b < a)%Z) by lia.
  assert (Hs : 10 ^ b < 10 ^ a).
  { apply Qpower_lt_compat_l; [assumption|reflexivity]. }
  apply (Qlt_not_le _ _ Hs). assumption.
Qed.

Lemma pow10_27 (a : Z) :
  10 ^ a * 10 ^ (PyDecimal.prec - 1 - a) == inject_Z (10 ^ 27).
Proof.
  rewrite <- pow10_plus.
  replace (a + (PyDecimal.prec - 1 - a))%Z with 27%Z by (unfold PyDecimal.prec; lia).
  reflexivity.
Qed.

Lemma pow10_28 (a : Z) :
  10 ^ (a + 1) * 10 ^ (PyDecimal.prec - 1 - a) == inject_Z (10 ^ 28).
Proof.
  rewrite <- pow10_plus.
  replace (a + 1 + (PyDecimal.prec - 1 - a))%Z with 28%Z by (unfold PyDecimal.prec; lia).
  reflexivity.
Qed.

(** The rounding of a positive number: its scaled integer has 28
    digits. *)
Lemma round_prec_pos (x : Q) :
  0 < x ->
  exists a n : Z,
    a = PyDecimal.adjusted x /\
    n = round_int ROUND_HALF_EVEN (x * 10 ^ (PyDecimal.prec - 1 - a)) /\
    PyDecimal.round_prec x = inject_Z n / 10 ^ (PyDecimal.prec - 1 - a) /\
    10 ^ a <= x /\ x < 10 ^ (a + 1) /\
    (10 ^ 27 <= n <= 10 ^ 28)%Z.
Proof.
  intros Hx.
  assert (Hne : ~ x == 0) by (intros H; rewrite H in Hx; discriminate Hx).
  pose proof (adjusted_lower x Hne) as Hlo.
  pose proof (adjusted_upper x Hne) as Hhi.
  rewrite Qabs_pos in Hlo, Hhi by (apply Qlt_le_weak; assumption).
  exists (PyDecimal.adjusted x), 
    (round_int ROUND_HALF_EVEN (x * 10 ^ (PyDecimal.prec - 1 - PyDecimal.adjusted x))).
  set (a := PyDecimal.adjusted x) in *.
  set (k := (PyDecimal.prec - 1 - a)%Z).
  pose proof (pow10_pos k) as Hk.
  split; [reflexivity|]. split; [reflexivity|]. split.
  { unfold PyDecimal.round_prec.
    destruct (Qeq_bool x 0) eqn:E; [|reflexivity].
    apply Qeq_bool_iff in E. contradiction. }
  split; [assumption|]. split; [assumption|]. split.
  - apply round_int_ge_inject. rewrite <- (pow10_27 a). fold k.
    apply Qmult_le_compat_r; [assumption|apply Qlt_le_weak; assumption].
  - apply round_int_le_inject. rewrite <- (pow10_28 a). fold k.
    apply Qmult_le_compat_r; apply Qlt_le_weak; assumption.
Qed.

Lemma round_prec_neg (x : Q) :
  x < 0 ->
  exists a n : Z,
    a = PyDecimal.adjusted x /\
    n = round_int ROUND_HALF_EVEN (x * 10 ^ (PyDecimal.prec - 1 - a)) /\
    PyDecimal.round_prec x = inject_Z n / 10 ^ (PyDecimal.prec - 1 - a) /\
    10 ^ a <= - x /\ - x < 10 ^ (a + 1) /\
    (- 10 ^ 28 <= n <= - 10 ^ 27)%Z.
Proof.
  intros Hx.
  assert (Hne : ~ x == 0) by (intros H; rewrite H in Hx; discriminate Hx).
  pose proof (adjusted_lower x Hne) as Hlo.
  pose proof (adjusted_upper x Hne) as Hhi.
  rewrite Qabs_neg in Hlo, Hhi by (apply Qlt_le_weak; assumption).
  exists (PyDecimal.adjusted x), 
    (round_int ROUND_HALF_EVEN (x * 10 ^ (PyDecimal.prec - 1 - PyDecimal.adjusted x))).
  set (a := PyDecimal.adjusted x) in *.
  set (k := (PyDecimal.prec - 1 - a)%Z).
  pose proof (pow10_pos k) as Hk.
  split; [reflexivity|]. split; [reflexivity|]. split.
  { unfold PyDecimal.round_prec.
    destruct (Qeq_bool x 0) eqn:E; [|reflexivity].
    apply Qeq_bool_iff in E. contradiction. }
  split; [assumption|]. split; [assumption|].
  assert (H27 : 10 ^ a * 10 ^ k <= - x * 10 ^ k).
  { apply Qmult_le_compat_r; [assumption|apply Qlt_le_weak; assumption]. }
  assert (H28 : - x * 10 ^ k <= 10 ^ (a + 1) * 10 ^ k).
  { apply Qmult_le_compat_r; apply Qlt_le_weak; assumption. }
  unfold k in H27, H28. rewrite pow10_27 in H27. rewrite pow10_28 in H28. fold k in H27, H28.
  split.
  - apply round_int_ge_inject. rewrite inject_Z_opp. lra.
  - apply round_int_le_inject. rewrite inject_Z_opp. lra.
Qed.

Lemma round_prec_0 (x : Q) : x == 0 -> PyDecimal.round_prec x = 0.
Proof.
  intros H. unfold PyDecimal.round_prec.
  apply Qeq_bool_iff in H. rewrite H. reflexivity.
Qed.

Lemma round_prec_nonneg (x : Q) : 0 <= x -> 0 <= PyDecimal.round_prec x.
Proof.
  intros Hx. destruct (Qlt_le_dec 0 x) as [Hp|Hz].
  - destruct (round_prec_pos x Hp) as (a & n & _ & _ & -> & _ & _ & Hn & _).
    apply Qle_shift_div_l; [apply pow10_pos|].
    rewrite Qmult_0_l. change 0 with (inject_Z 0). rewrite <- Zle_Qle. lia.
  - rewrite round_prec_0 by lra. apply Qle_refl.
Qed.

Lemma round_prec_nonpos (x : Q) : x <= 0 -> PyDecimal.round_prec x <= 0.
Proof.
  intros Hx. destruct (Qlt_le_dec x 0) as [Hp|Hz].
  - destruct (round_prec_neg x Hp) as (a & n & _ & _ & -> & _ & _ & _ & Hn).
    apply Qle_shift_div_r; [apply pow10_pos|].
    rewrite Qmult_0_l. change 0 with (inject_Z 0). rewrite <- Zle_Qle. lia.
  - rewrite round_prec_0 by lra. apply Qle_refl.
Qed.

(** The powers of ten are fixed points of the rounding, so it keeps a
    number on its side of each of them. *)
Lemma round_prec_ge_pow (x : Q) (m : Z) : 10 ^ m <= x -> 10 ^ m <= PyDecimal.round_prec x.
Proof.
  intros Hm. pose proof (pow10_pos m) as Hpm.
  assert (Hp : 0 < x) by lra.
  destruct (round_prec_pos x Hp) as (a & n & _ & _ & -> & Hlo & Hhi & Hn & _).
  assert (Hma : (m <= a)%Z).
  { assert (H : (m < a + 1)%Z) by (apply pow10_lt_inv; lra). lia. }
  apply Qle_trans with (10 ^ a); [apply pow10_le; assumption|].
  apply Qle_shift_div_l; [apply pow10_pos|].
  rewrite pow10_27, <- Zle_Qle. assumption.
Qed.


Lemma round_prec_le_pow (x : Q) (m : Z) : x <= 10 ^ m -> PyDecimal.round_prec x <= 10 ^ m.
Proof.
  intros Hm. pose proof (pow10_pos m) as Hpm.
  destruct (Qlt_le_dec 0 x) as [Hp|Hz].
  - destruct (round_prec_pos x Hp) as (a & n & _ & Hn & -> & Hlo & Hhi & _).
    assert (Ham : (a <= m)%Z) by (apply pow10_le_inv; lra).
    set (k := (PyDecimal.prec - 1 - a)%Z) in *.
    pose proof (pow10_pos k) as Hk.
    assert (Hmk : (0 <= m + k)%Z) by (unfold k, PyDecimal.prec; lia).
    apply Qle_shift_div_r; [assumption|].
    rewrite <- pow10_plus, <- pow10_inject by assumption.
    rewrite <- Zle_Qle, Hn. apply round_int_le_inject.
    rewrite pow10_inject by assumption. rewrite pow10_plus.
    apply Qmult_le_compat_r; [assumption|apply Qlt_le_weak; assumption].
  - pose proof (round_prec_nonpos x Hz). lra.
Qed.

Lemma round_prec_ge_neg_pow (x : Q) (m : Z) :
  - 10 ^ m <= x -> - 10 ^ m <= PyDecimal.round_prec x.
Proof.
  intros Hm. pose proof (pow10_pos m) as Hpm.
  destruct (Qlt_le_dec x 0) as [Hp|Hz].
  - destruct (round_prec_neg x Hp) as (a & n & _ & Hn & -> & Hlo & Hhi & _).
    assert (Ham : (a <= m)%Z) by (apply pow10_le_inv; lra).
    set (k := (PyDecimal.prec - 1 - a)%Z) in *.
    pose proof (pow10_pos k) as Hk.
    assert (Hmk : (0 <= m + k)%Z) by (unfold k, PyDecimal.prec; lia).
    apply Qle_shift_div_l; [assumption|].
    setoid_replace (- 10 ^ m * 10 ^ k) with (- (10 ^ m * 10 ^ k)) using relation Qeq by ring.
    rewrite <- pow10_plus, <- pow10_inject by assumption.
    rewrite <- inject_Z_opp, <- Zle_Qle, Hn. apply round_int_ge_inject.
    rewrite inject_Z_opp, pow10_inject by assumption. rewrite pow10_plus.
    setoid_replace (- (10 ^ m * 10 ^ k)) with (- 10 ^ m * 10 ^ k) using relation Qeq by ring.
    apply Qmult_le_compat_r; [assumption|apply Qlt_le_weak; assumption].
  - pose proof (round_prec_nonneg x Hz). lra.
Qed.

Lemma round_prec_abs_le (x : Q) (m : Z) :
  Qabs x <= 10 ^ m -> Qabs (PyDecimal.round_prec x) <= 10 ^ m.
Proof.
  intros H. apply Qabs_Qle_condition in H as [H1 H2].
  apply Qabs_Qle_condition. split.
  - apply round_prec_ge_neg_pow. assumption.
  - apply round_prec_le_pow. assumption.
Qed.

End RoundPrecBounds.

(** ** The VAT calculator: what every result satisfies *)

Section KdvResults.

Lemma rbind_inv {A B} (m : result A) (k : A -> result B) (b : B) :
  rbind m k = ok b -> exists a : A, m = ok a /\ k a = ok b.
Proof.
  destruct m as [e|a]; cbn [rbind]; intros H; [discriminate H|].
  exists a. split; [reflexivity|assumption].
Qed.











End KdvResults.

Ltac bind_inv H :=
  let a := fresh "v" in
  let Hm := fresh "Hm" in
  apply rbind_inv in H as (a & Hm & H).

Section KdvIdentities.



Lemma parse_withholding_bounds (w : option pynum) (t : Q) :
  Kdv._parse_withholding w = ok t -> 0 <= t /\ t <= 1.
Proof.
  assert (Hnum : forall q, Kdv._parse_withholding (Some (Num q)) = ok t -> 0 <= t /\ t <= 1).
  { intros q H. destruct (parse_withholding_number q) as (t' & Ht' & H0 & H1 & _).
    rewrite Ht' in H. injection H as <-. split; assumption. }
  destruct w as [[q|s]|].
  - apply Hnum.
  - unfold Kdv._parse_withholding.
    destruct (PyStr.str_in "/" _).
    + destruct (PyStr.split1 "/" _) as [[a b]|].
      * destruct (String.eqb b "0").
        { intros H. injection H as <-. split; discriminate. }
        intros H. bind_inv H. bind_inv H. bind_inv H. injection H as <-.
        unfold PyDecimal.min, PyDecimal.max.
        set (M := PyDecimal.round_prec (if Qle_bool v1 0 then 0 else v1)).
        assert (HM : 0 <= M).
        { apply round_prec_nonneg. destruct (Qle_bool v1 0) eqn:E; [apply Qle_refl|].
          apply Qlt_le_weak, Qnot_le_lt. intros Hle. apply Qle_bool_iff in Hle. congruence. }
        split.
        -- apply round_prec_nonneg. destruct (Qle_bool M 1); [assumption|discriminate].
        -- apply (round_prec_le_pow _ 0).
           destruct (Qle_bool M 1) eqn:E; [apply Qle_bool_iff in E; exact E|apply Qle_refl].
      * intros H. injection H as <-. split; discriminate.
    + intros H. bind_inv H. apply (Hnum v). exact H.
  - intros H. injection H as <-. split; discriminate.
Qed.

(** X2: whatever the withholding input (a fraction a/b, a percentage
    above 1, a negative number), a withholding rate that is returned
    lies between 0 and 1. *)
Theorem parse_withholding_in_unit_interval (w : option pynum) (t : Q) :
  Kdv._parse_withholding w = ok t -> 0 <= t /\ t <= 1.
Proof. apply parse_withholding_bounds. Qed.

Lemma parse_withholding_in_unit_interval_witness :
  Kdv._parse_withholding (Some (Str " 150 ")) = ok 1 /\ 0 <= 1 /\ 1 <= 1.
Proof.
  split; [reflexivity|].
  apply (parse_withholding_in_unit_interval (Some (Str " 150 ")) 1). reflexivity.
Defined.





End KdvIdentities.

Section KdvAmounts.




End KdvAmounts.

Section KdvTotal.


Lemma q2_bounded (x : Q) (m : Z) (mode : string) :
  (0 <= m <= 25)%Z -> Qabs x <= 10 ^ m ->
  exists y : Q, Kdv._q2 x mode = ok y /\ Qabs y <= 10 ^ m.
Proof.
  intros Hm Hx. apply Qabs_Qle_condition in Hx as [H1 H2].
  set (c := round_int (Kdv.rounding_of mode) (x * 100)).
  assert (Hp : 10 ^ m * 100 == inject_Z (10 ^ (m + 2))).
  { rewrite pow10_inject by lia. rewrite pow10_plus. reflexivity. }
  assert (Hc1 : (c <= 10 ^ (m + 2))%Z).
  { apply round_int_le_inject. rewrite <- Hp.
    apply Qmult_le_compat_r; [assumption|discriminate]. }
  assert (Hc2 : (- 10 ^ (m + 2) <= c)%Z).
  { apply round_int_ge_inject. rewrite inject_Z_opp, <- Hp.
    setoid_replace (- (10 ^ m * 100)) with (- 10 ^ m * 100) using relation Qeq by ring.
    apply Qmult_le_compat_r; [assumption|discriminate]. }
  assert (Hpow : (10 ^ (m + 2) <= 10 ^ 27)%Z) by (apply Z.pow_le_mono_r; lia).
  assert (H2728 : (10 ^ 27 < 10 ^ 28)%Z) by reflexivity.
  exists (c # 100). split.
  - unfold Kdv._q2, PyDecimal.quantize2. fold c.
    destruct (Z.ltb_spec (Z.abs c) (10 ^ PyDecimal.prec)) as [_|Hge]; [reflexivity|].
    change PyDecimal.prec with 28%Z in Hge. lia.
  - apply Qabs_Qle_condition. rewrite Qmake_100. split.
    + apply Qle_shift_div_l; [reflexivity|].
      setoid_replace (- 10 ^ m * 100) with (- (10 ^ m * 100)) using relation Qeq by ring.
      rewrite Hp, <- inject_Z_opp, <- Zle_Qle. lia.
    + apply Qle_shift_div_r; [reflexivity|]. rewrite Hp, <- Zle_Qle. lia.
Qed.

Lemma norm_rate_unit (rate_in : pynum) (rate : Q) :
  Decimal_of_pynum rate_in = ok rate -> 0 <= rate -> rate <= 100 ->
  exists oran : Q, Kdv._norm_rate rate_in = ok oran /\ 0 <= oran /\ oran <= 1.
Proof.
  intros Hd H0 H100. unfold Kdv._norm_rate. rewrite Hd, rbind_ok.
  destruct (Qle_bool 1 rate) eqn:E.
  - unfold PyDecimal.div. change (Qeq_bool 100 0) with false. cbv iota.
    eexists. split; [reflexivity|]. split.
    + apply round_prec_nonneg. apply Qle_shift_div_l; [reflexivity|]. lra.
    + apply (round_prec_le_pow _ 0). apply Qle_shift_div_r; [reflexivity|].
      change (10 ^ 0) with 1. lra.
  - exists rate. split; [reflexivity|]. split; [assumption|].
    apply Qlt_le_weak, Qnot_le_lt. intros Hle. apply Qle_bool_iff in Hle. congruence.
Qed.

Lemma abs_mul_unit (a b B : Q) :
  Qabs a <= B -> 0 <= b -> b <= 1 -> Qabs (a * b) <= B.
Proof.
  intros Ha H0 H1. rewrite Qabs_Qmult, (Qabs_pos b) by assumption.
  pose proof (Qabs_nonneg a) as Hn.
  apply Qle_trans with (Qabs a * 1); [|lra].
  apply Qmult_le_compat_nonneg; split; try assumption; apply Qle_refl.
Qed.

Lemma abs_plus (a b A B C : Q) :
  Qabs a <= A -> Qabs b <= B -> A + B <= C -> Qabs (a + b) <= C.
Proof.
  intros Ha Hb Hc. apply Qabs_Qle_condition in Ha, Hb. apply Qabs_Qle_condition. lra.
Qed.

Lemma abs_minus (a b A B C : Q) :
  Qabs a <= A -> Qabs b <= B -> A + B <= C -> Qabs (a - b) <= C.
Proof.
  intros Ha Hb Hc. apply Qabs_Qle_condition in Ha, Hb. apply Qabs_Qle_condition. lra.
Qed.

Lemma abs_div_ge_one (a d B : Q) :
  Qabs a <= B -> 1 <= d -> Qabs (a / d) <= B.
Proof.
  intros Ha Hd. unfold Qdiv. apply abs_mul_unit; [assumption| |].
  - apply Qinv_le_0_compat. lra.
  - apply Qle_shift_inv_r; lra.
Qed.

(** X5: adding and removing VAT never fail on ordinary inputs: for a
    price of at most 10^20 in absolute value, a rate between 0 and 100
    and a withholding input that parses, both calculations return a
    result. *)
Theorem add_vat_remove_vat_succeed (price rate tw : Q) (rate_in : pynum)
    (w : option pynum) (mode : string) :
  Qabs price <= 10 ^ 20 ->
  Decimal_of_pynum rate_in = ok rate -> 0 <= rate -> rate <= 100 ->
  Kdv._parse_withholding w = ok tw ->
  (exists r : Kdv.KDVResult, Kdv.add_vat price rate_in w mode = ok r) /\
  (exists r : Kdv.KDVResult, Kdv.remove_vat price rate_in w mode = ok r).
Proof.
  intros Hp Hd H0 H100 Hw.
  destruct (norm_rate_unit rate_in rate Hd H0 H100) as (oran & Hn & Ho0 & Ho1).
  destruct (parse_withholding_bounds w tw Hw) as [Ht0 Ht1].
  assert (S21 : 10 ^ 20 + 10 ^ 20 <= 10 ^ 21) by discriminate.
  assert (S21' : 10 ^ 20 + 10 ^ 21 <= 10 ^ 22) by discriminate.
  assert (S22 : 10 ^ 21 + 10 ^ 21 <= 10 ^ 22) by discriminate.
  split.
  - unfold Kdv.add_vat. rewrite Hn, rbind_ok.
    destruct (q2_bounded (PyDecimal.mul price oran) 20 mode) as (kdv & -> & Bk); [lia| |].
    { apply round_prec_abs_le, abs_mul_unit; assumption. }
    rewrite rbind_ok.
    destruct (q2_bounded (PyDecimal.add price kdv) 21 mode) as (brut & -> & Bb); [lia| |].
    { apply round_prec_abs_le. eapply abs_plus; eassumption. }
    rewrite rbind_ok, Hw, rbind_ok.
    destruct (q2_bounded (PyDecimal.mul kdv tw) 20 mode) as (tev & -> & Bt); [lia| |].
    { apply round_prec_abs_le, abs_mul_unit; assumption. }
    rewrite rbind_ok.
    destruct (q2_bounded (PyDecimal.sub kdv tev) 21 mode) as (pay & -> & Bp); [lia| |].
    { apply round_prec_abs_le. eapply abs_minus; eassumption. }
    rewrite rbind_ok.
    destruct (q2_bounded price 20 mode) as (net & -> & _); [lia|assumption|].
    rewrite rbind_ok. eexists. reflexivity.
  - unfold Kdv.remove_vat. rewrite Hn, rbind_ok.
    assert (HD : 1 <= PyDecimal.add 1 oran).
    { apply (round_prec_ge_pow _ 0). change (10 ^ 0) with 1. lra. }
    unfold PyDecimal.div.
    destruct (Qeq_bool (PyDecimal.add 1 oran) 0) eqn:E.
    { apply Qeq_bool_iff in E. rewrite E in HD. lra. }
    rewrite rbind_ok.
    destruct (q2_bounded (PyDecimal.round_prec (price / PyDecimal.add 1 oran)) 20 mode)
      as (net & -> & Bn); [lia| |].
    { apply round_prec_abs_le, abs_div_ge_one; assumption. }
    rewrite rbind_ok.
    destruct (q2_bounded (PyDecimal.sub price net) 21 mode) as (kdv & -> & Bk); [lia| |].
    { apply round_prec_abs_le. eapply abs_minus; eassumption. }
    rewrite rbind_ok.
    destruct (q2_bounded price 20 mode) as (brut & -> & _); [lia|assumption|].
    rewrite rbind_ok, Hw, rbind_ok.
    destruct (q2_bounded (PyDecimal.mul kdv tw) 21 mode) as (tev & -> & Bt); [lia| |].
    { apply round_prec_abs_le, abs_mul_unit; assumption. }
    rewrite rbind_ok.
    destruct (q2_bounded (PyDecimal.sub kdv tev) 22 mode) as (pay & -> & Bp); [lia| |].
    { apply round_prec_abs_le. eapply abs_minus; eassumption. }
    rewrite rbind_ok. eexists. reflexivity.
Qed.

Lemma add_vat_remove_vat_succeed_witness :
  (Qabs (- (1234567 # 1000)) <= 10 ^ 20 /\
   Decimal_of_pynum (Str "18") = ok (inject_Z 18 * 10 ^ (0 - 0)) /\
   0 <= inject_Z 18 * 10 ^ (0 - 0) /\ inject_Z 18 * 10 ^ (0 - 0) <= 100 /\
   Kdv._parse_withholding (Some (Num (1 # 2))) = ok (1 # 2)) /\
  (exists r : Kdv.KDVResult,
     Kdv.add_vat (- (1234567 # 1000)) (Str "18") (Some (Num (1 # 2))) "up" = ok r) /\
  (exists r : Kdv.KDVResult,
     Kdv.remove_vat (- (1234567 # 1000)) (Str "18") (Some (Num (1 # 2))) "up" = ok r).
Proof.
  assert (H1 : Qabs (- (1234567 # 1000)) <= 10 ^ 20) by discriminate.
  assert (H2 : Decimal_of_pynum (Str "18") = ok (inject_Z 18 * 10 ^ (0 - 0)))
    by reflexivity.
  assert (H3 : 0 <= inject_Z 18 * 10 ^ (0 - 0)) by discriminate.
  assert (H4 : inject_Z 18 * 10 ^ (0 - 0) <= 100) by discriminate.
  assert (H5 : Kdv._parse_withholding (Some (Num (1 # 2))) = ok (1 # 2)) by reflexivity.
  split; [repeat split; assumption|].
  exact (add_vat_remove_vat_succeed _ _ _ _ _ "up" H1 H2 H3 H4 H5).
Defined.

End KdvTotal.

(** ** The endpoint of the VAT calculator *)

Section CalcApiShape.
Import CalcApi.

Variable lower : string -> string.

(** X6: every answer of the endpoint has one of three shapes: status
    200 with success, no error and a payload whose direction is "add",
    "remove" or "from_vat"; status 400 with a fixed message and no
    data; status 500 with the text of an exception and no data. *)
Theorem api_calc_kdv_response_shape (d : kdv_request) :
  let resp := fst (api_calc_kdv lower d) in
  let status := snd (api_calc_kdv lower d) in
  (status = 200%Z /\ success resp = true /\ error resp = None /\
   exists p : payload,
     data resp = Some p /\
     p_rounding p = default "even" (rounding d) /\
     (p_direction p = "add" \/ p_direction p = "remove" \/ p_direction p = "from_vat")) \/
  (status = 400%Z /\ success resp = false /\ data resp = None /\
   exists msg : string, error resp = Some (Message msg)) \/
  (status = 500%Z /\ success resp = false /\ data resp = None /\
   exists e : pyexn, error resp = Some (StrOfException e)).
Proof.
  cbv zeta. unfold api_calc_kdv, api_calc_kdv_try.
  set (dir := lower (default "add" (direction d))).
  destruct (String.eqb_spec dir "add") as [Ha|_].
  { destruct (get_key "price" (price d)) as [e|p]; cbn [rbind].
    { right. right. cbn. repeat split. exists e. reflexivity. }
    destruct (Kdv.add_vat _ _ _ _) as [e|res]; cbn [rbind].
    { right. right. cbn. repeat split. exists e. reflexivity. }
    left. cbn. repeat split. eexists. split; [reflexivity|]. cbn. split; [reflexivity|].
    left. exact Ha. }
  destruct (String.eqb_spec dir "remove") as [Hr|_].
  { destruct (get_key "price" (price d)) as [e|p]; cbn [rbind].
    { right. right. cbn. repeat split. exists e. reflexivity. }
    destruct (Kdv.remove_vat _ _ _ _) as [e|res]; cbn [rbind].
    { right. right. cbn. repeat split. exists e. reflexivity. }
    left. cbn. repeat split. eexists. split; [reflexivity|]. cbn. split; [reflexivity|].
    right. left. exact Hr. }
  destruct (String.eqb dir "from_vat" || String.eqb dir "from_kdv")%bool.
  { destruct (match vatAmount d with
              | Some v => ok v
              | None => get_key "vat_amount" (vat_amount d)
              end) as [e|v]; cbn [rbind].
    { right. right. cbn. repeat split. exists e. reflexivity. }
    destruct (Kdv.from_vat_amount _ _ _ _) as [e|res]; cbn [rbind].
    { right. right. cbn. repeat split. exists e. reflexivity. }
    left. cbn. repeat split. eexists. split; [reflexivity|]. cbn. split; [reflexivity|].
    right. right. reflexivity. }
  right. left. cbn. repeat split. eexists. reflexivity.
Qed.

(** X7: a request to add or to remove VAT that has no "price" is
    answered with status 500 and the text of the KeyError for 'price',
    whatever its other fields hold. *)
Theorem api_calc_kdv_missing_price (d : kdv_request) :
  lower (default "add" (direction d)) = "add" \/
  lower (default "add" (direction d)) = "remove" ->
  price d = None ->
  api_calc_kdv lower d
    = (mkResponse false (Some (StrOfException (KeyError "price"))) None, 500%Z).
Proof.
  intros Hdir Hp. unfold api_calc_kdv, api_calc_kdv_try. rewrite Hp.
  destruct Hdir as [-> | ->]; reflexivity.
Qed.

(** X8: "from_kdv" is another name of "from_vat": two requests that
    differ only in which of the two they give as direction get the
    same answer, and a payload says "from_vat". *)
Theorem api_calc_kdv_from_kdv_alias (d d' : kdv_request) :
  lower (default "add" (direction d)) = "from_kdv" ->
  lower (default "add" (direction d')) = "from_vat" ->
  vatAmount d = vatAmount d' -> vat_amount d = vat_amount d' ->
  rate d = rate d' -> rounding d = rounding d' ->
  withholdingRate d = withholdingRate d' -> withholding_rate d = withholding_rate d' ->
  api_calc_kdv lower d = api_calc_kdv lower d' /\
  forall p : payload,
    data (fst (api_calc_kdv lower d)) = Some p -> p_direction p = "from_vat".
Proof.
  intros Hd Hd' Hv Hv' Hr Hm Hw Hw'.
  unfold api_calc_kdv, api_calc_kdv_try.
  rewrite Hd, Hd', Hv, Hv', Hr, Hm, Hw, Hw'. cbn [String.eqb Ascii.eqb Bool.eqb orb].
  split; [reflexivity|].
  intros p.
  destruct (match vatAmount d' with
            | Some v => ok v
            | None => get_key "vat_amount" (vat_amount d')
            end) as [e|v]; cbn [rbind]; [cbn; discriminate|].
  destruct (Kdv.from_vat_amount _ _ _ _) as [e|res]; cbn [rbind]; [cbn; discriminate|].
  cbn. intros H. injection H as <-. reflexivity.
Qed.

End CalcApiShape.

Section CalcApiWitnesses.
Import CalcApi.

(** The empty body: no direction (hence "add") and no price. *)
Lemma api_calc_kdv_missing_price_witness :
  (ascii_lower (default "add" (direction (mkRequest None None None None None None None None)))
     = "add" \/
   ascii_lower (default "add" (direction (mkRequest None None None None None None None None)))
     = "remove") /\
  api_calc_kdv ascii_lower (mkRequest None None None None None None None None)
    = (mkResponse false (Some (StrOfException (KeyError "price"))) None, 500%Z).
Proof.
  split; [left; reflexivity|].
  apply api_calc_kdv_missing_price; [left; reflexivity|reflexivity].
Defined.

Lemma api_calc_kdv_from_kdv_alias_witness :
  api_calc_kdv ascii_lower
    (mkRequest (Some "FROM_KDV") None (Some 18) None (Some (Num 18)) None None None)
  = api_calc_kdv ascii_lower
    (mkRequest (Some "from_vat") None (Some 18) None (Some (Num 18)) None None None) /\
  forall p : payload,
    data (fst (api_calc_kdv ascii_lower
                 (mkRequest (Some "FROM_KDV") None (Some 18) None (Some (Num 18))
                    None None None))) = Some p ->
    p_direction p = "from_vat".
Proof.
  apply api_calc_kdv_from_kdv_alias; reflexivity.
Defined.

End CalcApiWitnesses.

(** ** Reading the commission column *)

Section ExtractNumber.
Import Service.

Lemma digit_of_range (c : ascii) (d : Z) :
  PyStr.digit_of c = Some d -> (0 <= d <= 9)%Z.
Proof.
  unfold PyStr.digit_of.
  destruct ((48 <=? N_of_ascii c)%N && (N_of_ascii c <=? 57)%N)%bool eqn:E; [|discriminate].
  apply andb_true_iff in E as [H1 H2].
  apply N.leb_le in H1, H2. intros H. injection H as <-. lia.
Qed.

Lemma take_digits_nonneg (s : string) (acc cnt : Z) :
  (0 <= acc)%Z -> (0 <= cnt)%Z ->
  (0 <= fst (fst (PyStr.take_digits s acc cnt)))%Z /\
  (0 <= snd (fst (PyStr.take_digits s acc cnt)))%Z.
Proof.
  revert acc cnt. induction s as [|c s IH]; intros acc cnt Ha Hc; cbn [PyStr.take_digits].
  - cbn. split; assumption.
  - destruct (PyStr.digit_of c) as [d|] eqn:E.
    + apply digit_of_range in E. apply IH; lia.
    + cbn. split; assumption.
Qed.

Lemma first_number_nonneg (s : string) (q : Q) :
  first_number s = Some q -> 0 <= q.
Proof.
  induction s as [|c s IH]; cbn [first_number]; [discriminate|].
  destruct (PyStr.digit_of c) as [d|]; [|exact IH].
  pose proof (take_digits_nonneg (String c s) 0 0 ltac:(lia) ltac:(lia)) as [Hip _].
  destruct (PyStr.take_digits (String c s) 0 0) as [[ip n] rest]. cbn [fst snd] in Hip.
  assert (Hq : 0 <= inject_Z ip).
  { change 0 with (inject_Z 0). rewrite <- Zle_Qle. assumption. }
  assert (Hint : Some (inject_Z ip) = Some q -> 0 <= q).
  { intros H. injection H as <-. assumption. }
  destruct rest as [|c' rest']; [exact Hint|].
  destruct (Ascii.eqb_spec c' "."%char) as [->|Hne].
  - pose proof (take_digits_nonneg rest' ip 0 Hip ltac:(lia)) as [Hco _].
    destruct (PyStr.take_digits rest' ip 0) as [[co nf] rest2]. cbn [fst snd] in Hco.
    destruct (0 <? nf)%Z; [|exact Hint].
    intros H. injection H as <-.
    apply Qle_shift_div_l; [apply pow10_pos|].
    rewrite Qmult_0_l. change 0 with (inject_Z 0). rewrite <- Zle_Qle. assumption.
  - destruct c' as [[] [] [] [] [] [] [] []]; try exact Hint. contradiction Hne. reflexivity.
Qed.

(** X9: the number read from a commission cell is never negative: the
    pattern takes the first run of digits (with its decimals) and no
    sign, so that "-12,5" is read as 12.5. *)
Theorem extract_number_nonneg (x : string) (q : Q) :
  _extract_number x = Some q -> 0 <= q.
Proof. unfold _extract_number. apply first_number_nonneg. Qed.

Lemma extract_number_nonneg_witness :
  _extract_number " %-12,5 " = Some (inject_Z 125 / 10 ^ 1) /\
  0 <= inject_Z 125 / 10 ^ 1.
Proof.
  split; [reflexivity|].
  apply (extract_number_nonneg " %-12,5 "). reflexivity.
Defined.

End ExtractNumber.

Section FixScaleRange.
Import Service.

(** The 0.95 quantile lies between two values of the sample. *)
Lemma quantile95_convex (l : list Q) :
  l <> [] ->
  exists a b f : Q,
    a ∈ l /\ b ∈ l /\ 0 <= f /\ f < 1 /\ quantile95 l = a + f * (b - a).
Proof.
  intros Hne. unfold quantile95.
  set (n := length l).
  assert (Hn : (1 <= n)%nat) by (unfold n; destruct l; [congruence|cbn; lia]).
  set (h := (95 # 100) * inject_Z (Z.of_nat n - 1)).
  set (sorted := sort_by Qle_b l).
  assert (Hlen : length sorted = n) by apply length_sort_by.
  assert (Hh : 0 <= h /\ h <= inject_Z (Z.of_nat n - 1)).
  { unfold h. assert (0 <= inject_Z (Z.of_nat n - 1)).
    { change 0 with (inject_Z 0). rewrite <- Zle_Qle. lia. }
    split; lra. }
  assert (Hi : (Z.to_nat (Qfloor h) < n)%nat).
  { destruct Hh as [H0 H1]. apply Qfloor_resp_le in H0, H1.
    rewrite Qfloor_Z in H1. change (Qfloor 0) with 0%Z in H0. lia. }
  set (i := Z.to_nat (Qfloor h)) in *.
  assert (Hin : forall x, In x sorted -> x ∈ l).
  { intros x Hx. apply list_elem_of_In.
    eapply Permutation_in; [apply sort_by_perm|exact Hx]. }
  set (lo := nth i sorted 0).
  assert (Hlo : lo ∈ l) by (apply Hin, nth_In; lia).
  assert (Hhi : nth (S i) sorted lo ∈ l).
  { destruct (nth_in_or_default (S i) sorted lo) as [H|H]; [apply Hin, H|].
    rewrite H. exact Hlo. }
  exists lo, (nth (S i) sorted lo), (h - inject_Z (Qfloor h)).
  pose proof (Qfloor_le h) as F1. pose proof (Qlt_floor h) as F2.
  rewrite inject_Z_succ in F2.
  repeat split; try assumption; try lra.
Qed.

(** X10: a commission column all of whose values are at most 1 is
    read as fractions and multiplied by 100; a column all of whose
    values exceed 1 is left as it is. *)
Theorem fix_scale_fractions_to_percent (ser : list (option Q)) :
  notna ser <> [] ->
  (Forall (fun v => v <= 1) (notna ser) ->
   _fix_scale ser = map (option_map (fun x => x * 100)) ser) /\
  (Forall (fun v => 1 < v) (notna ser) -> _fix_scale ser = ser).
Proof.
  intros Hne.
  destruct (quantile95_convex (notna ser) Hne) as (a & b & f & Ha & Hb & Hf0 & Hf1 & Hq).
  assert (Hlen : Nat.eqb (length (notna ser)) 0 = false).
  { destruct (notna ser); [congruence|reflexivity]. }
  unfold _fix_scale. rewrite Hlen, Hq. cbn [negb andb].
  split; intros Hall; rewrite Forall_forall in Hall;
    pose proof (Hall a Ha) as Ba; pose proof (Hall b Hb) as Bb; cbv beta in Ba, Bb.
  - assert (H : a + f * (b - a) <= 1) by nra.
    apply Qle_bool_iff in H. rewrite H. reflexivity.
  - destruct (Qle_bool (a + f * (b - a)) 1) eqn:E; [|reflexivity].
    apply Qle_bool_iff in E. exfalso. nra.
Qed.

Lemma fix_scale_fractions_to_percent_witness :
  notna [Some (8 # 100); None; Some (185 # 1000)] <> [] /\
  (Forall (fun v => v <= 1) (notna [Some (8 # 100); None; Some (185 # 1000)]) ->
   _fix_scale [Some (8 # 100); None; Some (185 # 1000)]
   = map (option_map (fun x => x * 100)) [Some (8 # 100); None; Some (185 # 1000)]) /\
  (Forall (fun v => 1 < v) (notna [Some (8 # 100); None; Some (185 # 1000)]) ->
   _fix_scale [Some (8 # 100); None; Some (185 # 1000)]
   = [Some (8 # 100); None; Some (185 # 1000)]).
Proof.
  assert (H : notna [Some (8 # 100); None; Some (185 # 1000)] <> []) by discriminate.
  split; [exact H|].
  exact (fix_scale_fractions_to_percent [Some (8 # 100); None; Some (185 # 1000)] H).
Defined.

End FixScaleRange.

(** ** The normalised table *)

Section Flat4Rows.
Import Service.

Lemma drop_duplicates_go_spec (seen l : list Row) :
  (forall r : Row, r ∈ drop_duplicates_go seen l -> existsb (row_eqb r) seen = false) /\
  (forall (i j : nat) (a b : Row),
      (i < j)%nat ->
      drop_duplicates_go seen l !! i = Some a -> drop_duplicates_go seen l !! j = Some b ->
      row_eqb b a = false).
Proof.
  revert seen. induction l as [|x l IH]; intros seen; cbn [drop_duplicates_go].
  - split; [intros r Hr; inversion Hr|intros i j a b _ Hi; discriminate Hi].
  - destruct (existsb (row_eqb x) seen) eqn:E; [apply IH|].
    destruct (IH (x :: seen)) as [IH1 IH2]. split.
    + intros r Hr. apply elem_of_cons in Hr as [->|Hr]; [exact E|].
      specialize (IH1 r Hr). cbn [existsb] in IH1.
      apply orb_false_iff in IH1 as [_ H]. exact H.
    + intros i j a b Hij Hi Hj. destruct j as [|j]; [lia|]. cbn in Hj.
      destruct i as [|i].
      * cbn in Hi. injection Hi as <-.
        apply list_elem_of_lookup_2 in Hj. specialize (IH1 b Hj). cbn [existsb] in IH1.
        apply orb_false_iff in IH1 as [H _]. exact H.
      * cbn in Hi. apply (IH2 i j a b); [lia|assumption|assumption].
Qed.

Lemma length_drop_duplicates_go (seen l : list Row) :
  (length (drop_duplicates_go seen l) <= length l)%nat.
Proof.
  revert seen. induction l as [|x l IH]; intros seen; cbn [drop_duplicates_go length]; [lia|].
  destruct (existsb (row_eqb x) seen); cbn [length].
  - specialize (IH seen). lia.
  - specialize (IH (x :: seen)). lia.
Qed.

(** X11: the table that [_normalize_to_flat4] returns has no row all
    of whose three texts are empty and no row equal to an earlier one
    (in its three texts and its commission), and it has at most as many
    rows as the table that was read. *)
Theorem normalize_to_flat4_rows (df : DataFrame) (c : candidates) (rows : list Row) :
  _normalize_to_flat4 df c = ok rows ->
  Forall (fun r => row_nonempty r = true) rows /\
  (forall (i j : nat) (a b : Row),
      (i < j)%nat -> rows !! i = Some a -> rows !! j = Some b -> row_eqb b a = false) /\
  (length rows <= length (records df))%nat.
Proof.
  unfold _normalize_to_flat4. intros H.
  destruct (resolve_columns df c) as [e|[[[cat sub] grp] com]]; cbn [rbind] in H;
    [discriminate H|].
  injection H as <-. unfold drop_duplicates.
  split; [|split].
  - apply Forall_forall. intros r Hr.
    apply elem_of_drop_duplicates_go in Hr.
    apply list_elem_of_filter in Hr as [Hr _]. apply Is_true_true. exact Hr.
  - apply drop_duplicates_go_spec.
  - etransitivity; [apply length_drop_duplicates_go|].
    etransitivity; [apply length_filter|].
    unfold flat4_rows. rewrite length_map, length_combine. lia.
Qed.

Lemma normalize_to_flat4_rows_witness :
  exists rows : list Row,
    _normalize_to_flat4 SampleTables.two_level (SampleTables.candidates_of "trendyol")
      = ok rows /\
    Forall (fun r => row_nonempty r = true) rows /\
    (forall (i j : nat) (a b : Row),
        (i < j)%nat -> rows !! i = Some a -> rows !! j = Some b -> row_eqb b a = false) /\
    (length rows <= length (records SampleTables.two_level))%nat.
Proof.
  destruct (_normalize_to_flat4 SampleTables.two_level (SampleTables.candidates_of "trendyol"))
    as [e|rows] eqn:H; [vm_compute in H; discriminate H|].
  exists rows. split; [reflexivity|].
  exact (normalize_to_flat4_rows _ _ rows H).
Defined.

End Flat4Rows.

(** ** Hot reload: a second pass *)

Section RefreshTwice.
Import Service.

Variable fs : filesystem.

Lemma refresh_step_settles (force : bool) (acc : state * bool) (key path : string) :
  settled fs (fst (refresh_step fs force acc (key, path))) key path.
Proof.
  destruct acc as [s changed]. unfold settled, refresh_step.
  destruct (fs_exists fs path) eqn:Ex; cbn [negb].
  - destruct (force || negb (Qeq_bool (fs_mtime fs path) (default (- (1)) (_mtimes s !! key))))%bool
      eqn:Ec.
    + destruct (_load_csv_normalized fs path key) as [e|rows] eqn:El.
      * right. exists e. reflexivity.
      * left. cbn. rewrite lookup_insert_eq. cbn. apply Qeq_bool_refl.
    + left. apply orb_false_iff in Ec as [_ Ec]. apply negb_false_iff in Ec. exact Ec.
  - cbn. apply lookup_insert_eq.
Qed.

Lemma settled_lookup (s s' : state) (key path : string) :
  _data s' !! key = _data s !! key -> _mtimes s' !! key = _mtimes s !! key ->
  settled fs s key path -> settled fs s' key path.
Proof. unfold settled. intros -> ->. exact id. Qed.

Lemma refresh_fold_settles (force : bool) (l : list (string * string)) (acc : state * bool) :
  NoDup (map fst l) ->
  forall key path : string,
    (key, path) ∈ l ->
    settled fs (fst (fold_left (refresh_step fs force) l acc)) key path.
Proof.
  revert acc. induction l as [|[k p] l IH]; intros acc Hnd key path Hin.
  - inversion Hin.
  - cbn [map fst] in Hnd. apply NoDup_cons in Hnd as [Hnot Hnd].
    cbn [fold_left]. apply elem_of_cons in Hin as [Heq|Hin].
    + injection Heq as -> ->.
      destruct (refresh_fold_other fs force l (refresh_step fs force acc (k, p)) k Hnot)
        as [Hd Hm].
      eapply settled_lookup; [exact Hd|exact Hm|apply refresh_step_settles].
    + apply IH; assumption.
Qed.

Lemma refresh_step_settled (s : state) (key path : string) :
  settled fs s key path -> refresh_step fs false (s, false) (key, path) = (s, false).
Proof.
  unfold settled, refresh_step. destruct (fs_exists fs path); cbn [negb orb].
  - intros [Hm|(e & He)].
    + rewrite Hm. reflexivity.
    + rewrite He. destruct (negb _); reflexivity.
  - intros Hd. rewrite insert_id by assumption. destruct s; reflexivity.
Qed.

Lemma refresh_fold_settled (l : list (string * string)) (s : state) :
  (forall key path : string, (key, path) ∈ l -> settled fs s key path) ->
  fold_left (refresh_step fs false) l (s, false) = (s, false).
Proof.
  induction l as [|[k p] l IH]; intros H; [reflexivity|].
  cbn [fold_left]. rewrite refresh_step_settled by (apply H; left).
  apply IH. intros key path Hin. apply H. right. exact Hin.
Qed.

Lemma refresh_fold_files (force : bool) (l : list (string * string)) (acc : state * bool) :
  _files (fst (fold_left (refresh_step fs force) l acc)) = _files (fst acc).
Proof.
  revert acc. induction l as [|kp l IH]; intros acc; [reflexivity|].
  cbn [fold_left]. rewrite IH. apply refresh_step_files.
Qed.

(** X12: a reload pass is idempotent: right after a pass (forced or
    not), a pass that is not forced changes nothing and returns False,
    as long as the file system is the same. *)
Theorem refresh_if_changed_twice (force : bool) (s : state) :
  NoDup (map fst (_files s)) ->
  refresh_if_changed fs false (fst (refresh_if_changed fs force s))
    = (fst (refresh_if_changed fs force s), false).
Proof.
  intros Hnd. unfold refresh_if_changed at 1.
  unfold refresh_if_changed at 1. rewrite refresh_fold_files. cbn [fst].
  apply refresh_fold_settled. intros key path Hin.
  unfold refresh_if_changed. apply refresh_fold_settles; assumption.
Qed.

Lemma refresh_step_forced (acc : state * bool) (key path : string) :
  _data (fst (refresh_step fs true acc (key, path))) !! key
  = if fs_exists fs path
    then match _load_csv_normalized fs path key with
         | inr rows => Some rows
         | inl _ => _data (fst acc) !! key
         end
    else Some [].
Proof.
  destruct acc as [s changed]. unfold refresh_step.
  destruct (fs_exists fs path); cbn [negb orb].
  - destruct (_load_csv_normalized fs path key); [reflexivity|].
    cbn. apply lookup_insert_eq.
  - cbn. apply lookup_insert_eq.
Qed.

Lemma refresh_forced_key (l : list (string * string)) (acc : state * bool)
    (key path : string) :
  NoDup (map fst l) -> (key, path) ∈ l ->
  _data (fst (fold_left (refresh_step fs true) l acc)) !! key
  = if fs_exists fs path
    then match _load_csv_normalized fs path key with
         | inr rows => Some rows
         | inl _ => _data (fst acc) !! key
         end
    else Some [].
Proof.
  revert acc. induction l as [|[k p] l IH]; intros acc Hnd Hin.
  - inversion Hin.
  - cbn [map fst] in Hnd. apply NoDup_cons in Hnd as [Hnot Hnd].
    cbn [fold_left]. apply elem_of_cons in Hin as [Heq|Hin].
    + injection Heq as -> ->.
      destruct (refresh_fold_other fs true l (refresh_step fs true acc (k, p)) k Hnot)
        as [Hd _].
      rewrite Hd. apply refresh_step_forced.
    + rewrite (IH _ Hnd Hin).
      assert (Hne : k <> key).
      { intros ->. apply Hnot. apply list_elem_of_In, in_map_iff.
        exists (key, path). split; [reflexivity|apply list_elem_of_In; exact Hin]. }
      destruct (refresh_step_other fs true acc (k, p) key Hne) as [Hd _].
      rewrite Hd. reflexivity.
Qed.

End RefreshTwice.

Section RefreshTwiceWitness.
Import Service.

Lemma refresh_if_changed_twice_witness :
  NoDup (map fst (_files Sample.loaded)) /\
  refresh_if_changed Sample.fs_broken false
    (fst (refresh_if_changed Sample.fs_broken true Sample.loaded))
  = (fst (refresh_if_changed Sample.fs_broken true Sample.loaded), false).
Proof.
  assert (H : NoDup (map fst (_files Sample.loaded))).
  { apply (bool_decide_unpack _). vm_compute. exact I. }
  split; [exact H|].
  exact (refresh_if_changed_twice Sample.fs_broken true Sample.loaded H).
Defined.

End RefreshTwiceWitness.

(** ** The service after its construction *)

Section InitData.
Import Service.

Variables DATA_DIR BASE_DIR : string.
Variable fs : filesystem.

Lemma dict_get_In {V} (k : string) (v : V) (d : list (string * V)) :
  dict_get k d = Some v -> (k, v) ∈ d.
Proof.
  induction d as [|[k' v'] d IH]; cbn [dict_get]; [discriminate|].
  destruct (String.eqb_spec k k') as [->|Hne].
  - intros H. injection H as ->. left.
  - intros H. right. apply IH. exact H.
Qed.

(** X13: after the construction of the service the rows of every
    configured marketplace are what the loader makes of its file, and
    there are none when the file is missing or cannot be loaded. *)
Theorem init_loads_every_marketplace (key : string) (mp : marketplace) :
  dict_get key marketplaces = Some mp ->
  data_of (init DATA_DIR BASE_DIR fs) key
  = let path := _resolve_csv_path DATA_DIR BASE_DIR fs (csv_file mp) in
    if fs_exists fs path
    then match _load_csv_normalized fs path key with
         | inr rows => rows
         | inl _ => []
         end
    else [].
Proof.
  intros Hg. apply dict_get_In in Hg.
  unfold init, refresh_if_changed, data_of. cbv zeta.
  set (s0 := _init_file_registry DATA_DIR BASE_DIR fs).
  assert (Hnd : NoDup (map fst (_files s0))).
  { unfold s0, _init_file_registry. cbn [_files]. rewrite map_map. cbn [fst].
    apply (bool_decide_unpack _). vm_compute. exact I. }
  assert (Hin : (key, _resolve_csv_path DATA_DIR BASE_DIR fs (csv_file mp)) ∈ _files s0).
  { unfold s0, _init_file_registry. cbn [_files].
    apply list_elem_of_In, in_map_iff. exists (key, mp).
    split; [reflexivity|apply list_elem_of_In; exact Hg]. }
  rewrite (refresh_forced_key fs (_files s0) (s0, false) key _ Hnd Hin).
  destruct (fs_exists fs _); [|reflexivity].
  destruct (_load_csv_normalized fs _ key); reflexivity.
Qed.

End InitData.

Section InitDataWitness.
Import Service.

Lemma init_loads_every_marketplace_witness :
  dict_get "trendyol" marketplaces
    = Some (mkMarketplace "Trendyol" "commissions_flat.csv"
              (mkCandidates ["Ana Kategori"; "Kategori"] ["Kategori"; "Alt Kategori"]
                 ["Ürün Grubu"; "Urun Grubu"; "Urun_Grubu"]
                 ["Komisyon_%_KDV_Dahil"; "komisyon"])) /\
  data_of (init "/srv/data" "/srv" SampleRows.fs_canonical) "trendyol"
  = [ mkRow "Moda" "Giyim" "Elbise" (PFloat NaN);
      mkRow "Moda" "Abiye" "Elbise" (PFloat (Fin 15)) ].
Proof.
  assert (H : dict_get "trendyol" marketplaces
              = Some (mkMarketplace "Trendyol" "commissions_flat.csv"
                        (mkCandidates ["Ana Kategori"; "Kategori"] ["Kategori"; "Alt Kategori"]
                           ["Ürün Grubu"; "Urun Grubu"; "Urun_Grubu"]
                           ["Komisyon_%_KDV_Dahil"; "komisyon"]))) by reflexivity.
  split; [exact H|].
  rewrite (init_loads_every_marketplace "/srv/data" "/srv" SampleRows.fs_canonical
             "trendyol" _ H).
  vm_compute. reflexivity.
Defined.

End InitDataWitness.

(** ** The drill-down lists *)

Section DrillDown.
Import Service.

Lemma sorted_set_spec (l : list string) :
  StronglySorted (fun a b => String.leb a b = true) (sorted_set l) /\
  NoDup (sorted_set l) /\
  forall x : string, x ∈ sorted_set l <-> x ∈ l.
Proof.
  unfold sorted_set.
  pose proof (sort_by_perm String.leb (remove_dups l)) as Hperm.
  split; [|split].
  - apply sort_by_sorted.
    + intros a b. apply String.leb_total.
    + intros a b c. apply string_leb_trans.
  - rewrite Hperm. apply NoDup_remove_dups.
  - intros x. rewrite Hperm. apply elem_of_remove_dups.
Qed.

(** The names in the column [field] of the rows that [sel] selects. *)
Lemma elem_of_names (sel : Row -> bool) (field : Row -> string) (rows : list Row)
    (x : string) :
  x ∈ map field (filter (fun r => nonempty (field r)) (filter sel rows)) <->
  x <> "" /\ exists r : Row, r ∈ rows /\ sel r = true /\ field r = x.
Proof.
  split.
  - intros H. apply list_elem_of_In, in_map_iff in H as (r & <- & Hr).
    apply list_elem_of_In, list_elem_of_filter in Hr as [Hne Hr].
    apply list_elem_of_filter in Hr as [Hs Hr].
    apply Is_true_true in Hne, Hs. split.
    + unfold nonempty in Hne. apply negb_true_iff in Hne.
      intros E. rewrite E in Hne. discriminate Hne.
    + exists r. repeat split; assumption.
  - intros [Hne (r & Hr & Hs & <-)].
    apply list_elem_of_In, in_map_iff. exists r. split; [reflexivity|].
    apply list_elem_of_In, list_elem_of_filter. split.
    + apply Is_true_true. unfold nonempty. apply negb_true_iff.
      destruct (String.eqb_spec (field r) ""); [contradiction|reflexivity].
    + apply list_elem_of_filter. split; [apply Is_true_true; exact Hs|exact Hr].
Qed.

Lemma filter_all (rows : list Row) : filter (fun _ : Row => true) rows = rows.
Proof.
  induction rows as [|r rows IH]; [reflexivity|].
  rewrite filter_cons_True by exact I. rewrite IH. reflexivity.
Qed.

Lemma elem_of_list_categories (s : state) (site x : string) :
  x ∈ list_categories s site <->
  x <> "" /\ exists r : Row, r ∈ data_of s site /\ Kategori r = x.
Proof.
  unfold list_categories. cbv zeta.
  rewrite (proj2 (proj2 (sorted_set_spec _))).
  rewrite <- (filter_all (data_of s site)) at 1.
  rewrite (elem_of_names (fun _ => true) Kategori).
  split; intros [Hne (r & Hr & H)]; (split; [exact Hne|exists r]).
  - destruct H as [_ H]. split; assumption.
  - repeat split; assumption.
Qed.

Lemma elem_of_list_subcategories (s : state) (site c x : string) :
  x ∈ list_subcategories s site c <->
  x <> "" /\ exists r : Row, r ∈ data_of s site /\ Kategori r = c /\ Alt_Kategori r = x.
Proof.
  unfold list_subcategories. cbv zeta.
  rewrite (proj2 (proj2 (sorted_set_spec _))).
  rewrite (elem_of_names (fun r => String.eqb (Kategori r) c) Alt_Kategori).
  split; intros [Hne (r & Hr & Hs & H)]; (split; [exact Hne|exists r]).
  - apply String.eqb_eq in Hs. repeat split; assumption.
  - repeat split; try assumption. apply String.eqb_eq. assumption.
Qed.

Lemma elem_of_list_product_groups (s : state) (site c sub x : string) :
  x ∈ list_product_groups s site c sub <->
  x <> "" /\
  exists r : Row,
    r ∈ data_of s site /\ Kategori r = c /\ Alt_Kategori r = sub /\ Urun_Grubu r = x.
Proof.
  unfold list_product_groups. cbv zeta.
  rewrite (proj2 (proj2 (sorted_set_spec _))).
  rewrite (elem_of_names
             (fun r => String.eqb (Kategori r) c && String.eqb (Alt_Kategori r) sub)
             Urun_Grubu).
  split.
  - intros [Hne (r & Hr & Hs & H)]. split; [exact Hne|]. exists r.
    apply andb_true_iff in Hs as [H1 H2]. apply String.eqb_eq in H1, H2.
    repeat split; assumption.
  - intros [Hne (r & Hr & H1 & H2 & H)]. split; [exact Hne|]. exists r.
    repeat split; try assumption.
    apply andb_true_iff. split; apply String.eqb_eq; assumption.
Qed.

(** X14: each of the three drill-down lists is in ascending order
    without repetition and holds exactly the non-empty names of the
    rows on the selected path. *)
Theorem drill_down_lists (s : state) (site c sub : string) :
  let rows := data_of s site in
  let ascending := fun l : list string =>
    StronglySorted (fun a b => String.leb a b = true) l /\ NoDup l in
  (ascending (list_categories s site) /\
   forall x : string,
     x ∈ list_categories s site <->
     x <> "" /\ exists r : Row, r ∈ rows /\ Kategori r = x) /\
  (ascending (list_subcategories s site c) /\
   forall x : string,
     x ∈ list_subcategories s site c <->
     x <> "" /\ exists r : Row, r ∈ rows /\ Kategori r = c /\ Alt_Kategori r = x) /\
  (ascending (list_product_groups s site c sub) /\
   forall x : string,
     x ∈ list_product_groups s site c sub <->
     x <> "" /\
     exists r : Row,
       r ∈ rows /\ Kategori r = c /\ Alt_Kategori r = sub /\ Urun_Grubu r = x).
Proof.
  cbv zeta. split; [|split]; (split; [split|]).
  - apply sorted_set_spec.
  - apply sorted_set_spec.
  - apply elem_of_list_categories.
  - apply sorted_set_spec.
  - apply sorted_set_spec.
  - apply elem_of_list_subcategories.
  - apply sorted_set_spec.
  - apply sorted_set_spec.
  - apply elem_of_list_product_groups.
Qed.

Lemma find_first {A} (p : A -> bool) (l : list A) (x : A) :
  x ∈ l -> p x = true ->
  exists (l1 : list A) (r : A) (l2 : list A),
    l = (l1 ++ r :: l2)%list /\ Forall (fun r' => p r' = false) l1 /\ p r = true /\
    find p l = Some r.
Proof.
  induction l as [|y l IH]; intros Hin Hp; [inversion Hin|].
  destruct (p y) eqn:E.
  - exists [], y, l. cbn [find]. rewrite E. repeat split. constructor.
  - apply elem_of_cons in Hin as [->|Hin]; [congruence|].
    destruct (IH Hin Hp) as (l1 & r & l2 & -> & Hall & Hr & Hf).
    exists (y :: l1), r, l2. cbn [find]. rewrite E.
    repeat split; try assumption. constructor; assumption.
Qed.

(** X15: a product group that the drill-down lists under a category
    and a sub-category can be looked up: the lookup is answered from the
    first row with that path, and a non-empty category and sub-category
    of the path are listed as well. *)
Theorem find_commission_first_row (s : state) (site c sub g : string) :
  g ∈ list_product_groups s site c sub ->
  exists (l1 : list Row) (r : Row) (l2 : list Row),
    data_of s site = (l1 ++ r :: l2)%list /\
    Forall (fun r' => on_path c sub g r' = false) l1 /\
    on_path c sub g r = true /\
    find_commission s site c sub g
    = match Komisyon r with
      | PNone => None
      | PFloat f => Some f
      | PStr t => float_of_string t
      end /\
    (c <> "" -> c ∈ list_categories s site) /\
    (sub <> "" -> sub ∈ list_subcategories s site c).
Proof.
  intros Hg. apply elem_of_list_product_groups in Hg as [Hne (r0 & Hr0 & Hc & Hs & Hgr)].
  assert (Hp : on_path c sub g r0 = true).
  { unfold on_path. rewrite Hc, Hs, Hgr, !String.eqb_refl. reflexivity. }
  destruct (find_first (on_path c sub g) (data_of s site) r0 Hr0 Hp)
    as (l1 & r & l2 & Hrows & Hall & Hr & Hf).
  exists l1, r, l2. split; [exact Hrows|]. split; [exact Hall|]. split; [exact Hr|].
  split; [|split].
  - unfold find_commission. rewrite Hf. reflexivity.
  - intros Hcne. apply elem_of_list_categories. split; [exact Hcne|].
    exists r0. split; assumption.
  - intros Hsne. apply elem_of_list_subcategories. split; [exact Hsne|].
    exists r0. repeat split; assumption.
Qed.

Lemma find_commission_first_row_witness :
  "Cep Telefonu" ∈ list_product_groups Sample.loaded "trendyol" "Elektronik" "Telefon" /\
  exists (l1 : list Row) (r : Row) (l2 : list Row),
    data_of Sample.loaded "trendyol" = (l1 ++ r :: l2)%list /\
    Forall (fun r' => on_path "Elektronik" "Telefon" "Cep Telefonu" r' = false) l1 /\
    on_path "Elektronik" "Telefon" "Cep Telefonu" r = true /\
    find_commission Sample.loaded "trendyol" "Elektronik" "Telefon" "Cep Telefonu"
    = match Komisyon r with
      | PNone => None
      | PFloat f => Some f
      | PStr t => float_of_string t
      end /\
    ("Elektronik" <> "" -> "Elektronik" ∈ list_categories Sample.loaded "trendyol") /\
    ("Telefon" <> "" ->
     "Telefon" ∈ list_subcategories Sample.loaded "trendyol" "Elektronik").
Proof.
  assert (H : "Cep Telefonu"
              ∈ list_product_groups Sample.loaded "trendyol" "Elektronik" "Telefon").
  { apply list_elem_of_In. vm_compute. left. reflexivity. }
  split; [exact H|].
  exact (find_commission_first_row Sample.loaded "trendyol" "Elektronik" "Telefon"
           "Cep Telefonu" H).
Defined.

End DrillDown.

(** ** The list of the marketplaces and the product-group listing *)

Section MarketplaceCounts.
Import Service.

Variable lower : string -> string.

Lemma dict_get_Some_keys {V} (k : string) (v : V) (d : list (string * V)) :
  dict_get k d = Some v -> k ∈ map fst d.
Proof.
  intros H. apply dict_elem_get in H.
  apply list_elem_of_In, in_map_iff. exists (k, v).
  split; [reflexivity|apply list_elem_of_In; exact H].
Qed.

Lemma pg_step_keys (norm_q : string) (seen : list (string * pg_entry)) (r : Row)
    (k : string) :
  k ∈ map fst (pg_step lower norm_q seen r) <->
  k ∈ map fst seen \/ (pg_passes lower norm_q r = true /\ pg_of r = k).
Proof.
  rewrite pg_step_unfold.
  destruct (pg_passes lower norm_q r) eqn:Hp.
  2:{ split; [intros H; left; exact H|intros [H|[H _]]; [exact H|discriminate H]]. }
  destruct (dict_get (pg_of r) seen) as [cur|] eqn:Hg.
  - assert (Hk : pg_of r ∈ map fst seen) by (eapply dict_get_Some_keys; exact Hg).
    assert (Hsame : forall l, l = map fst seen ->
              (k ∈ l <-> k ∈ map fst seen \/ true = true /\ pg_of r = k)).
    { intros l ->. split; [intros H; left; exact H|].
      intros [H|[_ <-]]; assumption. }
    destruct (fgt _ _); apply Hsame; [|reflexivity].
    rewrite dict_set_keys, Hg. reflexivity.
  - rewrite dict_set_keys, Hg, elem_of_app, list_elem_of_singleton.
    split; (intros [H|H]; [left; exact H|right]).
    + split; [reflexivity|symmetry; exact H].
    + destruct H as [_ H]. symmetry. exact H.
Qed.

Lemma pg_fold_keys (norm_q : string) (rows : list Row) (k : string) :
  k ∈ map fst (fold_left (pg_step lower norm_q) rows []) <->
  exists r : Row, r ∈ rows /\ pg_passes lower norm_q r = true /\ pg_of r = k.
Proof.
  induction rows as [|r rows IH] using rev_ind.
  - cbn. split; [intros H; inversion H|intros (r & H & _); inversion H].
  - rewrite fold_left_app. cbn [fold_left]. rewrite pg_step_keys, IH.
    split.
    + intros [(r' & Hr' & H)|H].
      * exists r'. split; [apply elem_of_app; left; exact Hr'|exact H].
      * exists r. split; [apply elem_of_app; right; left|exact H].
    + intros (r' & Hr' & H). apply elem_of_app in Hr' as [Hr'|Hr'].
      * left. exists r'. split; assumption.
      * apply list_elem_of_singleton in Hr'. subst r'. right. exact H.
Qed.

Lemma length_remove_dups_le (l : list string) :
  (length (remove_dups l) <= length l)%nat.
Proof.
  induction l as [|x l IH]; cbn [remove_dups length]; [lia|].
  destruct (decide_rel elem_of x l); cbn [length]; lia.
Qed.

(** X17: for a marketplace that is counted by product groups, and
    whose product-group names carry no surrounding blanks, the count
    shown in the list of the marketplaces is the number of entries of
    the product-group listing with an empty query; it is also the
    "rowCount" of the entry and at most the number of rows. *)
Theorem product_count_is_listing_length (fs : filesystem) (s : state)
    (info : marketplace_info) :
  info ∈ get_available_marketplaces fs s ->
  counted_by_group (info_id info) = true ->
  Forall (fun r => PyStr.strip (Urun_Grubu r) = Urun_Grubu r) (data_of s (info_id info)) ->
  productCount info = length (list_pg_commissions lower s (info_id info) "") /\
  rowCount info = productCount info /\
  (productCount info <= length (data_of s (info_id info)))%nat.
Proof.
  intros Hin Hc Hstrip.
  unfold get_available_marketplaces in Hin.
  apply list_elem_of_In, in_map_iff in Hin as ([mid mp] & <- & _).
  cbn [fst snd info_id productCount rowCount] in *. rewrite Hc.
  set (rows := data_of s mid) in *.
  set (names := map Urun_Grubu (filter (fun r => nonempty (Urun_Grubu r)) rows)).
  split; [|split; [reflexivity|]].
  - unfold list_pg_commissions. fold rows. cbn [String.eqb].
    rewrite length_sort_by, length_map.
    set (seen := fold_left (pg_step lower "") rows []).
    rewrite <- (length_map fst seen).
    apply Permutation_length, NoDup_Permutation.
    + apply NoDup_remove_dups.
    + apply pg_fold_NoDup.
    + intros k. rewrite elem_of_remove_dups. unfold seen. rewrite pg_fold_keys.
      unfold names. rewrite <- (filter_all rows) at 1.
      rewrite (elem_of_names (fun _ => true) Urun_Grubu).
      rewrite Forall_forall in Hstrip.
      split.
      * intros [Hne (r & Hr & _ & <-)]. exists r. split; [exact Hr|].
        unfold pg_passes, pg_of. rewrite (Hstrip r Hr). split; [|reflexivity].
        destruct (String.eqb_spec (Urun_Grubu r) ""); [contradiction|reflexivity].
      * intros (r & Hr & Hp & <-). unfold pg_passes, pg_of in *.
        rewrite (Hstrip r Hr) in *. split.
        -- intros E. rewrite E in Hp. discriminate Hp.
        -- exists r. repeat split. exact Hr.
  - etransitivity; [apply length_remove_dups_le|].
    unfold names. rewrite length_map. apply length_filter.
Qed.

End MarketplaceCounts.

Section ListingWitnesses.
Import Service.

(* The aggregation on two rows of one product group with the
   commissions 10 and 15. *)
Lemma list_pg_commissions_first_max_witness :
  Forall numeric_row (data_of SampleRows.ten_then_15 "trendyol") /\
  NoDup (map productGroup
           (list_pg_commissions ascii_lower SampleRows.ten_then_15 "trendyol" "")) /\
  forall e : pg_entry,
    e ∈ list_pg_commissions ascii_lower SampleRows.ten_then_15 "trendyol" "" ->
    kept ascii_lower "" (data_of SampleRows.ten_then_15 "trendyol")
      (productGroup e) e.
Proof.
  assert (H : Forall numeric_row (data_of SampleRows.ten_then_15 "trendyol")).
  { assert (E : data_of SampleRows.ten_then_15 "trendyol"
                = [ mkRow "Moda" "Giyim" "Elbise" (PFloat (Fin 10));
                    mkRow "Moda" "Abiye" "Elbise" (PFloat (Fin 15)) ])
      by (vm_compute; reflexivity).
    rewrite E. repeat constructor; discriminate. }
  split; [exact H|].
  destruct (list_pg_commissions_first_max ascii_lower SampleRows.ten_then_15 "trendyol" "" H)
    as (_ & Hnd & Hkept & _).
  split; [exact Hnd|exact Hkept].
Defined.

Lemma product_count_is_listing_length_witness :
  mkInfo "n11" "N11" 1 None false 1
    ∈ get_available_marketplaces Sample.fs_broken SampleRows.two_categories /\
  counted_by_group "n11" = true /\
  Forall (fun r => PyStr.strip (Urun_Grubu r) = Urun_Grubu r)
    (data_of SampleRows.two_categories "n11") /\
  (1%nat = length (list_pg_commissions ascii_lower SampleRows.two_categories "n11" "") /\
   1%nat = 1%nat /\
   (1 <= length (data_of SampleRows.two_categories "n11"))%nat).
Proof.
  assert (H1 : mkInfo "n11" "N11" 1 None false 1
               ∈ get_available_marketplaces Sample.fs_broken SampleRows.two_categories).
  { apply list_elem_of_In. vm_compute. right. right. left. reflexivity. }
  assert (H2 : counted_by_group "n11" = true) by reflexivity.
  assert (H3 : Forall (fun r => PyStr.strip (Urun_Grubu r) = Urun_Grubu r)
                 (data_of SampleRows.two_categories "n11")).
  { assert (E : data_of SampleRows.two_categories "n11"
                = [SampleRows.row_ax; SampleRows.row_Bx]) by (vm_compute; reflexivity).
    rewrite E. repeat constructor. }
  split; [exact H1|]. split; [exact H2|]. split; [exact H3|].
  exact (product_count_is_listing_length ascii_lower Sample.fs_broken
           SampleRows.two_categories _ H1 H2 H3).
Defined.

End ListingWitnesses.

(** ** The commission calculation: the amounts it returns *)

Section CommissionAmounts.
Import Service.





End CommissionAmounts.

(** ** The items of the search route *)

Section SearchItems.
Import Service Routes.

Lemma rename_standard_item (r : Row) :
  rename_keys (map (fun kv => (fst kv, nan_to_none (snd kv))) (row_item r))
  = [ ("category", PStr (Kategori r)); ("subCategory", PStr (Alt_Kategori r));
      ("productGroup", PStr (Urun_Grubu r));
      ("commissionPercent", nan_to_none (Komisyon r)) ].
Proof. reflexivity. Qed.

Lemma rename_hepsiburada_item (r : Row) :
  rename_keys
    [ ("Ana Kategori", PStr (Kategori r)); ("Kategori", PStr (Alt_Kategori r));
      ("Ürün Grubu", PStr (Urun_Grubu r));
      ("Uygulanan_Komisyon_%_KDV_Dahil", nan_to_none (Komisyon r)) ]
  = [ ("category", PStr (Kategori r)); ("subCategory", PStr (Alt_Kategori r));
      ("productGroup", PStr (Urun_Grubu r));
      ("commissionPercent", nan_to_none (Komisyon r)) ].
Proof. reflexivity. Qed.

End SearchItems.

Section StandardItem.
Import Service Routes.

Lemma fmt_number_nonempty (q : Q) : String.eqb (fmt (Some (Fin q))) "" = false.
Proof.
  unfold fmt, PyStr.replace. cbn [String.eqb].
  destruct (format_2f q ++ "%") as [|c t] eqn:E.
  - destruct (format_2f q); discriminate E.
  - cbn [PyStr.replace_go]. destruct (String.prefix "." (String c t)); reflexivity.
Qed.

Lemma standard_item_value (r : Row) :
  exists out : item,
    normalize_api_item (map (fun kv => (fst kv, nan_to_none (snd kv))) (row_item r))
      = Some out /\
    item_get "category" out = PStr (Kategori r) /\
    item_get "subCategory" out = PStr (Alt_Kategori r) /\
    item_get "productGroup" out = PStr (Urun_Grubu r) /\
    item_get "commissionPercent" out = nan_to_none (Komisyon r) /\
    item_get "displayProductGroup" out
      = (if String.eqb (displayed_path r) "" then PNone else PStr (displayed_path r)) /\
    (forall q : Q, Komisyon r = PFloat (Fin q) ->
       item_get "commissionText" out = PStr (fmt (Some (Fin q))) /\
       item_get "displayCommissionText" out = PStr (fmt (Some (Fin q)))) /\
    (is_none (nan_to_none (Komisyon r)) = true -> item_get "commissionText" out = PNone).
Proof.
  destruct r as [K A U v].
  unfold normalize_api_item. rewrite rename_standard_item.
  unfold displayed_path. cbn [Kategori Alt_Kategori Urun_Grubu Komisyon].
  destruct v as [|[q|]|t].
  - cbn -[arrow fmt PyStr.strip].
    generalize (PyStr.strip K) (PyStr.strip A) (PyStr.strip U). intros cat sub pg.
    destruct cat, sub, pg; cbn -[arrow fmt]; (eexists; split; [reflexivity|]);
      cbn -[arrow fmt]; repeat split; intros; first [reflexivity|discriminate].
  - cbn -[arrow fmt PyStr.strip]. rewrite fmt_number_nonempty. cbn -[arrow fmt PyStr.strip].
    generalize (PyStr.strip K) (PyStr.strip A) (PyStr.strip U). intros cat sub pg.
    destruct cat, sub, pg; cbn -[arrow fmt];
      (eexists; split; [reflexivity|]); cbn -[arrow fmt]; repeat split;
      intros; try discriminate;
      try match goal with H : PFloat (Fin _) = PFloat (Fin _) |- _ => injection H as <- end;
      reflexivity.
  - cbn -[arrow fmt PyStr.strip].
    generalize (PyStr.strip K) (PyStr.strip A) (PyStr.strip U). intros cat sub pg.
    destruct cat, sub, pg; cbn -[arrow fmt]; (eexists; split; [reflexivity|]);
      cbn -[arrow fmt]; repeat split; intros; first [reflexivity|discriminate].
  - cbn -[arrow fmt float_of_string PyStr.strip].
    destruct (String.eqb t "") eqn:Et; cbn -[arrow fmt float_of_string PyStr.strip];
      (destruct (float_of_string t) as [[q|]|]; cbn -[arrow fmt float_of_string PyStr.strip];
       rewrite ?fmt_number_nonempty;
       change (fmt (Some NaN)) with "nan%";
       cbn -[arrow fmt float_of_string PyStr.strip];
       generalize (PyStr.strip K) (PyStr.strip A) (PyStr.strip U); intros cat sub pg;
       destruct cat, sub, pg; cbn -[arrow fmt float_of_string];
       (eexists; split; [reflexivity|]); cbn -[arrow fmt float_of_string];
       repeat split; intros; first [reflexivity|discriminate]).
Qed.

(** X21: the item that the standard search answers for a row: the
    three texts of the row under "category", "subCategory" and
    "productGroup", its commission under "commissionPercent" (null when
    it is missing), the texts that are not blank joined by " → " under
    "displayProductGroup", and, for a numeric commission, its
    formatting with two decimals, a decimal comma and "%" under
    "commissionText" and "displayCommissionText". *)
Theorem standard_item_fields (r : Row) :
  exists out : item,
    normalize_api_item (map (fun kv => (fst kv, nan_to_none (snd kv))) (row_item r))
      = Some out /\
    item_get "category" out = PStr (Kategori r) /\
    item_get "subCategory" out = PStr (Alt_Kategori r) /\
    item_get "productGroup" out = PStr (Urun_Grubu r) /\
    item_get "commissionPercent" out = nan_to_none (Komisyon r) /\
    item_get "displayProductGroup" out
      = (if String.eqb (displayed_path r) "" then PNone else PStr (displayed_path r)) /\
    (forall q : Q, Komisyon r = PFloat (Fin q) ->
       item_get "commissionText" out = PStr (fmt (Some (Fin q))) /\
       item_get "displayCommissionText" out = PStr (fmt (Some (Fin q)))) /\
    (is_none (nan_to_none (Komisyon r)) = true -> item_get "commissionText" out = PNone).
Proof. apply standard_item_value. Qed.

Lemma normalize_all_ext (f g : Row -> item) (rows : list Row) :
  (forall r : Row, normalize_api_item (f r) = normalize_api_item (g r)) ->
  normalize_all (map f rows) = normalize_all (map g rows).
Proof.
  intros H. induction rows as [|r rows IH]; [reflexivity|].
  cbn [map normalize_all]. rewrite H, IH. reflexivity.
Qed.

Lemma normalize_all_standard (rows : list Row) :
  exists l : list item,
    normalize_all
      (map (fun r => map (fun kv => (fst kv, nan_to_none (snd kv))) (row_item r)) rows)
    = Some l.
Proof.
  induction rows as [|r rows [l IH]]; [exists []; reflexivity|].
  destruct (standard_item_value r) as (out & Hout & _).
  exists (out :: l). cbn [map normalize_all]. rewrite Hout, IH. reflexivity.
Qed.

(** X22: given the same rows, the search of Hepsiburada answers with
    the same items as the standard search: the keys "Ana Kategori" and
    "Kategori" under which it hands the category and the sub-category
    to the normalisation come out as "category" and "subCategory". *)
Theorem hepsiburada_search_as_standard (lower : string -> string) (s : state)
    (q : option string) :
  data_of s "hepsiburada" = data_of s "trendyol" ->
  exists (data : list item) (count : nat),
    Routes.search_products lower s (Some "hepsiburada") q
      = SearchOk data count "hepsiburada" /\
    Routes.search_products lower s None q = SearchOk data count "trendyol" /\
    Routes.search_products lower s (Some "trendyol") q = SearchOk data count "trendyol" /\
    count = length data.
Proof.
  intros Hrows.
  unfold Routes.search_products. cbv zeta. unfold default, from_option, id.
  assert (Hh : negb (bool_decide (is_Some (dict_get "hepsiburada" marketplaces))) = false)
    by (vm_compute; reflexivity).
  assert (Ht : negb (bool_decide (is_Some (dict_get "trendyol" marketplaces))) = false)
    by (vm_compute; reflexivity).
  rewrite Hh, Ht.
  change (String.eqb "hepsiburada" "hepsiburada") with true.
  change (String.eqb "trendyol" "hepsiburada") with false.
  change (String.eqb "trendyol" "n11" || String.eqb "trendyol" "amazon") with false.
  change (String.eqb "trendyol" "ciceksepeti" || String.eqb "trendyol" "pttavm") with false.
  cbv iota.
  set (query := match q with Some x => x | None => "" end).
  assert (Hs : Service.search_products lower s "hepsiburada" query
               = Service.search_products lower s "trendyol" query).
  { unfold Service.search_products. rewrite Hrows. reflexivity. }
  rewrite Hs.
  set (rows := Service.search_products lower s "trendyol" query).
  unfold answer.
  rewrite (normalize_all_ext
             (fun r =>
                [ ("Ana Kategori", PStr (Kategori r)); ("Kategori", PStr (Alt_Kategori r));
                  ("Ürün Grubu", PStr (Urun_Grubu r));
                  ("Uygulanan_Komisyon_%_KDV_Dahil", nan_to_none (Komisyon r)) ])
             (fun r => map (fun kv => (fst kv, nan_to_none (snd kv))) (row_item r))).
  2:{ intros r. unfold normalize_api_item.
      rewrite rename_hepsiburada_item, rename_standard_item. reflexivity. }
  destruct (normalize_all_standard rows) as (l & Hl).
  unfold item in *. rewrite !Hl.
  exists l, (length l). repeat split.
Qed.

Lemma hepsiburada_search_as_standard_witness :
  data_of (mkState [] ∅ {[ "hepsiburada" := [Sample.row_phone];
                           "trendyol" := [Sample.row_phone] ]}) "hepsiburada"
  = data_of (mkState [] ∅ {[ "hepsiburada" := [Sample.row_phone];
                             "trendyol" := [Sample.row_phone] ]}) "trendyol" /\
  exists (data : list item) (count : nat),
    Routes.search_products ascii_lower
      (mkState [] ∅ {[ "hepsiburada" := [Sample.row_phone];
                       "trendyol" := [Sample.row_phone] ]}) (Some "hepsiburada") (Some "tel")
      = SearchOk data count "hepsiburada" /\
    Routes.search_products ascii_lower
      (mkState [] ∅ {[ "hepsiburada" := [Sample.row_phone];
                       "trendyol" := [Sample.row_phone] ]}) None (Some "tel")
      = SearchOk data count "trendyol" /\
    Routes.search_products ascii_lower
      (mkState [] ∅ {[ "hepsiburada" := [Sample.row_phone];
                       "trendyol" := [Sample.row_phone] ]}) (Some "trendyol") (Some "tel")
      = SearchOk data count "trendyol" /\
    count = length data.
Proof.
  assert (H : data_of (mkState [] ∅ {[ "hepsiburada" := [Sample.row_phone];
                                       "trendyol" := [Sample.row_phone] ]}) "hepsiburada"
              = data_of (mkState [] ∅ {[ "hepsiburada" := [Sample.row_phone];
                                         "trendyol" := [Sample.row_phone] ]}) "trendyol")
    by (vm_compute; reflexivity).
  split; [exact H|].
  exact (hepsiburada_search_as_standard ascii_lower _ (Some "tel") H).
Defined.

End StandardItem.

(** ** The VAT calculation of app.py *)

Section AppKdvFacts.
Import PyFloat AppKdv.

Variable float_of_text : string -> option pyfloat.

Lemma fdiv_100 (a : pyfloat) :
  fdiv a (Fin 100) = inr (match a with Fin x => Fin (x / 100) | NaN => NaN end).
Proof. reflexivity. Qed.

Lemma fle_Fin (x y : Q) : fle (Fin x) (Fin y) = true <-> x <= y.
Proof. cbn [fle]. apply Qle_bool_iff. Qed.

Lemma flt_Fin (x y : Q) : flt (Fin x) (Fin y) = true <-> x < y.
Proof.
  cbn [flt]. destruct (Qle_bool y x) eqn:E; cbn [negb].
  - apply Qle_bool_iff in E. split; [discriminate|]. intros H. lra.
  - split; [|reflexivity]. intros _. apply Qnot_le_lt. intros H.
    apply Qle_bool_iff in H. congruence.
Qed.

Lemma fle_false (x y : Q) : y < x -> fle (Fin x) (Fin y) = false.
Proof.
  intros H. destruct (fle (Fin x) (Fin y)) eqn:E; [|reflexivity].
  apply fle_Fin in E. lra.
Qed.

Lemma flt_false (x y : Q) : y <= x -> flt (Fin x) (Fin y) = false.
Proof.
  intros H. destruct (flt (Fin x) (Fin y)) eqn:E; [|reflexivity].
  apply flt_Fin in E. lra.
Qed.

(** The division of the "remove" direction on a valid rate. *)
Lemma fdiv_one_plus (pr : pyfloat) (r : Q) :
  0 <= r ->
  fdiv pr (fop Qplus (Fin 1) (Fin (r / 100)))
  = inr (match pr with Fin x => Fin (x / (1 + r / 100)) | NaN => NaN end).
Proof.
  intros Hr. cbn [fop fdiv].
  destruct (Qeq_bool (1 + r / 100) 0) eqn:E; [|reflexivity].
  apply Qeq_bool_iff in E.
  assert (H : 0 <= r / 100) by (apply Qle_shift_div_l; [reflexivity|lra]).
  lra.
Qed.

(** X23: the validation of the VAT calculation of app.py, for a price
    and a rate that convert to finite numbers: a price of 0 or less is
    refused first, then a rate outside 0..100; otherwise, without a
    withholding rate, the answer is a success that echoes the rate and
    the direction and has no withholding fields. *)
Theorem calculate_kdv_api_validation (d : kdv_data) (p r : Q) :
  to_float float_of_text (default (PFloat (Fin 0)) (price d)) = inr (Fin p) ->
  to_float float_of_text (default (PFloat (Fin 20)) (rate d)) = inr (Fin r) ->
  (p <= 0 -> calculate_kdv_api float_of_text d = mkResponse false (Some PriceNotPositive) None) /\
  (0 < p -> r < 0 \/ 100 < r -> calculate_kdv_api float_of_text d = mkResponse false (Some RateOutOfRange) None) /\
  (0 < p -> 0 <= r -> r <= 100 -> truthy (default PNone (withholdingRate d)) = false ->
   exists res : kdv_result,
     calculate_kdv_api float_of_text d = mkResponse true None (Some res) /\
     vatRate res = Fin r /\ r_direction res = default (PStr "add") (direction d) /\
     withholding res = None).
Proof.
  intros Hp Hr. unfold calculate_kdv_api. rewrite Hp, Hr. split; [|split].
  - intros H. apply fle_Fin in H. rewrite H. reflexivity.
  - intros H0 H. rewrite (fle_false p 0 H0).
    assert (E : (flt (Fin r) (Fin 0) || flt (Fin 100) (Fin r))%bool = true).
    { apply orb_true_iff. destruct H as [H|H]; [left|right]; apply flt_Fin; exact H. }
    rewrite E. reflexivity.
  - intros H0 Hr0 Hr100 Hw. rewrite (fle_false p 0 H0).
    rewrite (flt_false r 0 Hr0), (flt_false 100 r Hr100). cbn [orb].
    rewrite fdiv_100, (fdiv_one_plus (Fin p) r Hr0), Hw.
    destruct (Service.pyval_eqb _ (PStr "add")); eexists; repeat split.
Qed.

Lemma split_char_absent (s : string) :
  PyStr.str_in "/" s = false -> PyStr.split_char "/" s = [s].
Proof.
  induction s as [|c s IH]; [reflexivity|].
  cbn [PyStr.str_in PyStr.split_char]. intros H.
  apply orb_false_iff in H as [Hp Hs].
  destruct (Ascii.eqb_spec c "/"%char) as [->|Hne].
  - destruct s; cbv in Hp; discriminate Hp.
  - rewrite (IH Hs). reflexivity.
Qed.

(** X25: a withholding rate given as a non-empty text never makes the
    calculation fail with an exception: when the text yields a ratio
    the answer is a success that holds the withholding fields, and
    otherwise it is the refusal "Geçersiz tevkifat oranı formatı".  The
    refusal is what a fraction with a denominator of 0 and a text with
    more than one "/" get. *)
Theorem calculate_kdv_api_withholding (d : kdv_data) (p r : Q) (s : string) :
  to_float float_of_text (default (PFloat (Fin 0)) (price d)) = inr (Fin p) ->
  to_float float_of_text (default (PFloat (Fin 20)) (rate d)) = inr (Fin r) ->
  0 < p -> 0 <= r -> r <= 100 ->
  withholdingRate d = Some (PStr s) -> s <> "" ->
  (forall ratio : pyfloat,
      withholding_ratio float_of_text s = inr ratio ->
      exists (res : kdv_result) (amount payable : pyfloat),
        calculate_kdv_api float_of_text d = mkResponse true None (Some res) /\
        withholding res = Some (PStr s, amount, payable)) /\
  ((exists e : exn, withholding_ratio float_of_text s = inl e) ->
   calculate_kdv_api float_of_text d = mkResponse false (Some BadWithholding) None) /\
  (forall (a b : string) (num : pyfloat) (z : Q),
      PyStr.split_char "/" s = [a; b] ->
      float_of_text a = Some num -> float_of_text b = Some (Fin z) -> z == 0 ->
      calculate_kdv_api float_of_text d = mkResponse false (Some BadWithholding) None) /\
  ((2 < length (PyStr.split_char "/" s))%nat ->
   calculate_kdv_api float_of_text d = mkResponse false (Some BadWithholding) None).
Proof.
  intros Hp Hr H0 Hr0 Hr100 Hw Hs.
  assert (Ht : truthy (PStr s) = true).
  { cbn. destruct (String.eqb_spec s ""); [contradiction|reflexivity]. }
  assert (Hrun : forall e : exn, withholding_ratio float_of_text s = inl e ->
            calculate_kdv_api float_of_text d = mkResponse false (Some BadWithholding) None).
  { intros e He. unfold calculate_kdv_api. rewrite Hp, Hr, Hw.
    rewrite (fle_false p 0 H0), (flt_false r 0 Hr0), (flt_false 100 r Hr100). cbn [orb].
    rewrite fdiv_100, (fdiv_one_plus (Fin p) r Hr0).
    cbn [default from_option id]. rewrite Ht, He.
    destruct (Service.pyval_eqb _ (PStr "add")); reflexivity. }
  assert (Hin : forall n, (1 < n)%nat -> length (PyStr.split_char "/" s) = n ->
                          PyStr.str_in "/" s = true).
  { intros n Hn Hlen. destruct (PyStr.str_in "/" s) eqn:E; [reflexivity|].
    rewrite (split_char_absent s E) in Hlen. cbn in Hlen. lia. }
  split; [|split; [|split]].
  - intros ratio Hratio. unfold calculate_kdv_api. rewrite Hp, Hr, Hw.
    rewrite (fle_false p 0 H0), (flt_false r 0 Hr0), (flt_false 100 r Hr100). cbn [orb].
    rewrite fdiv_100, (fdiv_one_plus (Fin p) r Hr0).
    cbn [default from_option id]. rewrite Ht, Hratio.
    destruct (Service.pyval_eqb _ (PStr "add")); do 3 eexists; split; reflexivity.
  - intros (e & He). exact (Hrun e He).
  - intros a b num z Hsplit Ha Hb Hz. apply (Hrun EZeroDivision).
    unfold withholding_ratio.
    rewrite (Hin 2%nat) by (try lia; rewrite Hsplit; reflexivity).
    rewrite Hsplit. cbn [map]. rewrite Ha, Hb. cbn [fdiv].
    apply Qeq_bool_iff in Hz. rewrite Hz. reflexivity.
  - intros Hlen. apply (Hrun EValue).
    unfold withholding_ratio.
    rewrite (Hin (length (PyStr.split_char "/" s))) by (try lia; reflexivity).
    destruct (PyStr.split_char "/" s) as [|a [|b [|c l]]]; cbn in Hlen; try lia.
    cbn [map]. destruct (float_of_text a); [|reflexivity].
    destruct (float_of_text b); reflexivity.
Qed.

(** X26: every direction other than "add" removes VAT: a request with
    such a direction is answered like the same request with the
    direction "remove", except that the answer echoes the direction
    that was given. *)
Theorem calculate_kdv_api_other_direction (d : kdv_data) :
  Service.pyval_eqb (default (PStr "add") (direction d)) (PStr "add") = false ->
  let r1 := calculate_kdv_api float_of_text d in
  let r2 := calculate_kdv_api float_of_text
              (mkData (Some (PStr "remove")) (price d) (rate d) (withholdingRate d)
                 (rounding d)) in
  success r1 = success r2 /\ error r1 = error r2 /\
  match data r1, data r2 with
  | Some a, Some b =>
      priceExclVat a = priceExclVat b /\ vatAmount a = vatAmount b /\
      priceInclVat a = priceInclVat b /\ vatRate a = vatRate b /\
      withholding a = withholding b /\
      r_direction a = default (PStr "add") (direction d) /\ r_direction b = PStr "remove"
  | None, None => True
  | _, _ => False
  end.
Proof.
  intros H. cbv zeta. unfold calculate_kdv_api.
  cbn [direction price rate withholdingRate rounding]. rewrite H.
  change (Service.pyval_eqb (default (PStr "add") (Some (PStr "remove"))) (PStr "add"))
    with false.
  destruct (to_float float_of_text (default (PFloat (Fin 0)) (price d))) as [e|pr].
  { destruct e; cbn; repeat split. }
  destruct (to_float float_of_text (default (PFloat (Fin 20)) (rate d))) as [e|rt].
  { destruct e; cbn; repeat split. }
  destruct (fle pr (Fin 0)); [cbn; repeat split|].
  destruct (flt rt (Fin 0) || flt (Fin 100) rt)%bool; [cbn; repeat split|].
  destruct (fdiv rt (Fin 100)) as [e|frac]; [destruct e; cbn; repeat split|].
  destruct (fdiv pr (fop Qplus (Fin 1) frac)) as [e|excl]; [destruct e; cbn; repeat split|].
  destruct (truthy (default PNone (withholdingRate d))); [|cbn; repeat split].
  destruct (default PNone (withholdingRate d)) as [|f|s];
    [cbn; repeat split|cbn; repeat split|].
  destruct (withholding_ratio float_of_text s); cbn; repeat split.
Qed.

Lemma to_float_inl (v : pyval) (e : exn) :
  to_float float_of_text v = inl e ->
  (e = EType /\ v = PNone) \/
  (e = EValue /\ exists s : string, v = PStr s /\ float_of_text s = None).
Proof.
  destruct v as [|f|s]; cbn [to_float].
  - intros H. injection H as <-. left. split; reflexivity.
  - discriminate.
  - destruct (float_of_text s) eqn:E; [discriminate|].
    intros H. injection H as <-. right. split; [reflexivity|].
    exists s. split; [reflexivity|exact E].
Qed.

Lemma default_float_inv (f : pyfloat) (o : option pyval) (v : pyval) :
  default (PFloat f) o = v -> (forall g, v <> PFloat g) -> o = Some v.
Proof.
  destruct o as [w|]; cbn; intros H Hv; [rewrite H; reflexivity|].
  exfalso. apply (Hv f). symmetry. exact H.
Qed.

Lemma amounts_ok (pr rt : pyfloat) :
  (flt rt (Fin 0) || flt (Fin 100) rt)%bool = false ->
  exists frac excl : pyfloat,
    fdiv rt (Fin 100) = inr frac /\ fdiv pr (fop Qplus (Fin 1) frac) = inr excl.
Proof.
  intros H. apply orb_false_iff in H as [H _]. rewrite fdiv_100.
  destruct rt as [r|].
  - assert (Hr0 : 0 <= r).
    { apply Qnot_lt_le. intros Hlt. apply flt_Fin in Hlt. congruence. }
    do 2 eexists. split; [reflexivity|]. apply (fdiv_one_plus pr r Hr0).
  - do 2 eexists. split; reflexivity.
Qed.

(** On a request whose values are null, numbers or texts, the answer
    "Hesaplama hatası" is given for a TypeError: a price or a rate that
    is null, or a withholding rate that is a number; the answer
    "Geçersiz sayısal değer" is given when the price or the rate is a
    text that [float] rejects. *)
Lemma calculate_kdv_api_failure_cases (d : kdv_data) (err : error_text) :
  error (calculate_kdv_api float_of_text d) = Some err ->
  (forall e : exn, err = Failed e ->
     e = EType /\
     (price d = Some PNone \/ rate d = Some PNone \/
      exists f : pyfloat, withholdingRate d = Some (PFloat f))) /\
  (err = BadNumber ->
   exists s : string,
     float_of_text s = None /\ (price d = Some (PStr s) \/ rate d = Some (PStr s))).
Proof.
  assert (Hconv : forall (f : pyfloat) (o : option pyval) (e : exn),
            to_float float_of_text (default (PFloat f) o) = inl e ->
            error (failure e) = Some err ->
            (forall e' : exn, err = Failed e' -> e' = EType /\ o = Some PNone) /\
            (err = BadNumber ->
             exists s : string, float_of_text s = None /\ o = Some (PStr s))).
  { intros f o e He Herr.
    apply to_float_inl in He as [[-> Hv]|[-> (s & Hv & Hs)]];
      cbn in Herr; injection Herr as <-.
    - split; [|discriminate]. intros e' He'. injection He' as <-.
      split; [reflexivity|]. apply (default_float_inv f); [exact Hv|discriminate].
    - split; [discriminate|]. intros _. exists s. split; [exact Hs|].
      apply (default_float_inv f); [exact Hv|discriminate]. }
  unfold calculate_kdv_api.
  destruct (to_float float_of_text (default (PFloat (Fin 0)) (price d))) as [e|pr] eqn:Ep.
  { intros Herr. destruct (Hconv _ _ _ Ep Herr) as [H1 H2]. split.
    - intros e' He'. destruct (H1 e' He') as [-> Hp]. split; [reflexivity|left; exact Hp].
    - intros Hb. destruct (H2 Hb) as (s & Hs & Hp). exists s. split; [exact Hs|left; exact Hp]. }
  destruct (to_float float_of_text (default (PFloat (Fin 20)) (rate d))) as [e|rt] eqn:Er.
  { intros Herr. destruct (Hconv _ _ _ Er Herr) as [H1 H2]. split.
    - intros e' He'. destruct (H1 e' He') as [-> Hp].
      split; [reflexivity|right; left; exact Hp].
    - intros Hb. destruct (H2 Hb) as (s & Hs & Hp).
      exists s. split; [exact Hs|right; exact Hp]. }
  destruct (fle pr (Fin 0)).
  { cbn. intros H. injection H as <-. split; [intros e0 He|intros He]; discriminate He. }
  destruct (flt rt (Fin 0) || flt (Fin 100) rt)%bool eqn:Ev.
  { cbn. intros H. injection H as <-. split; [intros e0 He|intros He]; discriminate He. }
  destruct (amounts_ok pr rt Ev) as (frac & excl & -> & ->).
  assert (Htail : forall x y z : pyfloat,
            error
              (let price_excl_vat := round_value x (default (PStr "even") (rounding d)) in
               let vat_amount := round_value y (default (PStr "even") (rounding d)) in
               let price_incl_vat := round_value z (default (PStr "even") (rounding d)) in
               let result w :=
                 mkResponse true None
                   (Some (mkKdv price_excl_vat vat_amount price_incl_vat rt
                            (default (PStr "add") (direction d)) w)) in
               if truthy (default PNone (withholdingRate d)) then
                 match default PNone (withholdingRate d) with
                 | PStr s =>
                     match withholding_ratio float_of_text s with
                     | inl _ => mkResponse false (Some BadWithholding) None
                     | inr ratio =>
                         let withholding_amount := fop Qmult vat_amount ratio in
                         let payable_vat := fop Qminus vat_amount withholding_amount in
                         result (Some (default PNone (withholdingRate d),
                                       round_value withholding_amount
                                         (default (PStr "even") (rounding d)),
                                       round_value payable_vat
                                         (default (PStr "even") (rounding d))))
                     end
                 | _ => failure EType
                 end
               else result None) = Some err ->
            (forall e : exn, err = Failed e ->
               e = EType /\
               (price d = Some PNone \/ rate d = Some PNone \/
                exists f : pyfloat, withholdingRate d = Some (PFloat f))) /\
            (err = BadNumber ->
             exists s : string,
               float_of_text s = None /\
               (price d = Some (PStr s) \/ rate d = Some (PStr s)))).
  { intros x y z. cbv zeta.
    destruct (truthy (default PNone (withholdingRate d))) eqn:Et; [|discriminate].
    destruct (withholdingRate d) as [[|f|s]|]; cbn [default from_option id] in *.
    - discriminate Et.
    - cbn. intros H. injection H as <-. split; [|discriminate].
      intros e He. injection He as <-. split; [reflexivity|].
      right. right. exists f. reflexivity.
    - destruct (withholding_ratio float_of_text s); cbn; intros H; [|discriminate H].
      injection H as <-. split; [intros e0 He|intros He]; discriminate He.
    - discriminate Et. }
  destruct (Service.pyval_eqb _ (PStr "add")); apply Htail.
Qed.

(** X27: the answer "Hesaplama hatası" is never given for a division
    by zero, nor for a ValueError: the divisor 1 + rate/100 is not zero
    once the rate is validated, and the division of a withholding
    fraction is answered with "Geçersiz tevkifat oranı formatı".  The
    answer "Geçersiz sayısal değer" is only given when the price or the
    rate is a text that [float] rejects. *)
Theorem calculate_kdv_api_failures (d : kdv_data) (err : error_text) :
  error (calculate_kdv_api float_of_text d) = Some err ->
  (forall e : exn, err = Failed e -> e <> EZeroDivision /\ e <> EValue) /\
  (err = BadNumber ->
   exists s : string,
     float_of_text s = None /\ (price d = Some (PStr s) \/ rate d = Some (PStr s))).
Proof.
  intros H. destruct (calculate_kdv_api_failure_cases d err H) as [H1 H2].
  split; [|exact H2].
  intros e He. destruct (H1 e He) as [-> _]. split; discriminate.
Qed.

End AppKdvFacts.

Section AppKdvWitnesses.
Import PyFloat AppKdv.

Lemma calculate_kdv_api_validation_witness :
  calculate_kdv_api Service.float_of_string
    (mkData None (Some (PFloat (Fin (-5)))) None None None)
  = mkResponse false (Some PriceNotPositive) None /\
  calculate_kdv_api Service.float_of_string
    (mkData None (Some (PFloat (Fin 100))) (Some (PFloat (Fin 120))) None None)
  = mkResponse false (Some RateOutOfRange) None /\
  exists res : kdv_result,
    calculate_kdv_api Service.float_of_string
      (mkData None (Some (PFloat (Fin 100))) None None None)
    = mkResponse true None (Some res) /\
    vatRate res = Fin 20 /\ r_direction res = PStr "add" /\ withholding res = None.
Proof.
  split; [|split].
  - destruct (calculate_kdv_api_validation Service.float_of_string
                (mkData None (Some (PFloat (Fin (-5)))) None None None) (-5) 20
                eq_refl eq_refl) as (H1 & _ & _).
    apply H1. discriminate.
  - destruct (calculate_kdv_api_validation Service.float_of_string
                (mkData None (Some (PFloat (Fin 100))) (Some (PFloat (Fin 120))) None None)
                100 120 eq_refl eq_refl) as (_ & H2 & _).
    apply H2; [reflexivity|right; reflexivity].
  - destruct (calculate_kdv_api_validation Service.float_of_string
                (mkData None (Some (PFloat (Fin 100))) None None None) 100 20
                eq_refl eq_refl) as (_ & _ & H3).
    apply H3; [reflexivity|discriminate|discriminate|reflexivity].
Defined.

Lemma calculate_kdv_api_withholding_witness :
  calculate_kdv_api Service.float_of_string
    (mkData None (Some (PFloat (Fin 100))) None (Some (PStr "7/0")) None)
  = mkResponse false (Some BadWithholding) None.
Proof.
  eapply (proj1 (proj2 (proj2
            (calculate_kdv_api_withholding Service.float_of_string
               (mkData None (Some (PFloat (Fin 100))) None (Some (PStr "7/0")) None)
               100 20 "7/0" eq_refl eq_refl _ _ _ eq_refl _))));
    reflexivity.
  Unshelve.
  - reflexivity.
  - discriminate.
  - discriminate.
  - discriminate.
Defined.

Lemma calculate_kdv_api_other_direction_witness :
  Service.pyval_eqb
    (default (PStr "add")
       (direction (mkData (Some (PStr "from_vat")) (Some (PFloat (Fin 120))) None None None)))
    (PStr "add") = false /\
  success (calculate_kdv_api Service.float_of_string
             (mkData (Some (PStr "from_vat")) (Some (PFloat (Fin 120))) None None None))
  = success (calculate_kdv_api Service.float_of_string
               (mkData (Some (PStr "remove")) (Some (PFloat (Fin 120))) None None None)).
Proof.
  split; [reflexivity|].
  apply (calculate_kdv_api_other_direction Service.float_of_string
           (mkData (Some (PStr "from_vat")) (Some (PFloat (Fin 120))) None None None)).
  reflexivity.
Defined.

Lemma calculate_kdv_api_failures_witness :
  error (calculate_kdv_api Service.float_of_string
           (mkData None (Some PNone) None None None)) = Some (Failed EType) /\
  (forall e : exn, Failed EType = Failed e -> e <> EZeroDivision /\ e <> EValue) /\
  error (calculate_kdv_api Service.float_of_string
           (mkData None (Some (PStr "abc")) None None None)) = Some BadNumber /\
  exists s : string,
    Service.float_of_string s = None /\
    (price (mkData None (Some (PStr "abc")) None None None) = Some (PStr s) \/
     rate (mkData None (Some (PStr "abc")) None None None) = Some (PStr s)).
Proof.
  split; [reflexivity|]. split.
  - apply (calculate_kdv_api_failures Service.float_of_string
             (mkData None (Some PNone) None None None) (Failed EType)).
    reflexivity.
  - split; [reflexivity|].
    apply (calculate_kdv_api_failures Service.float_of_string
             (mkData None (Some (PStr "abc")) None None None) BadNumber);
      reflexivity.
Defined.

End AppKdvWitnesses.

(** ** The product-group listing under a query *)

Section FilterBool.
Context {A : Type} (f : A -> bool).

(** The filter by a boolean test, one element at a time. *)
Lemma filter_cons_b (x : A) (l : list A) :
  filter (fun y => f y) (x :: l)
  = if f x then x :: filter (fun y => f y) l else filter (fun y => f y) l.
Proof.
  rewrite filter_cons. destruct (f x) eqn:E.
  - destruct (decide (f x)) as [_|H]; [reflexivity|].
    rewrite E in H. exfalso. apply H. exact I.
  - destruct (decide (f x)) as [H|_]; [|reflexivity].
    rewrite E in H. contradiction.
Qed.

End FilterBool.

Section SortFilter.
Context {A : Type} (le : A -> A -> bool) (P : A -> bool).
Hypothesis le_total : forall a b, le a b = true \/ le b a = true.
Hypothesis le_trans : forall a b c, le a b = true -> le b c = true -> le a c = true.

Lemma insert_by_front (x : A) (l : list A) :
  Forall (fun z => le x z = true) l -> insert_by le x l = x :: l.
Proof.
  destruct l as [|y l]; [reflexivity|].
  intros H. apply Forall_cons in H as [Hy _]. cbn [insert_by]. rewrite Hy. reflexivity.
Qed.

Lemma filter_insert_sorted (x : A) (l : list A) :
  StronglySorted (fun a b => le a b = true) l ->
  filter (fun y => P y) (insert_by le x l)
  = if P x then insert_by le x (filter (fun y => P y) l) else filter (fun y => P y) l.
Proof.
  induction 1 as [|y l Hs IH Hall]; cbn [insert_by].
  - rewrite filter_cons_b, filter_nil. destruct (P x); reflexivity.
  - destruct (le x y) eqn:E.
    + rewrite (filter_cons_b P x). destruct (P x) eqn:Px; [|reflexivity].
      symmetry. apply insert_by_front.
      apply Forall_forall. intros z Hz.
      apply list_elem_of_filter in Hz as [_ Hz].
      apply elem_of_cons in Hz as [->|Hz]; [exact E|].
      rewrite Forall_forall in Hall. eapply le_trans; [exact E|apply Hall; exact Hz].
    + rewrite (filter_cons_b P y), IH, (filter_cons_b P y).
      destruct (P y); [|reflexivity].
      destruct (P x); [|reflexivity].
      cbn [insert_by]. rewrite E. reflexivity.
Qed.

(** Filtering commutes with the stable sort. *)
Lemma sort_by_filter (l : list A) :
  filter (fun y => P y) (sort_by le l) = sort_by le (filter (fun y => P y) l).
Proof.
  induction l as [|x l IH]; [reflexivity|].
  cbn [sort_by].
  rewrite (filter_insert_sorted x (sort_by le l))
    by (apply sort_by_sorted; assumption).
  rewrite filter_cons_b.
  destruct (P x); [|exact IH].
  cbn [sort_by]. rewrite IH. reflexivity.
Qed.

End SortFilter.

Section PgQuery.
Import Service.

Variable lower : string -> string.

Lemma str_in_empty (s : string) : PyStr.str_in "" s = true.
Proof. destruct s; reflexivity. Qed.

Lemma dict_get_filter {V} (P : string -> bool) (k : string) (d : list (string * V)) :
  P k = true ->
  dict_get k (filter (fun kv : string * V => P (fst kv)) d) = dict_get k d.
Proof.
  intros Hk. induction d as [|[k' v'] d IH]; [reflexivity|].
  rewrite (filter_cons_b (fun kv : string * V => P (fst kv))). cbn [fst dict_get].
  destruct (String.eqb_spec k k') as [<-|Hne].
  - rewrite Hk. cbn [dict_get]. rewrite String.eqb_refl. reflexivity.
  - destruct (P k'); [|exact IH].
    cbn [dict_get]. destruct (String.eqb_spec k k'); [contradiction|]. exact IH.
Qed.

Lemma dict_set_filter_true {V} (P : string -> bool) (k : string) (v : V)
    (d : list (string * V)) :
  P k = true ->
  dict_set k v (filter (fun kv : string * V => P (fst kv)) d)
  = filter (fun kv : string * V => P (fst kv)) (dict_set k v d).
Proof.
  intros Hk. induction d as [|[k' v'] d IH]; cbn [dict_set].
  - rewrite (filter_cons_b (fun kv : string * V => P (fst kv))), filter_nil.
    cbn [fst]. rewrite Hk. reflexivity.
  - rewrite (filter_cons_b (fun kv : string * V => P (fst kv))). cbn [fst].
    destruct (String.eqb_spec k k') as [<-|Hne].
    + rewrite Hk. cbn [dict_set]. rewrite String.eqb_refl.
      rewrite (filter_cons_b (fun kv : string * V => P (fst kv))).
      cbn [fst]. rewrite Hk. reflexivity.
    + rewrite (filter_cons_b (fun kv : string * V => P (fst kv)) (k', v')). cbn [fst].
      destruct (P k'); [|exact IH].
      cbn [dict_set]. destruct (String.eqb_spec k k'); [contradiction|].
      rewrite IH. reflexivity.
Qed.

Lemma dict_set_filter_false {V} (P : string -> bool) (k : string) (v : V)
    (d : list (string * V)) :
  P k = false ->
  filter (fun kv : string * V => P (fst kv)) (dict_set k v d)
  = filter (fun kv : string * V => P (fst kv)) d.
Proof.
  intros Hk. induction d as [|[k' v'] d IH]; cbn [dict_set].
  - rewrite (filter_cons_b (fun kv : string * V => P (fst kv))), filter_nil.
    cbn [fst]. rewrite Hk. reflexivity.
  - destruct (String.eqb_spec k k') as [<-|Hne].
    + rewrite !(filter_cons_b (fun kv : string * V => P (fst kv))).
      cbn [fst]. rewrite Hk. reflexivity.
    + rewrite !(filter_cons_b (fun kv : string * V => P (fst kv))), IH. reflexivity.
Qed.

(** Whether the query takes a product group. *)
Lemma pg_passes_query (norm_q : string) (r : Row) :
  pg_passes lower norm_q r
  = (pg_passes lower "" r
     && (String.eqb norm_q ""
         || PyStr.str_in norm_q (_normalize_turkish (lower (pg_of r)))))%bool.
Proof.
  unfold pg_passes. cbn [String.eqb orb]. rewrite andb_true_r. reflexivity.
Qed.

Lemma pg_fold_query (norm_q : string) (rows : list Row) :
  fold_left (pg_step lower norm_q) rows []
  = filter (fun kv : string * pg_entry =>
              String.eqb norm_q ""
              || PyStr.str_in norm_q (_normalize_turkish (lower (fst kv))))
      (fold_left (pg_step lower "") rows []).
Proof.
  set (P := fun k : string =>
              (String.eqb norm_q ""
               || PyStr.str_in norm_q (_normalize_turkish (lower k)))%bool).
  change (fold_left (pg_step lower norm_q) rows []
          = filter (fun kv : string * pg_entry => P (fst kv))
              (fold_left (pg_step lower "") rows [])).
  induction rows as [|r rows IH] using rev_ind; [reflexivity|].
  rewrite !fold_left_app. cbn [fold_left]. rewrite IH.
  set (seen := fold_left (pg_step lower "") rows []).
  rewrite !pg_step_unfold, pg_passes_query. fold (P (pg_of r)).
  destruct (pg_passes lower "" r); cbn [andb]; [|reflexivity].
  destruct (P (pg_of r)) eqn:Hp.
  - rewrite (dict_get_filter P _ seen Hp).
    destruct (match dict_get (pg_of r) seen with
              | Some current => fgt (pg_value r) (or_zero (commissionPercent current))
              | None => true
              end); [|reflexivity].
    apply dict_set_filter_true. exact Hp.
  - destruct (match dict_get (pg_of r) seen with
              | Some current => fgt (pg_value r) (or_zero (commissionPercent current))
              | None => true
              end); [|reflexivity].
    symmetry. apply dict_set_filter_false. exact Hp.
Qed.

Lemma pg_fold_names (norm_q : string) (rows : list Row) :
  Forall (fun kv : string * pg_entry => productGroup (snd kv) = fst kv)
    (fold_left (pg_step lower norm_q) rows []).
Proof.
  induction rows as [|r rows IH] using rev_ind; [constructor|].
  rewrite fold_left_app. cbn [fold_left].
  set (seen := fold_left (pg_step lower norm_q) rows []) in *.
  rewrite pg_step_unfold.
  destruct (pg_passes lower norm_q r); [|exact IH].
  destruct (match dict_get (pg_of r) seen with
            | Some current => fgt (pg_value r) (or_zero (commissionPercent current))
            | None => true
            end); [|exact IH].
  clearbody seen. induction seen as [|[k e] seen IHs]; cbn [dict_set].
  - repeat constructor.
  - apply Forall_cons in IH as [Hk IH].
    destruct (String.eqb (pg_of r) k).
    + constructor; [reflexivity|exact IH].
    + constructor; [exact Hk|apply IHs; exact IH].
Qed.

Lemma map_snd_filter (P : string -> bool) (d : list (string * pg_entry)) :
  Forall (fun kv : string * pg_entry => productGroup (snd kv) = fst kv) d ->
  map snd (filter (fun kv : string * pg_entry => P (fst kv)) d)
  = filter (fun e : pg_entry => P (productGroup e)) (map snd d).
Proof.
  induction d as [|[k e] d IH]; intros H; [reflexivity|].
  apply Forall_cons in H as [Hk H]. cbn [fst snd] in Hk.
  cbn [map snd].
  rewrite (filter_cons_b (fun kv : string * pg_entry => P (fst kv))).
  rewrite (filter_cons_b (fun e : pg_entry => P (productGroup e))).
  cbn [fst]. rewrite Hk.
  destruct (P k); cbn [map snd]; rewrite (IH H); reflexivity.
Qed.

(** X28: a query filters the product-group listing by name only: the
    listing for a query is the listing for the empty query restricted
    to the product groups whose folded name contains the folded query.
    The commission of a group is thus its highest over all its rows,
    whatever the query. *)
Theorem list_pg_commissions_query (s : state) (site_key q : string) :
  let norm_q := if String.eqb q "" then "" else _normalize_turkish (lower q) in
  list_pg_commissions lower s site_key q
  = filter (fun e : pg_entry =>
              String.eqb norm_q ""
              || PyStr.str_in norm_q (_normalize_turkish (lower (productGroup e))))
      (list_pg_commissions lower s site_key "").
Proof.
  cbv zeta. unfold list_pg_commissions. cbn [String.eqb].
  set (norm_q := if String.eqb q "" then "" else _normalize_turkish (lower q)).
  set (rows := data_of s site_key).
  rewrite (pg_fold_query norm_q rows).
  rewrite (map_snd_filter
             (fun k => String.eqb norm_q ""
                       || PyStr.str_in norm_q (_normalize_turkish (lower k)))%bool)
    by apply pg_fold_names.
  symmetry.
  apply (sort_by_filter
           (fun a b : pg_entry => String.leb (lower (productGroup a)) (lower (productGroup b)))
           (fun e : pg_entry =>
              String.eqb norm_q ""
              || PyStr.str_in norm_q (_normalize_turkish (lower (productGroup e))))%bool).
  - intros a b. apply String.leb_total.
  - intros a b c. apply string_leb_trans.
Qed.

End PgQuery.

(** ** Searching for the text of a row *)

Section StripSubstring.

Lemma append_cons (c : ascii) (a b : string) :
  (String c a ++ b)%string = String c (a ++ b)%string.
Proof. reflexivity. Qed.

Lemma append_nil_l (b : string) : ("" ++ b)%string = b.
Proof. reflexivity. Qed.

Lemma append_nil_r (a : string) : (a ++ "")%string = a.
Proof.
  induction a as [|c a IH]; [reflexivity|]. rewrite append_cons, IH. reflexivity.
Qed.

Lemma append_assoc (a b c : string) : ((a ++ b) ++ c)%string = (a ++ (b ++ c))%string.
Proof.
  induction a as [|x a IH]; [reflexivity|]. rewrite !append_cons, IH. reflexivity.
Qed.

Lemma rev_app_append (a t u : string) :
  (String.rev_app a t ++ u)%string = String.rev_app a (t ++ u)%string.
Proof.
  revert t. induction a as [|c a IH]; intros t; [reflexivity|].
  cbn [String.rev_app]. rewrite IH, append_cons. reflexivity.
Qed.

Lemma rev_app_app (a b t : string) :
  String.rev_app (a ++ b)%string t = String.rev_app b (String.rev_app a t).
Proof.
  revert t. induction a as [|c a IH]; intros t; [reflexivity|].
  rewrite append_cons. cbn [String.rev_app]. apply IH.
Qed.

Lemma rev_app_rev_app (a t u : string) :
  String.rev_app (String.rev_app a t) u = String.rev_app t (a ++ u)%string.
Proof.
  revert t u. induction a as [|c a IH]; intros t u; [reflexivity|].
  cbn [String.rev_app]. rewrite IH. cbn [String.rev_app]. rewrite append_cons. reflexivity.
Qed.

Lemma rev_rev (a : string) : String.rev (String.rev a) = a.
Proof.
  unfold String.rev. rewrite rev_app_rev_app. cbn [String.rev_app]. apply append_nil_r.
Qed.

Lemma rev_append (a b : string) :
  String.rev (a ++ b)%string = (String.rev b ++ String.rev a)%string.
Proof.
  unfold String.rev. rewrite rev_app_app, rev_app_append. reflexivity.
Qed.

Lemma drop_split (n : nat) (s : string) :
  exists p : string, s = (p ++ PyStr.drop n s)%string.
Proof.
  revert s. induction n as [|n IH]; intros s.
  - exists "". destruct s; reflexivity.
  - destruct s as [|c s]; [exists ""; reflexivity|].
    destruct (IH s) as (p & Hp). exists (String c p).
    cbn [PyStr.drop]. rewrite append_cons, <- Hp. reflexivity.
Qed.

Lemma lstrip_go_suffix (ws : list string) (fuel : nat) (s : string) :
  exists p : string, s = (p ++ PyStr.lstrip_go ws fuel s)%string.
Proof.
  revert s. induction fuel as [|fuel IH]; intros s; cbn [PyStr.lstrip_go].
  - exists "". reflexivity.
  - destruct (find (fun w => String.prefix w s) ws) as [w|]; [|exists ""; reflexivity].
    destruct (drop_split (String.length w) s) as (p1 & H1).
    destruct (IH (PyStr.drop (String.length w) s)) as (p2 & H2).
    exists (p1 ++ p2)%string. rewrite append_assoc, <- H2. exact H1.
Qed.

(** The stripped text is a part of the text. *)
Lemma strip_substring (t : string) :
  exists pre suf : string, t = (pre ++ PyStr.strip t ++ suf)%string.
Proof.
  unfold PyStr.strip, PyStr.rstrip, PyStr.lstrip.
  destruct (lstrip_go_suffix PyStr.whitespace (String.length t) t) as (pre & Hpre).
  set (l := PyStr.lstrip_go PyStr.whitespace (String.length t) t) in *.
  destruct (lstrip_go_suffix (map String.rev PyStr.whitespace) (String.length l)
              (String.rev l)) as (q & Hq).
  set (x := PyStr.lstrip_go (map String.rev PyStr.whitespace) (String.length l)
              (String.rev l)) in *.
  exists pre, (String.rev q).
  rewrite <- rev_append, <- Hq, rev_rev. exact Hpre.
Qed.

Lemma prefix_nil (s : string) : String.prefix "" s = true.
Proof. destruct s; reflexivity. Qed.

Lemma prefix_append (m suf : string) : String.prefix m (m ++ suf)%string = true.
Proof.
  induction m as [|c m IH]; [apply prefix_nil|].
  rewrite append_cons. cbn [String.prefix]. destruct (ascii_dec c c) as [_|H]; [exact IH|contradiction H; reflexivity].
Qed.

Lemma str_in_unfold (sub s : string) :
  PyStr.str_in sub s
  = (String.prefix sub s
     || match s with
        | "" => false
        | String _ s' => PyStr.str_in sub s'
        end)%bool.
Proof. destruct s; reflexivity. Qed.

Lemma str_in_middle (m pre suf : string) :
  PyStr.str_in m (pre ++ m ++ suf)%string = true.
Proof.
  induction pre as [|c pre IH].
  - rewrite append_nil_l, str_in_unfold, prefix_append. reflexivity.
  - rewrite append_cons, str_in_unfold, IH. apply orb_true_r.
Qed.

Lemma str_in_strip (t : string) : PyStr.str_in (PyStr.strip t) t = true.
Proof.
  destruct (strip_substring t) as (pre & suf & H).
  rewrite H at 2. apply str_in_middle.
Qed.

End StripSubstring.

Section SearchOwnText.
Import Service.

Variable lower : string -> string.

Lemma search_products_finds (s : state) (mid query : string) (r : Row) :
  r ∈ data_of s mid ->
  matches lower (PyStr.strip (_normalize_turkish (lower query))) r = true ->
  r ∈ Service.search_products lower s mid query.
Proof.
  intros Hr Hm. unfold Service.search_products.
  destruct (String.eqb _ ""); [exact Hr|].
  rewrite sort_by_perm. apply list_elem_of_filter. split; [|exact Hr].
  apply Is_true_true. exact Hm.
Qed.

(** X29: a row is always found by its own texts: the search for the
    category, for the sub-category or for the product group of a row of
    the marketplace returns that row (among others), however the text
    is cased or padded; and in the search for its category the row has
    the first rank. *)
Theorem search_products_finds_own_text (s : state) (mid : string) (r : Row) :
  r ∈ data_of s mid ->
  r ∈ Service.search_products lower s mid (Kategori r) /\
  r ∈ Service.search_products lower s mid (Alt_Kategori r) /\
  r ∈ Service.search_products lower s mid (Urun_Grubu r) /\
  priority lower (PyStr.strip (_normalize_turkish (lower (Kategori r)))) r = 0%nat.
Proof.
  intros Hr.
  pose proof (str_in_strip (_normalize_turkish (lower (Kategori r)))) as Hc.
  pose proof (str_in_strip (_normalize_turkish (lower (Alt_Kategori r)))) as Ha.
  pose proof (str_in_strip (_normalize_turkish (lower (Urun_Grubu r)))) as Hu.
  repeat split.
  - apply search_products_finds; [exact Hr|]. unfold matches, fold_text.
    rewrite Hc. reflexivity.
  - apply search_products_finds; [exact Hr|]. unfold matches, fold_text.
    rewrite Ha. apply orb_true_iff. left. apply orb_true_r.
  - apply search_products_finds; [exact Hr|]. unfold matches, fold_text.
    rewrite Hu. apply orb_true_r.
  - unfold priority, fold_text. rewrite Hc. reflexivity.
Qed.

End SearchOwnText.

Section SearchOwnTextWitness.
Import Service.

Lemma search_products_finds_own_text_witness :
  SampleRows.row_Bx ∈ data_of SampleRows.two_categories "n11" /\
  SampleRows.row_Bx
    ∈ Service.search_products ascii_lower SampleRows.two_categories "n11"
        (Kategori SampleRows.row_Bx).
Proof.
  assert (H : SampleRows.row_Bx ∈ data_of SampleRows.two_categories "n11").
  { apply list_elem_of_In. vm_compute. right. left. reflexivity. }
  split; [exact H|].
  exact (proj1 (search_products_finds_own_text ascii_lower SampleRows.two_categories
                  "n11" SampleRows.row_Bx H)).
Defined.

End SearchOwnTextWitness.

(** ** The floats of the interpreter: rounding keeps a large value away from zero *)

Section Float64Rounding.
Import SpecFloat.

#[local] Open Scope Z_scope.

Lemma digits2_pos_size (p : positive) : digits2_pos p = Pos.size p.
Proof. induction p as [p IH|p IH|]; cbn; [rewrite IH| rewrite IH|]; reflexivity. Qed.

Lemma Zdigits2_log2 (p : positive) : Zdigits2 (Zpos p) = Z.log2 (Zpos p) + 1.
Proof.
  cbn [Zdigits2]. rewrite digits2_pos_size.
  destruct p as [p|p|]; cbn [Z.log2 Pos.size]; lia.
Qed.

Lemma Zdigits2_le (a b : positive) :
  (a <= b)%positive -> Zdigits2 (Zpos a) <= Zdigits2 (Zpos b).
Proof.
  intros H. rewrite !Zdigits2_log2.
  assert (Z.log2 (Zpos a) <= Z.log2 (Zpos b)) by (apply Z.log2_le_mono; lia). lia.
Qed.

Lemma shr_1_m (r : shr_record) : 0 <= shr_m r -> shr_m (shr_1 r) = Z.shiftr (shr_m r) 1.
Proof.
  destruct r as [m r s]. cbn [shr_m]. intros H.
  destruct m as [|[p|p|]|p]; cbn; try reflexivity. lia.
Qed.

Lemma iter_shr_1_m (p : positive) (r : shr_record) :
  0 <= shr_m r -> shr_m (iter_pos shr_1 p r) = Z.shiftr (shr_m r) (Zpos p).
Proof.
  revert r. induction p as [p IH|p IH|]; intros r H; cbn [iter_pos].
  - assert (H1 : 0 <= shr_m (shr_1 r)).
    { rewrite shr_1_m by assumption. apply Z.shiftr_nonneg. assumption. }
    assert (H2 : 0 <= shr_m (iter_pos shr_1 p (shr_1 r))).
    { rewrite IH by assumption. apply Z.shiftr_nonneg. assumption. }
    rewrite IH by assumption. rewrite IH by assumption.
    rewrite shr_1_m by assumption.
    rewrite !Z.shiftr_shiftr by lia. f_equal. lia.
  - assert (H2 : 0 <= shr_m (iter_pos shr_1 p r)).
    { rewrite IH by assumption. apply Z.shiftr_nonneg. assumption. }
    rewrite IH by assumption. rewrite IH by assumption.
    rewrite !Z.shiftr_shiftr by lia. f_equal. lia.
  - apply shr_1_m. assumption.
Qed.

Lemma shr_record_of_loc_m (m : Z) (l : location) : shr_m (shr_record_of_loc m l) = m.
Proof. destruct l as [|[| |]]; reflexivity. Qed.

(** The shift to the format keeps a mantissa positive when the value
    lies above the subnormal range. *)
Lemma shr_fexp_pos (m : positive) (e : Z) (l : location) (mrs : shr_record) (e' : Z) :
  - 1021 <= Zdigits2 (Zpos m) + e ->
  shr_fexp 53 1024 (Zpos m) e l = (mrs, e') ->
  exists m' : positive,
    shr_m mrs = Zpos m' /\ - 1021 <= Zdigits2 (Zpos m') + e'.
Proof.
  intros HE. unfold shr_fexp, fexp, emin, shr.
  set (d := Zdigits2 (Zpos m)) in *.
  replace (Z.max (d + e - 53) (3 - 1024 - 53)) with (d + e - 53) by lia.
  destruct (d + e - 53 - e) as [|n|n] eqn:En; intros H; injection H as <- <-.
  - exists m. rewrite shr_record_of_loc_m. split; [reflexivity|exact HE].
  - rewrite iter_shr_1_m by (rewrite shr_record_of_loc_m; lia).
    rewrite shr_record_of_loc_m.
    assert (Hd : d = Z.log2 (Zpos m) + 1) by apply Zdigits2_log2.
    assert (Hlog : Z.log2 (Z.shiftr (Zpos m) (Zpos n)) = 52).
    { rewrite Z.log2_shiftr by lia. lia. }
    destruct (Z.shiftr (Zpos m) (Zpos n)) as [|m'|m'] eqn:Es; [discriminate Hlog| |discriminate Hlog].
    exists m'. split; [reflexivity|]. rewrite Zdigits2_log2, Hlog. lia.
  - exists m. rewrite shr_record_of_loc_m. split; [reflexivity|exact HE].
Qed.

Lemma round_nearest_even_pos (m : positive) (l : location) :
  exists m' : positive, round_nearest_even (Zpos m) l = Zpos m' /\ (m <= m')%positive.
Proof.
  destruct l as [|[| |]]; cbn [round_nearest_even].
  - exists m. split; [reflexivity|lia].
  - destruct (Z.even (Zpos m)).
    + exists m. split; [reflexivity|lia].
    + exists (m + 1)%positive. split; [reflexivity|lia].
  - exists m. split; [reflexivity|lia].
  - exists (m + 1)%positive. split; [reflexivity|lia].
Qed.

Lemma binary_round_aux_nonzero (s : bool) (m : positive) (e : Z) (l : location) :
  - 1021 <= Zdigits2 (Zpos m) + e ->
  Float64.is_zero (binary_round_aux 53 1024 s (Zpos m) e l) = false.
Proof.
  intros HE. unfold binary_round_aux.
  destruct (shr_fexp 53 1024 (Zpos m) e l) as [mrs' e'] eqn:E1.
  destruct (shr_fexp_pos m e l mrs' e' HE E1) as (m1 & Hm1 & HE1).
  rewrite Hm1.
  destruct (round_nearest_even_pos m1 (loc_of_shr_record mrs')) as (m2 & -> & Hle).
  destruct (shr_fexp 53 1024 (Zpos m2) e' loc_Exact) as [mrs'' e''] eqn:E2.
  assert (HE2 : - 1021 <= Zdigits2 (Zpos m2) + e').
  { pose proof (Zdigits2_le m1 m2 Hle). lia. }
  destruct (shr_fexp_pos m2 e' loc_Exact mrs'' e'' HE2 E2) as (m3 & -> & _).
  destruct (e'' <=? 1024 - 53); reflexivity.
Qed.

Lemma digits2_pos_iter_xO (m d : positive) :
  Zpos (digits2_pos (Pos.iter xO m d)) = Zpos (digits2_pos m) + Zpos d.
Proof.
  induction d as [|d IH] using Pos.peano_ind.
  - cbn. lia.
  - rewrite Pos.iter_succ. cbn [digits2_pos]. lia.
Qed.

Lemma shl_align_digits (m : positive) (e e' : Z) :
  Zpos (digits2_pos (fst (shl_align m e e'))) + snd (shl_align m e e')
  = Zpos (digits2_pos m) + e /\
  snd (shl_align m e e') = Z.min e e'.
Proof.
  unfold shl_align. destruct (e' - e) as [|d|d] eqn:Ed; cbn [fst snd].
  - split; lia.
  - split; lia.
  - rewrite digits2_pos_iter_xO. split; lia.
Qed.

Lemma binary_round_nonzero (s : bool) (m : positive) (e : Z) :
  - 1021 <= Zdigits2 (Zpos m) + e ->
  Float64.is_zero (binary_round 53 1024 s m e) = false.
Proof.
  intros HE. unfold binary_round.
  pose proof (shl_align_digits m e (fexp 53 1024 (Zpos (digits2_pos m) + e))) as [Hd _].
  destruct (shl_align m e (fexp 53 1024 (Zpos (digits2_pos m) + e))) as [mz ez].
  cbn [fst snd] in Hd.
  apply binary_round_aux_nonzero. cbn [Zdigits2] in *. lia.
Qed.

(** The divisor of the VAT share: 100.0 plus a positive float is not
    zero. *)
Lemma add_hundred_nonzero (y : Float64.float) :
  Float64.ltb Float64.zero y = true ->
  Float64.is_zero (Float64.add Service64.hundred y) = false.
Proof.
  destruct y as [s|s| |s m e]; try (cbn; discriminate).
  - destruct s; [cbn; discriminate|]. intros _. reflexivity.
  - destruct s; [cbn; discriminate|]. intros _.
    change Service64.hundred with (S754_finite false 7036874417766400 (-46)).
    unfold Float64.add, SFadd. change Float64.prec with 53. change Float64.emax with 1024.
    cbn [cond_Zopp].
    pose proof (shl_align_digits 7036874417766400 (-46) (Z.min (-46) e)) as [Ha Hs].
    set (a := fst (shl_align 7036874417766400 (-46) (Z.min (-46) e))) in *.
    set (b := fst (shl_align m e (Z.min (-46) e))).
    change (Zpos a + Zpos b) with (Zpos (a + b)).
    cbn [binary_normalize].
    apply binary_round_nonzero.
    assert (Hle : Zdigits2 (Zpos a) <= Zdigits2 (Zpos (a + b))) by (apply Zdigits2_le; lia).
    cbn [Zdigits2] in *.
    change (Zpos (digits2_pos 7036874417766400)) with 53 in Ha.
    rewrite Hs in Ha. clear Hs. clearbody a b.
    change (IntDef.Z.min (-46) e) with (Z.min (-46) e).
    generalize dependent (Zpos (digits2_pos (a + b))).
    generalize dependent (Zpos (digits2_pos a)). intros x Hx y Hy. lia.
Qed.

End Float64Rounding.

(** ** The commission and profit calculation on the floats of the interpreter *)

Section Commission64.
Import Float64 Service64.

Lemma positive_float (x : float) :
  ltb zero x = true -> leb x zero = false /\ is_zero x = false.
Proof.
  destruct x as [s|s| |s m e]; try (cbn; discriminate).
  - destruct s; [cbn; discriminate|]. intros _. split; reflexivity.
  - destruct s; [cbn; discriminate|]. intros _. split; reflexivity.
Qed.

Lemma div_nonzero (x y : float) :
  is_zero y = false -> div x y = ok (quotient x y).
Proof. intros H. unfold div. rewrite H. reflexivity. Qed.

(** The VAT share never divides by zero. *)
Lemma extract_vat_share_returns (gross vat_percent : float) :
  _extract_vat_share gross vat_percent
  = ok (if ltb zero vat_percent
        then mul gross (quotient vat_percent (add hundred vat_percent))
        else zero).
Proof.
  unfold _extract_vat_share. destruct (ltb zero vat_percent) eqn:E; [|reflexivity].
  rewrite div_nonzero by (apply add_hundred_nonzero; exact E). reflexivity.
Qed.

(** C2 (as amended): on a positive sale price the calculation returns
    the commission, service and export amounts, the payout, the net
    profit and the profit margin of the formulas, each computed by the
    float operations from the unrounded quantities and then rounded to
    two decimals by [round]; on the end-to-end example it returns
    commission 20, payout 160, net profit 60 and margin 30. *)
Theorem calculate_commission_rounded_formulas (mid : string) (p : calc_params) :
  ltb zero (or_zero (salePrice p)) = true ->
  (exists res : calc_result,
     calculate_commission mid p = ok res /\
     commissionAmount res = round2 (commission p) /\
     serviceAmount res = round2 (service p) /\
     exportAmount res = round2 (export p) /\
     payout res = round2 (unrounded_payout p) /\
     netProfit res = round2 (net_profit p) /\
     profitMargin res = round2 (margin p) /\
     error res = None) /\
  (exists res : calc_result,
     calculate_commission mid Sample64.end_to_end = ok res /\
     commissionAmount res = of_Z 20 /\ payout res = of_Z 160 /\
     netProfit res = of_Z 60 /\ profitMargin res = of_Z 30).
Proof.
  intros Hs. split.
  - destruct (positive_float _ Hs) as [Hle Hnz].
    unfold calculate_commission. rewrite Hle, Hs.
    assert (Hh : is_zero hundred = false) by reflexivity.
    rewrite !(div_nonzero _ hundred Hh). cbn [rbind ok].
    rewrite (div_nonzero _ _ Hnz). cbn [rbind ok].
    rewrite !extract_vat_share_returns. cbn [rbind ok].
    eexists. split; [reflexivity|]. repeat split.
  - eexists. split; [vm_compute; reflexivity|]. repeat split.
Qed.

Lemma calculate_commission_rounded_formulas_witness :
  ltb zero (or_zero (salePrice Sample64.end_to_end)) = true /\
  exists res : calc_result,
    calculate_commission "hepsiburada" Sample64.end_to_end = ok res /\
    commissionAmount res = round2 (commission Sample64.end_to_end) /\
    serviceAmount res = round2 (service Sample64.end_to_end) /\
    exportAmount res = round2 (export Sample64.end_to_end) /\
    payout res = round2 (unrounded_payout Sample64.end_to_end) /\
    netProfit res = round2 (net_profit Sample64.end_to_end) /\
    profitMargin res = round2 (margin Sample64.end_to_end) /\
    error res = None.
Proof.
  split; [reflexivity|].
  apply (calculate_commission_rounded_formulas "hepsiburada" Sample64.end_to_end).
  reflexivity.
Defined.

(** C2, as stated, fails: with sale price 1, commission 0.4 % and
    service fee 0.4 % the returned commission amount is 0.0, not the
    0.004 that the percentage of the sale price is, and the returned
    payout 0.99 is not the sale price minus the returned amounts. *)
Lemma calculate_commission_returns_rounded_amounts :
  ltb zero (or_zero (salePrice Sample64.small_fees)) = true /\
  exists res : calc_result,
    calculate_commission "trendyol" Sample64.small_fees = ok res /\
    commissionAmount res = zero /\
    commission Sample64.small_fees = of_Q (4 # 1000) /\
    commissionAmount res <> commission Sample64.small_fees /\
    payout res = of_Q (99 # 100) /\
    payout res
    <> sub (of_Z 1)
         (add (add (add (commissionAmount res) (serviceAmount res)) (exportAmount res))
            zero).
Proof.
  split; [reflexivity|].
  eexists. split; [vm_compute; reflexivity|].
  split; [reflexivity|]. split; [vm_compute; reflexivity|].
  split; [vm_compute; discriminate|].
  split; [vm_compute; reflexivity|]. vm_compute. discriminate.
Qed.

(** The rounding is that of the binary value: 267.5 * 1 / 100.0 is the
    float below 2.675, and the commission returned is 2.67, where the
    decimal 2.675 would give 2.68. *)
Lemma calculate_commission_binary_rounding :
  exists res : calc_result,
    calculate_commission "trendyol" Sample64.half_cent_commission = ok res /\
    commissionAmount res = of_Q (267 # 100) /\
    round_int ROUND_HALF_EVEN ((2675 # 1000) * 100)%Q = 268%Z.
Proof.
  eexists. split; [vm_compute; reflexivity|].
  split; [vm_compute; reflexivity|reflexivity].
Qed.

(** X20: the marketplace only labels the result of the calculation:
    for two marketplace ids and the same parameters both calls end the
    same way, and two results differ in the label alone.  No rate of
    the marketplace's table is applied. *)
Theorem calculate_commission_ignores_marketplace (m1 m2 : string) (p : calc_params) :
  match calculate_commission m1 p, calculate_commission m2 p with
  | inr r1, inr r2 =>
      marketplace r1 = m1 /\ marketplace r2 = m2 /\
      r2 = mkResult m2 (payout r1) (netProfit r1) (profitMargin r1) (netMargin r1)
             (detailedProfitNet r1) (commissionAmount r1) (serviceAmount r1)
             (exportAmount r1) (cargoDeduction r1) (saleVat r1) (buyVat r1) (commVat r1)
             (servVat r1) (expVat r1) (inputVat r1) (vatPayable r1) (error r1) (params r1)
  | inl e1, inl e2 => e1 = e2
  | _, _ => False
  end.
Proof.
  unfold calculate_commission.
  destruct (leb (or_zero (salePrice p)) zero); [cbn; repeat split|].
  repeat match goal with
         | |- context [rbind ?m _] =>
             match m with
             | rbind _ _ => fail 1
             | _ => destruct m as [?e|?v]; cbn [rbind ok raise]; [reflexivity|]
             end
         end.
  cbn. repeat split.
Qed.

End Commission64.

(** ** calculators/desi.py: the volumetric weight *)

Section DesiFacts.
Import Float64 Desi.
Variable float_of_text : string -> option float.

Lemma not_le_zero_nonzero (x : float) : leb x zero = false -> is_zero x = false.
Proof. destruct x as [s|s| |s m e]; try reflexivity. destruct s; discriminate. Qed.

(** Once the answer has checked the four numbers, [calculate_desi]
    raises nothing. *)
Lemma calculate_desi_returns (w h l f : float) :
  leb w zero || leb h zero || leb l zero = false ->
  leb f zero = false ->
  calculate_desi w h l f
  = ok (mkDesi w h l (mul (mul w h) l)
          (SpecFloat.SFdiv prec emax (mul (mul w h) l) (of_Z 1000000))
          (SpecFloat.SFdiv prec emax (mul (mul w h) l) f)
          (SpecFloat.SFdiv prec emax (mul (mul w h) l) f) f).
Proof.
  intros Hd Hf. unfold calculate_desi. rewrite Hd, Hf.
  unfold div. rewrite (not_le_zero_nonzero f Hf).
  change (is_zero (of_Z 1000000)) with false. reflexivity.
Qed.

Lemma number_or_overflow (dflt : Z) (v : json) :
  number_or float_of_text dflt v = inl COverflowError ->
  exists (n : Z) (s : bool), v = JInt n /\ of_Z n = SpecFloat.S754_infinity s.
Proof.
  unfold number_or. destruct (blank v); [discriminate|].
  destruct v as [|b|n|x|t|]; cbn [to_float]; try discriminate.
  - destruct (of_Z n) as [s|s| |s m e] eqn:E; try discriminate.
    intros _. exists n, s. split; [reflexivity|exact E].
  - destruct (float_of_text t); discriminate.
Qed.

(** X30: once the three dimensions and the factor of a request are
    converted to the floats w, h, l and f, [calculate_desi_api] refuses
    the request for the dimensions when one of them is 0 or less, for
    the factor when the factor is 0 or less, and otherwise answers with
    the volume w*h*l in cm3, its millionth in m3 and desi = w*h*l/f,
    also as volumetric weight, each computed by the float operations.
    Whatever the request, a success carries a result and no error
    text, the calculation behind the checks never raises, and the
    answer for an unexpected error is only given for an integer beyond
    the range of the floats. *)
Theorem calculate_desi_api_answer (d : desi_data) (vw vh vl : json) (w h l f : float) :
  d_width d = Some vw -> d_height d = Some vh -> d_length d = Some vl ->
  is_null vw = false -> is_null vh = false -> is_null vl = false ->
  number_or float_of_text 0 vw = inr w ->
  number_or float_of_text 0 vh = inr h ->
  number_or float_of_text 0 vl = inr l ->
  number_or float_of_text 3000 (default (JInt 3000) (d_desi_factor d)) = inr f ->
  calculate_desi_api float_of_text d
  = (if leb w zero || leb h zero || leb l zero
     then refuse "En, boy ve yükseklik değerleri 0'dan büyük olmalıdır"
     else if leb f zero then refuse "Desi faktörü 0'dan büyük olmalıdır"
     else mkResponse true
            (Some (mkDesi w h l (mul (mul w h) l)
                     (SpecFloat.SFdiv prec emax (mul (mul w h) l) (of_Z 1000000))
                     (SpecFloat.SFdiv prec emax (mul (mul w h) l) f)
                     (SpecFloat.SFdiv prec emax (mul (mul w h) l) f) f))
            None) /\
  (forall d' : desi_data,
      (success (calculate_desi_api float_of_text d') = true ->
       error (calculate_desi_api float_of_text d') = None /\
       exists r : DesiResult,
         data (calculate_desi_api float_of_text d') = Some r /\
         volumetric_weight r = desi r) /\
      error (calculate_desi_api float_of_text d')
      <> Some "Beklenmeyen hata: float division by zero" /\
      (error (calculate_desi_api float_of_text d')
       = Some "Beklenmeyen hata: int too large to convert to float" ->
       exists (n : Z) (s : bool),
         of_Z n = SpecFloat.S754_infinity s /\
         (d_width d' = Some (JInt n) \/ d_height d' = Some (JInt n) \/
          d_length d' = Some (JInt n) \/ d_desi_factor d' = Some (JInt n)))).
Proof.
  intros Hw Hh Hl Iw Ih Il Nw Nh Nl Nf. split.
  - unfold calculate_desi_api. rewrite Hw, Hh, Hl.
    cbn [default from_option id]. rewrite Iw, Ih, Il, Nw, Nh, Nl, Nf.
    destruct (leb w zero || leb h zero || leb l zero) eqn:Ed; [reflexivity|].
    destruct (leb f zero) eqn:Ef; [reflexivity|].
    rewrite (calculate_desi_returns w h l f Ed Ef). reflexivity.
  - intros d'. unfold calculate_desi_api.
    destruct (is_null (default JNull (d_width d'))) eqn:Iw';
      [repeat split; discriminate|].
    destruct (is_null (default JNull (d_height d'))) eqn:Ih';
      [repeat split; discriminate|].
    destruct (is_null (default JNull (d_length d'))) eqn:Il';
      [repeat split; discriminate|].
    destruct (number_or float_of_text 0 (default JNull (d_width d'))) as [e|w'] eqn:Nw'.
    { destruct e; cbn; repeat split; try discriminate. intros _.
      destruct (number_or_overflow _ _ Nw') as (n & s & Hv & Hn).
      exists n, s. split; [exact Hn|]. left.
      destruct (d_width d') as [v|]; cbn in Hv; [congruence|discriminate Hv]. }
    destruct (number_or float_of_text 0 (default JNull (d_height d'))) as [e|h'] eqn:Nh'.
    { destruct e; cbn; repeat split; try discriminate. intros _.
      destruct (number_or_overflow _ _ Nh') as (n & s & Hv & Hn).
      exists n, s. split; [exact Hn|]. right. left.
      destruct (d_height d') as [v|]; cbn in Hv; [congruence|discriminate Hv]. }
    destruct (number_or float_of_text 0 (default JNull (d_length d'))) as [e|l'] eqn:Nl'.
    { destruct e; cbn; repeat split; try discriminate. intros _.
      destruct (number_or_overflow _ _ Nl') as (n & s & Hv & Hn).
      exists n, s. split; [exact Hn|]. right. right. left.
      destruct (d_length d') as [v|]; cbn in Hv; [congruence|discriminate Hv]. }
    destruct (number_or float_of_text 3000 (default (JInt 3000) (d_desi_factor d')))
      as [e|f'] eqn:Nf'.
    { destruct e; cbn; repeat split; try discriminate. intros _.
      destruct (number_or_overflow _ _ Nf') as (n & s & Hv & Hn).
      exists n, s. split; [exact Hn|]. right. right. right.
      destruct (d_desi_factor d') as [v|]; cbn in Hv; [congruence|].
      injection Hv as <-. vm_compute in Hn. discriminate Hn. }
    destruct (leb w' zero || leb h' zero || leb l' zero) eqn:Ed;
      [repeat split; discriminate|].
    destruct (leb f' zero) eqn:Ef; [repeat split; discriminate|].
    rewrite (calculate_desi_returns w' h' l' f' Ed Ef).
    cbn. repeat split; try discriminate.
    eexists. split; reflexivity.
Qed.

End DesiFacts.

Section DesiWitness.
Import Float64 Desi.

Lemma calculate_desi_api_answer_witness :
  calculate_desi_api (fun _ => None)
    (mkData (Some (JInt 30)) (Some (JFloat (of_Z 20))) (Some (JInt 15)) None)
  = mkResponse true
      (Some (mkDesi (of_Z 30) (of_Z 20) (of_Z 15) (of_Z 9000) (of_Q (9 # 1000))
               (of_Z 3) (of_Z 3) (of_Z 3000)))
      None /\
  calculate_desi_api (fun _ => None)
    (mkData (Some (JInt (-5))) (Some (JInt 20)) (Some (JInt 15)) None)
  = refuse "En, boy ve yükseklik değerleri 0'dan büyük olmalıdır".
Proof.
  split.
  - refine (eq_trans
              (proj1 (calculate_desi_api_answer (fun _ => None)
                        (mkData (Some (JInt 30)) (Some (JFloat (of_Z 20))) (Some (JInt 15))
                           None)
                        (JInt 30) (JFloat (of_Z 20)) (JInt 15)
                        (of_Z 30) (of_Z 20) (of_Z 15) (of_Z 3000)
                        eq_refl eq_refl eq_refl eq_refl eq_refl eq_refl
                        eq_refl eq_refl eq_refl eq_refl)) _).
    vm_compute. reflexivity.
  - refine (eq_trans
              (proj1 (calculate_desi_api_answer (fun _ => None)
                        (mkData (Some (JInt (-5))) (Some (JInt 20)) (Some (JInt 15)) None)
                        (JInt (-5)) (JInt 20) (JInt 15)
                        (of_Z (-5)) (of_Z 20) (of_Z 15) (of_Z 3000)
                        eq_refl eq_refl eq_refl eq_refl eq_refl eq_refl
                        eq_refl eq_refl eq_refl eq_refl)) _).
    vm_compute. reflexivity.
Defined.

End DesiWitness.
